(** * minifigures.py: spreadsheet -> scrape -> sort -> PDF report

    A shallow embedding of [src/minifigures.py] and the properties its
    specification states about it.

    Conventions of the embedding.
    - A Python [str] is a Rocq [string]; each character stands for the code
      point of the same number (U+0000 .. U+00FF).  On that range the class
      [\d] of [re] is exactly ['0'..'9'].
    - A Python [float] is a primitive binary64 [float]; a Python [int] is a [Z].
    - A call that can raise returns a [result]; the exception classes that the
      program can meet are the constructors of [exn] (messages are elided).
    - Effects (files written, browser session closed, document written) are
      recorded in order as a list of [event]s; progress lines printed to the
      standard output are not recorded.
    - The world outside the program (spreadsheet files, web pages, HTTP
      responses, the image decoder) is a record of oracles, [Web]: a link or
      a URL always gets the same answer during a run.  Starting and closing
      the browser, creating the image directory and writing a decoded image
      or the document to disk are taken to succeed; so is placing an image
      file in the document (in a run it is a file the run has just written).
      A spreadsheet path names a workbook that can be read, or no file.
    - What the libraries fix but the script does not (the text of a float in
      an f-string, FPDF's page layout) is a record of parameters, [Runtime].
    - The builtin [sum] adds from left to right, each addition rounded to
      binary64, as CPython does up to version 3.11. *)

From Stdlib Require Import ZArith List String Ascii Bool Lia Permutation Sorted.
From Stdlib Require Import Floats DecimalString.
From Stdlib Require QArith Qround Qpower.
Import ListNotations.

(* ================================================================== *)
(** * Python values, exceptions, results *)

Inductive exn : Type :=
| KeyError
| ValueError
| TypeError
| OverflowError
| AttributeError
| IndexError
| FileNotFoundError
| NoSuchElementException
| WebDriverException
| RequestException
| UnidentifiedImageError.

Inductive result (A : Type) : Type :=
| Ok (a : A)
| Raise (e : exn).
Arguments Ok {A} a.
Arguments Raise {A} e.

Definition bind {A B : Type} (r : result A) (k : A -> result B) : result B :=
  match r with
  | Ok a => k a
  | Raise e => Raise e
  end.

Declare Scope py_scope.
Delimit Scope py_scope with py.
Notation "x <- r ;; k" := (bind r (fun x => k))
  (at level 61, r at next level, right associativity) : py_scope.

(** The values a spreadsheet cell, and hence a field of the two named tuples,
    can hold. *)
Inductive pyval : Type :=
| PyNone
| PyInt (z : Z)
| PyFloat (f : float)
| PyStr (s : string).

(** ** Numbers *)

(** [float(z)] for an [int]: CPython rounds to nearest-even and raises
    [OverflowError] when the rounded value would reach 2^1024, that is when
    [|z| >= 2^1024 - 2^970]. *)
Definition int_too_large (z : Z) : bool :=
  (2 ^ 1024 - 2 ^ 970 <=? Z.abs z)%Z.

Definition Z2F (z : Z) : float :=
  SF2Prim (binary_normalize prec emax z 0 false).

Definition float_of_int (z : Z) : result float :=
  if int_too_large z then Raise OverflowError else Ok (Z2F z).

(** [int(f)] for a [float]: truncation toward zero; infinities and NaN raise. *)
Definition int_of_float (f : float) : result Z :=
  match Prim2SF f with
  | S754_nan => Raise ValueError
  | S754_infinity _ => Raise OverflowError
  | S754_zero _ => Ok 0%Z
  | S754_finite s m e =>
      let a := if (0 <=? e)%Z then (Zpos m * 2 ^ e)%Z
               else (Zpos m / 2 ^ (- e))%Z in
      Ok (if s then (- a)%Z else a)
  end.

(** [math.isnan(v)]: the argument is converted to a float first. *)
Definition math_isnan (v : pyval) : result bool :=
  match v with
  | PyNone => Raise TypeError
  | PyInt z => if int_too_large z then Raise OverflowError else Ok false
  | PyFloat f => Ok (is_nan f)
  | PyStr _ => Raise TypeError
  end.

(** [int(v)].  On text [int] parses a literal; no call of the program reaches
    that case ([math.isnan] has raised [TypeError] before, see
    [quantity_factor_str] and [price_value_str]), and the model answers
    [ValueError] there. *)
Definition py_int (v : pyval) : result Z :=
  match v with
  | PyNone => Raise TypeError
  | PyInt z => Ok z
  | PyFloat f => int_of_float f
  | PyStr _ => Raise ValueError
  end.

(** [not v]: Python's truth value, negated. *)
Definition py_not (v : pyval) : bool :=
  match v with
  | PyNone => true
  | PyInt z => (z =? 0)%Z
  | PyFloat f => (f =? 0)%float
  | PyStr s => match s with EmptyString => true | String _ _ => false end
  end.

Definition py_is_none (v : pyval) : bool :=
  match v with
  | PyNone => true
  | _ => false
  end.

(** [p * k] for a float [p] and an int [k]. *)
Definition float_mul_int (p : float) (k : Z) : result float :=
  (f <- float_of_int k ;; Ok (p * f)%float)%py.

(** [str(z)] for an [int]. *)
Definition str_of_int (z : Z) : string :=
  NilZero.string_of_int (Z.to_int z).

(* ================================================================== *)
(** * Globals (lines 18-35) *)

Definition IMG_PATH : string := "img".
Definition PDF_NAME : string := "my_minifigures.pdf".
Definition EXCEL_PATH : string := "my_minifigures.xlsx".
Definition EXCEL_SHEET_NAME : string := "Minifigures".
Definition EXCEL_LINK_COLUMN_NAME : string := "Link".
Definition EXCEL_QUANTITY_COLUMN_NAME : string := "Quantity".
Definition USED_FIGURE_TABLE_ID : nat := 1.
Definition MINIFIGURE_NAME_MAX_LENGTH : nat := 46.

(** The literal part of [AVG_PRICE_PATTERN = r"Avg Price: UAH ([\d,]+\.\d+)"]. *)
Definition AVG_PRICE_PREFIX : string := "Avg Price: UAH ".

(* ================================================================== *)
(** * Data types (lines 38-39) *)

(** The field [quantity] of [MinifigureInputData] is [in_quantity] here: the
    fields of the two records share one name space. *)
Record MinifigureInputData : Type := {
  link : pyval;
  in_quantity : pyval
}.

Record MinifigureWebData : Type := {
  name : string;
  price : float;
  quantity : pyval;
  image : string
}.

(* ================================================================== *)
(** * Name normalization (lines 54-55 and 75-77) *)

(** The character class [[\'/]]. *)
Definition is_quote_or_slash (c : ascii) : bool :=
  (Ascii.eqb c "'" || Ascii.eqb c "/")%bool.

(** [re.sub(r"[\'/]", "", name)] *)
Fixpoint normalize_minifigure_name (name : string) : string :=
  match name with
  | EmptyString => EmptyString
  | String c rest =>
      if is_quote_or_slash c then normalize_minifigure_name rest
      else String c (normalize_minifigure_name rest)
  end.

(** Lines 75-77: the name given to a fetched item. *)
Definition fetched_minifigure_name (fetched_name : string) : string :=
  let minifigure_name := normalize_minifigure_name fetched_name in
  if (MINIFIGURE_NAME_MAX_LENGTH <? String.length minifigure_name)%nat
  then (substring 0 MINIFIGURE_NAME_MAX_LENGTH minifigure_name ++ "...")%string
  else minifigure_name.

(* ================================================================== *)
(** * Price extraction (lines 31 and 80-81) *)

Definition is_digit (c : ascii) : bool :=
  let n := nat_of_ascii c in ((48 <=? n) && (n <=? 57))%nat.

Definition is_comma (c : ascii) : bool := Ascii.eqb c ",".

(** The character class [[\d,]]. *)
Definition is_digit_or_comma (c : ascii) : bool :=
  (is_digit c || is_comma c)%bool.

(** The longest prefix of [s] made of characters of the class [p], and what
    follows it: a greedy [p*]. *)
Fixpoint span (p : ascii -> bool) (s : string) : string * string :=
  match s with
  | EmptyString => (EmptyString, EmptyString)
  | String c rest =>
      if p c then let '(run, tail) := span p rest in (String c run, tail)
      else (EmptyString, s)
  end.

(** [s] without the literal [lit] at its head, if it starts with it. *)
Fixpoint strip_prefix (lit s : string) : option string :=
  match lit, s with
  | EmptyString, _ => Some s
  | String a lit', String b s' =>
      if Ascii.eqb a b then strip_prefix lit' s' else None
  | String _ _, EmptyString => None
  end.

(** One attempt of the pattern at the head of [s]; the answer is group 1.
    A greedy [[\d,]+] must be followed by ["."], which is not in the class,
    and [\d+] closes the pattern: giving characters back never helps, so
    the attempt is decided by the two longest runs. *)
Definition match_here (s : string) : option string :=
  match strip_prefix AVG_PRICE_PREFIX s with
  | None => None
  | Some rest =>
      match span is_digit_or_comma rest with
      | (EmptyString, _) => None
      | (whole, String c rest') =>
          if Ascii.eqb c "." then
            match span is_digit rest' with
            | (EmptyString, _) => None
            | (frac, _) => Some (whole ++ String "." frac)%string
            end
          else None
      | (_, EmptyString) => None
      end
  end.

(** [re.search(AVG_PRICE_PATTERN, text)]: the leftmost position at which the
    pattern matches, with group 1 of the match there. *)
Fixpoint re_search_from (pos : nat) (text : string) : option (nat * string) :=
  match match_here text with
  | Some g => Some (pos, g)
  | None =>
      match text with
      | EmptyString => None
      | String _ rest => re_search_from (S pos) rest
      end
  end.

Definition re_search (text : string) : option (nat * string) :=
  re_search_from 0 text.

(** [s.replace(",", "")] *)
Fixpoint remove_commas (s : string) : string :=
  match s with
  | EmptyString => EmptyString
  | String c rest =>
      if is_comma c then remove_commas rest else String c (remove_commas rest)
  end.

(** The number written by a string of decimal digits, most significant first. *)
Fixpoint digits_value (acc : Z) (s : string) : Z :=
  match s with
  | EmptyString => acc
  | String c rest => digits_value (10 * acc + (Z.of_nat (nat_of_ascii c) - 48))%Z rest
  end.

(** The binary64 number nearest to [n / 10^k] (ties to even), for [n >= 0]. *)
Definition float_of_decimal (n : Z) (k : nat) : float :=
  match n with
  | Zpos _ =>
      let '(m, e, l) := SFdiv_core_binary prec emax n 0 (10 ^ Z.of_nat k) 0 in
      SF2Prim (binary_round_aux prec emax false m e l)
  | _ => zero
  end.

(** [float(s)] on the strings that reach it, what is left of a match of the
    pattern: digits (possibly none), a point, digits
    ([float_of_string_group]).  On any other string the model answers
    [ValueError]. *)
Definition float_of_string (s : string) : result float :=
  match span is_digit s with
  | (whole, String c rest) =>
      if Ascii.eqb c "." then
        match span is_digit rest with
        | (frac, EmptyString) =>
            match whole, frac with
            | EmptyString, EmptyString => Raise ValueError
            | _, _ => Ok (float_of_decimal (digits_value 0 (whole ++ frac)%string)
                            (String.length frac))
            end
        | (_, String _ _) => Raise ValueError
        end
      else Raise ValueError
  | (whole, EmptyString) =>
      match whole with
      | EmptyString => Raise ValueError
      | _ => Ok (float_of_decimal (digits_value 0 whole) 0)
      end
  end.

(** Line 81:
    [float(re.search(AVG_PRICE_PATTERN, table_text).group(1).replace(",", ""))];
    [.group] on the [None] of a failed search is an [AttributeError]. *)
Definition parse_price (table_text : string) : result float :=
  match re_search table_text with
  | None => Raise AttributeError
  | Some (_, g) => float_of_string (remove_commas g)
  end.

(* ================================================================== *)
(** * The outside world and the effects of a run *)

(** ** Spreadsheets, as pandas reads them *)

(** A sheet: the header row and the rows below it; a blank cell is [None]. *)
Record sheet : Type := {
  header : list string;
  body : list (list (option pyval))
}.

Definition workbook : Type := list (string * sheet).

Record DataFrame : Type := {
  columns : list string;
  rows : list (list pyval)
}.

(** pandas fills a blank cell with NaN. *)
Definition cell_value (c : option pyval) : pyval :=
  match c with
  | Some v => v
  | None => PyFloat nan
  end.

Fixpoint find_sheet (sheet_name : string) (wb : workbook) : option sheet :=
  match wb with
  | [] => None
  | (n, sh) :: rest => if String.eqb n sheet_name then Some sh else find_sheet sheet_name rest
  end.

(** ** Web pages, HTTP, images *)

Record response : Type := {
  status_code : Z;
  content : list Byte.byte
}.

(** What the browser shows for a link, as far as the script looks:
    - [title_text]: the text of the element with id [item-name-title], if any;
    - [summary_tables]: the texts of the elements of class [pcipgSummaryTable];
    - [main_image]: the element with id [_idImageMain], if any, as the value
      of its [src] attribute, if it has one. *)
Record page : Type := {
  title_text : option string;
  summary_tables : list string;
  main_image : option (option string)
}.

Record Web : Type := {
  (** the spreadsheet files on disk *)
  excel_files : string -> option workbook;
  (** [os.path.exists(IMG_PATH)] when the run starts *)
  img_dir_exists : bool;
  (** [driver.get(link)], then the page as rendered *)
  driver_get : pyval -> result page;
  (** [requests.get(url, headers=REQUESTS_HEADERS)] *)
  requests_get : option string -> result response;
  (** whether [Image.open] recognises the bytes *)
  image_open : list Byte.byte -> bool
}.

(** What the libraries fix and the script does not. *)
Record Runtime : Type := {
  (** the text of a float in an f-string *)
  float_repr : float -> string;
  (** FPDF's left and top margins and the height that triggers an automatic
      page break, in the document's unit *)
  l_margin : float;
  t_margin : float;
  page_break_trigger : float
}.

(** ** The document under construction *)

Inductive pdf_op : Type :=
| OpAddPage
| OpCell (page : nat) (x y w h : float) (txt : string)
| OpImage (page : nat) (file : string) (x y w h : float).

Record FPDF : Type := {
  page_no : nat;
  cur_x : float;
  cur_y : float;
  ops : list pdf_op
}.

(** ** Effects *)

Inductive event : Type :=
| EvMakedirs (path : string)
| EvSaveImage (path : string) (bytes : list Byte.byte)
| EvDriverQuit
| EvPdfOutput (path : string) (doc : list pdf_op).

(** A computation with effects: the events it caused, in order, and how it
    ended. *)
Definition io (A : Type) : Type := (list event * result A)%type.

Definition io_ret {A : Type} (a : A) : io A := ([], Ok a).
Definition io_raise {A : Type} (e : exn) : io A := ([], Raise e).
Definition io_lift {A : Type} (r : result A) : io A := ([], r).
Definition io_emit (ev : event) : io unit := ([ev], Ok tt).

Definition io_bind {A B : Type} (m : io A) (k : A -> io B) : io B :=
  match m with
  | (evs, Ok a) => let '(evs', r) := k a in (evs ++ evs', r)
  | (evs, Raise e) => (evs, Raise e)
  end.

Declare Scope io_scope.
Delimit Scope io_scope with io.
Notation "x <- m ;; k" := (io_bind m (fun x => k))
  (at level 61, m at next level, right associativity) : io_scope.
Notation "' p <- m ;; k" := (io_bind m (fun x => let p := x in k))
  (at level 61, p pattern, m at next level, right associativity) : io_scope.

(* ================================================================== *)
(** * Input Loader: [read_excel] (lines 42-51) *)

(** [pandas.read_excel(file_path, sheet_name=...)].  A path at which no
    workbook can be read is taken to name no file; what pandas raises on a
    file that exists and cannot be read is outside the model. *)
Definition pandas_read_excel (w : Web) (file_path sheet_name : string)
  : result DataFrame :=
  match excel_files w file_path with
  | None => Raise FileNotFoundError
  | Some wb =>
      match find_sheet sheet_name wb with
      | None => Raise ValueError
      | Some sh =>
          Ok {| columns := header sh;
                rows := map (map cell_value) (body sh) |}
      end
  end.

Fixpoint index_of (col : string) (cols : list string) : option nat :=
  match cols with
  | [] => None
  | c :: rest =>
      if String.eqb c col then Some O
      else option_map S (index_of col rest)
  end.

(** [row[col]]; a row shorter than the header is padded with NaN. *)
Definition row_getitem (cols : list string) (row : list pyval) (col : string)
  : result pyval :=
  match index_of col cols with
  | None => Raise KeyError
  | Some i => Ok (nth i row (PyFloat nan))
  end.

(** [row.get(col, default)] *)
Definition row_get (cols : list string) (row : list pyval) (col : string)
  (default : pyval) : pyval :=
  match index_of col cols with
  | None => default
  | Some i => nth i row (PyFloat nan)
  end.

(** The loop of lines 46-49, [minifigure_list] being the list built so far. *)
Fixpoint read_rows (cols : list string) (rws : list (list pyval))
  (minifigure_list : list MinifigureInputData)
  : result (list MinifigureInputData) :=
  match rws with
  | [] => Ok minifigure_list
  | row :: rest =>
      (lnk <- row_getitem cols row EXCEL_LINK_COLUMN_NAME ;;
       let qty := row_get cols row EXCEL_QUANTITY_COLUMN_NAME PyNone in
       read_rows cols rest
         (minifigure_list ++ [{| link := lnk; in_quantity := qty |}]))%py
  end.

Definition read_excel (w : Web) (file_path : string)
  : result (list MinifigureInputData) :=
  (excel_data <- pandas_read_excel w file_path EXCEL_SHEET_NAME ;;
   read_rows (columns excel_data) (rows excel_data) [])%py.

(* ================================================================== *)
(** * Web Fetcher: [fetch_minifigures_data] (lines 58-100) *)

Definition find_element {A : Type} (e : option A) : result A :=
  match e with
  | Some a => Ok a
  | None => Raise NoSuchElementException
  end.

Definition list_getitem {A : Type} (l : list A) (i : nat) : result A :=
  match nth_error l i with
  | Some a => Ok a
  | None => Raise IndexError
  end.

(** The body of the loop, lines 71-96, up to the [append].  Writing the
    decoded image to its path (line 92) is taken to succeed. *)
Definition fetch_item (w : Web) (input_element : MinifigureInputData)
  : io MinifigureWebData :=
  (pg <- io_lift (driver_get w (link input_element)) ;;
   fetched_name <- io_lift (find_element (title_text pg)) ;;
   let minifigure_name := fetched_minifigure_name fetched_name in
   table_text <- io_lift (list_getitem (summary_tables pg) USED_FIGURE_TABLE_ID) ;;
   minifigure_price <- io_lift (parse_price table_text) ;;
   image_url <- io_lift (find_element (main_image pg)) ;;
   resp <- io_lift (requests_get w image_url) ;;
   if (status_code resp =? 200)%Z then
     if image_open w (content resp) then
       let minifigure_img :=
         (IMG_PATH ++ "/" ++ minifigure_name ++ ".jpg")%string in
       _ <- io_emit (EvSaveImage minifigure_img (content resp)) ;;
       io_ret {| name := minifigure_name;
                 price := minifigure_price;
                 quantity := in_quantity input_element;
                 image := minifigure_img |}
     else io_raise UnidentifiedImageError
   else io_raise ValueError)%io.

(** How the loop of line 70 ends: the list built so far, and the exception
    that stopped it, if one did. *)
Record loop_exit : Type := {
  result_list : list MinifigureWebData;
  raised : option exn
}.

Fixpoint fetch_loop (w : Web) (input_list : list MinifigureInputData)
  (acc : list MinifigureWebData) : list event * loop_exit :=
  match input_list with
  | [] => ([], {| result_list := acc; raised := None |})
  | input_element :: rest =>
      match fetch_item w input_element with
      | (evs, Ok item) =>
          let '(evs', ex) := fetch_loop w rest (acc ++ [item]) in
          (evs ++ evs', ex)
      | (evs, Raise e) => (evs, {| result_list := acc; raised := Some e |})
      end
  end.

Definition fetch_minifigures_data (w : Web)
  (input_list : list MinifigureInputData) : io (list MinifigureWebData) :=
  let mk := if img_dir_exists w then [] else [EvMakedirs IMG_PATH] in
  let '(evs, ex) := fetch_loop w input_list [] in
  match raised ex with
  | None => (mk ++ evs ++ [EvDriverQuit], Ok (result_list ex))
  | Some e => (mk ++ evs, Raise e)
  end.

(* ================================================================== *)
(** * Aggregator: [sort_minifigure_list] (lines 103-108) *)

(** [sorted(input_list, key=lambda x: x.price, reverse=True)].  The builtin
    is a stable sort that compares keys with [<] only; with [reverse=True]
    items come out by decreasing key, ties in their input order.  It is
    modelled by a stable insertion: an item moves past the items of strictly
    greater price and stops before the first other one.  On prices that are
    numbers every stable sort gives this list
    ([sorted_by_price_reverse_unique]).  With a NaN among the prices the
    order the builtin gives depends on how it merges, and is not this one;
    properties of the order carry the hypothesis that prices are numbers,
    which holds of what the Web Fetcher returns. *)
Fixpoint insert_by_price (x : MinifigureWebData) (l : list MinifigureWebData)
  : list MinifigureWebData :=
  match l with
  | [] => [x]
  | y :: rest =>
      if (price x <? price y)%float then y :: insert_by_price x rest
      else x :: l
  end.

Definition sorted_by_price_reverse (input_list : list MinifigureWebData)
  : list MinifigureWebData :=
  fold_right insert_by_price [] input_list.

(** The factor of line 106:
    [1 if q is None or math.isnan(q) else int(q)]. *)
Definition quantity_factor (q : pyval) : result Z :=
  (b <- (if py_is_none q then Ok true else math_isnan q) ;;
   if b then Ok 1%Z else py_int q)%py.

(** [acc + t] for a float [t]; [acc] is the int [0] of [sum] or a float. *)
Definition py_add_float (acc : pyval) (t : float) : result pyval :=
  match acc with
  | PyInt z => (f <- float_of_int z ;; Ok (PyFloat (f + t)%float))%py
  | PyFloat a => Ok (PyFloat (a + t)%float)
  | _ => Raise TypeError
  end.

(** [sum(figure.price * factor for figure in figures)] continued from [acc]:
    terms are computed and added from left to right, each addition rounded
    to binary64.  This is the builtin of CPython up to version 3.11; from
    3.12 on [sum] carries a correction term along floats, and its result can
    differ from this one where an addition rounds. *)
Fixpoint sum_values (figures : list MinifigureWebData) (acc : pyval)
  : result pyval :=
  match figures with
  | [] => Ok acc
  | figure :: rest =>
      (k <- quantity_factor (quantity figure) ;;
       t <- float_mul_int (price figure) k ;;
       acc' <- py_add_float acc t ;;
       sum_values rest acc')%py
  end.

Definition sort_minifigure_list (input_list : list MinifigureWebData)
  : result (pyval * list MinifigureWebData) :=
  let minifigures_sorted := sorted_by_price_reverse input_list in
  (total_value <- sum_values minifigures_sorted (PyInt 0) ;;
   Ok (total_value, minifigures_sorted))%py.

(* ================================================================== *)
(** * Report Renderer: [create_pdf_document] (lines 111-142) *)

(** ** The part of FPDF the script drives *)

Definition FPDF_new : FPDF :=
  {| page_no := 0; cur_x := 0%float; cur_y := 0%float; ops := [] |}.

Definition add_page (rt : Runtime) (pdf : FPDF) : FPDF :=
  {| page_no := S (page_no pdf);
     cur_x := l_margin rt;
     cur_y := t_margin rt;
     ops := ops pdf ++ [OpAddPage] |}.

Definition get_x (pdf : FPDF) : float := cur_x pdf.
Definition get_y (pdf : FPDF) : float := cur_y pdf.

(** [pdf.cell(w, h, txt, ln=...)]: a cell that would pass the trigger height
    goes to a new page, at the same abscissa; the cursor then moves right,
    or to the next line when [ln] is set. *)
Definition cell (rt : Runtime) (pdf : FPDF) (w h : float) (txt : string)
  (ln : bool) : FPDF :=
  let pdf1 :=
    if (page_break_trigger rt <? cur_y pdf + h)%float then
      let p := add_page rt pdf in
      {| page_no := page_no p; cur_x := cur_x pdf; cur_y := cur_y p;
         ops := ops p |}
    else pdf in
  let drawn := ops pdf1 ++ [OpCell (page_no pdf1) (cur_x pdf1) (cur_y pdf1) w h txt] in
  if ln then
    {| page_no := page_no pdf1; cur_x := l_margin rt;
       cur_y := (cur_y pdf1 + h)%float; ops := drawn |}
  else
    {| page_no := page_no pdf1; cur_x := (cur_x pdf1 + w)%float;
       cur_y := cur_y pdf1; ops := drawn |}.

(** [pdf.ln(h)] *)
Definition ln (rt : Runtime) (pdf : FPDF) (h : float) : FPDF :=
  {| page_no := page_no pdf; cur_x := l_margin rt;
     cur_y := (cur_y pdf + h)%float; ops := ops pdf |}.

(** [pdf.image(file, x=, y=, w=, h=)]: placed where told, the cursor stays.
    The file is taken to be an image that can be read, as the files of a
    run are; where it is not, FPDF raises, and that is outside the model. *)
Definition pdf_image (pdf : FPDF) (file : string) (x y w h : float) : FPDF :=
  {| page_no := page_no pdf; cur_x := cur_x pdf; cur_y := cur_y pdf;
     ops := ops pdf ++ [OpImage (page_no pdf) file x y w h] |}.

(** ** The script *)

(** A value inside an f-string. *)
Definition py_format (rt : Runtime) (v : pyval) : string :=
  match v with
  | PyNone => "None"
  | PyInt z => str_of_int z
  | PyFloat f => float_repr rt f
  | PyStr s => s
  end.

(** Line 133. *)
Definition price_value (rt : Runtime) (minifigure_data : MinifigureWebData)
  : result string :=
  let q := quantity minifigure_data in
  (b <- (if py_not q then Ok true else math_isnan q) ;;
   if b then Ok ("UAH " ++ float_repr rt (price minifigure_data))%string
   else
     k <- py_int q ;;
     Ok ("UAH " ++ float_repr rt (price minifigure_data)
           ++ " x" ++ str_of_int k)%string)%py.

(** Lines 125-126. *)
Definition page_check (rt : Runtime) (pdf : FPDF) : FPDF :=
  if (260 <? get_y pdf)%float then add_page rt pdf else pdf.

(** Lines 128-139: one row, drawn from where the cursor is. *)
Definition render_row (rt : Runtime) (pdf : FPDF) (element_index : Z)
  (minifigure_data : MinifigureWebData) : result FPDF :=
  let current_x := get_x pdf in
  let current_y := get_y pdf in
  let pdf := cell rt pdf 120 10
               (str_of_int element_index ++ ". " ++ name minifigure_data)%string
               false in
  (pv <- price_value rt minifigure_data ;;
   let pdf := cell rt pdf 20 10 pv false in
   let pdf := pdf_image pdf (image minifigure_data)
                (current_x + 166)%float current_y 20 20 in
   Ok (ln rt pdf 22))%py.

(** The body of the loop, lines 125-139. *)
Definition render_item (rt : Runtime) (pdf : FPDF) (element_index : Z)
  (minifigure_data : MinifigureWebData) : result FPDF :=
  render_row rt (page_check rt pdf) element_index minifigure_data.

Fixpoint render_items (rt : Runtime) (input_list : list MinifigureWebData)
  (element_index : Z) (pdf : FPDF) : result FPDF :=
  match input_list with
  | [] => Ok pdf
  | minifigure_data :: rest =>
      (pdf' <- render_item rt pdf element_index minifigure_data ;;
       render_items rt rest (element_index + 1)%Z pdf')%py
  end.

(** Lines 113-120: the first page and the header line. *)
Definition pdf_header (rt : Runtime) (total_value : pyval) : FPDF :=
  let pdf := add_page rt FPDF_new in
  let pdf := cell rt pdf 200 10
               ("My LEGO StarWars minifigures total value: UAH "
                  ++ py_format rt total_value)%string true in
  ln rt pdf 10.

Definition create_pdf_document (rt : Runtime) (total_value : pyval)
  (input_list : list MinifigureWebData) : io unit :=
  (pdf <- io_lift (render_items rt input_list 1%Z (pdf_header rt total_value)) ;;
   io_emit (EvPdfOutput PDF_NAME (ops pdf)))%io.

(* ================================================================== *)
(** * [main] (lines 145-149) *)

Definition main (w : Web) (rt : Runtime) : io unit :=
  (input_list <- io_lift (read_excel w EXCEL_PATH) ;;
   web_data_list <- fetch_minifigures_data w input_list ;;
   ' (total_value, sorted_list) <- io_lift (sort_minifigure_list web_data_list) ;;
   create_pdf_document rt total_value sorted_list)%io.

(* ================================================================== *)
(** * What the specification's words mean *)

(** Every character of [s] is in the class [p]. *)
Definition all_in (p : ascii -> bool) (s : string) : bool :=
  forallb p (list_ascii_of_string s).

(** The pattern of the specification, read as a grammar: "Avg Price: UAH ",
    then one or more digits or thousands separators, a point, one or more
    digits.  It occurs in [text] at offset [i] when some split of [text]
    puts such a string after [i] characters. *)
Definition pattern_occurs_at (text : string) (i : nat) : Prop :=
  exists pre whole frac post : string,
    text = (pre ++ AVG_PRICE_PREFIX ++ whole ++ "." ++ frac ++ post)%string
    /\ String.length pre = i
    /\ whole <> EmptyString /\ all_in is_digit_or_comma whole = true
    /\ frac <> EmptyString /\ all_in is_digit frac = true.

(** [s] starts with a digit. *)
Definition starts_with_digit (s : string) : bool :=
  match s with
  | EmptyString => false
  | String c _ => is_digit c
  end.

(** No attempt of the pattern succeeds at an offset inside [pre], in the
    text [pre ++ s]. *)
Fixpoint no_match_within (pre s : string) : bool :=
  match pre with
  | EmptyString => true
  | String c pre' =>
      match match_here (pre ++ s)%string with
      | None => no_match_within pre' s
      | Some _ => false
      end
  end.

(** The quantities of the data model: absent, NaN (a blank cell), or a
    number that has an integer value and fits a float. *)
Definition quantity_ok (q : pyval) : bool :=
  match q with
  | PyNone => true
  | PyInt z => negb (int_too_large z)
  | PyFloat f => negb (is_infinity f)
  | PyStr _ => false
  end.

(** The number a binary64 datum stands for, as a rational:
    (-1)^s * m * 2^e for a finite one, 0 for the zeros (and for the
    infinities and NaN, which stand for no number). *)
Definition float_value (f : float) : QArith_base.Q :=
  match Prim2SF f with
  | S754_finite s m e =>
      QArith_base.Qmult
        (QArith_base.inject_Z (if s then Z.neg m else Z.pos m))
        (QArith_base.Qpower (QArith_base.inject_Z 2) e)
  | _ => QArith_base.inject_Z 0
  end.

(** The integer next to a rational in the direction of zero: its floor when
    it is not negative, its ceiling when it is. *)
Definition Qtruncate (q : QArith_base.Q) : Z :=
  if QArith_base.Qle_bool (QArith_base.inject_Z 0) q
  then Qround.Qfloor q else Qround.Qceiling q.

(** The integer value of a float: the integer part of the number it stands
    for.  It is defined on the value, not by [int_of_float]. *)
Definition truncate (f : float) : Z := Qtruncate (float_value f).

(** The effective quantity of the specification: 1 when the quantity is
    absent or not a number, else the integer quantity.  Text is no number;
    the specification has malformed input count as 1 rather than raise. *)
Definition effective_quantity (q : pyval) : Z :=
  match q with
  | PyNone => 1%Z
  | PyInt z => z
  | PyFloat f => if is_nan f then 1%Z else truncate f
  | PyStr _ => 1%Z
  end.

(** The sum over [items], from first to last, of price times effective
    quantity, in binary64. *)
Definition weighted_total (items : list MinifigureWebData) : float :=
  fold_left
    (fun acc it => (acc + price it * Z2F (effective_quantity (quantity it)))%float)
    items 0%float.

(** A fetched item: its price is a number and its quantity is of the data
    model. *)
Definition fetched_ok (it : MinifigureWebData) : bool :=
  negb (is_nan (price it)) && quantity_ok (quantity it).

(** [a] comes before [b] in a list sorted by decreasing price. *)
Definition price_ge (a b : MinifigureWebData) : Prop :=
  (price b <=? price a)%float = true.

(** The items of [l] whose price equals [p], in their order in [l]. *)
Definition with_price (p : float) (l : list MinifigureWebData)
  : list MinifigureWebData :=
  filter (fun it => (price it =? p)%float) l.

(** The events of the Web Fetcher's rounds: images saved. *)
Definition is_save_image (ev : event) : Prop :=
  match ev with
  | EvSaveImage _ _ => True
  | _ => False
  end.

(** No document was written and the browser session was not closed. *)
Definition run_aborted (evs : list event) : Prop :=
  (forall path doc, ~ In (EvPdfOutput path doc) evs) /\ ~ In EvDriverQuit evs.

(** ** Sample data *)

Open Scope string_scope.

Definition sample_figure (n : string) (p : float) (q : pyval)
  : MinifigureWebData :=
  {| name := n; price := p; quantity := q;
     image := (IMG_PATH ++ "/" ++ n ++ ".jpg")%string |}.

(** The scenario of the specification: quantities 2, none, 1 and prices
    10, 30, 20. *)
Definition sample_figures : list MinifigureWebData :=
  [ sample_figure "Luke" 10 (PyInt 2);
    sample_figure "Vader" 30 PyNone;
    sample_figure "Leia" 20 (PyFloat 1) ].

(** Equal prices, a blank quantity (NaN), a fractional one. *)
Definition sample_ties : list MinifigureWebData :=
  [ sample_figure "A" 10 (PyInt 2);
    sample_figure "B" 30 (PyFloat nan);
    sample_figure "C" 10 (PyFloat 2.5);
    sample_figure "D" 30 (PyInt 1);
    sample_figure "E" 20 PyNone ].

(** Twelve rows: one more than a page takes below the header. *)
Definition sample_dozen : list MinifigureWebData :=
  repeat (sample_figure "A" 10 PyNone) 12.

Definition sample_page (title table src : string) : page :=
  {| title_text := Some title;
     summary_tables := ["Times Sold: 4"; table];
     main_image := Some (Some src) |}.

(** Three records; the image of the second one is not served. *)
Definition sample_workbook : workbook :=
  [ ("Minifigures",
     {| header := ["Link"; "Quantity"];
        body := [ [Some (PyStr "https://shop/luke"); Some (PyInt 2)];
                  [Some (PyStr "https://shop/vader"); None];
                  [Some (PyStr "https://shop/leia"); Some (PyInt 1)] ] |}) ].

Definition sample_web : Web :=
  {| excel_files :=
       fun path => if String.eqb path EXCEL_PATH then Some sample_workbook else None;
     img_dir_exists := false;
     driver_get :=
       fun l =>
         match l with
         | PyStr "https://shop/luke" =>
             Ok (sample_page "Luke's X-Wing" "Avg Price: UAH 10.00" "luke.png")
         | PyStr "https://shop/vader" =>
             Ok (sample_page "Darth/Vader" "Avg Price: UAH 1,030.00" "vader.png")
         | PyStr "https://shop/leia" =>
             Ok (sample_page "Leia" "Avg Price: UAH 20.50" "leia.png")
         | _ => Raise WebDriverException
         end;
     requests_get :=
       fun url =>
         match url with
         | Some "vader.png" => Ok {| status_code := 404; content := [] |}
         | Some _ => Ok {| status_code := 200; content := [Byte.x89; Byte.x50] |}
         | None => Raise RequestException
         end;
     image_open := fun _ => true |}.

(** The same world, every image served. *)
Definition sample_web_ok : Web :=
  {| excel_files := excel_files sample_web;
     img_dir_exists := true;
     driver_get := driver_get sample_web;
     requests_get :=
       fun url =>
         match url with
         | Some _ => Ok {| status_code := 200; content := [Byte.x89; Byte.x50] |}
         | None => Raise RequestException
         end;
     image_open := fun _ => true |}.

(** About FPDF's defaults for an A4 page in millimetres, and a float printer
    that tells nothing apart. *)
Definition sample_runtime : Runtime :=
  {| float_repr := fun _ => "#";
     l_margin := 10;
     t_margin := 10;
     page_break_trigger := 277 |}.

Definition sample_records : list MinifigureInputData :=
  [ {| link := PyStr "https://shop/luke"; in_quantity := PyInt 2 |};
    {| link := PyStr "https://shop/vader"; in_quantity := PyFloat nan |};
    {| link := PyStr "https://shop/leia"; in_quantity := PyInt 1 |} ].

(** A world that holds one spreadsheet, at [EXCEL_PATH], and no web. *)
Definition web_of_workbook (wb : workbook) : Web :=
  {| excel_files := fun path => if String.eqb path EXCEL_PATH then Some wb else None;
     img_dir_exists := true;
     driver_get := fun _ => Raise WebDriverException;
     requests_get := fun _ => Raise RequestException;
     image_open := fun _ => false |}.

(** The designated sheet with a quantity column only, and no row. *)
Definition workbook_without_links : workbook :=
  [ ("Minifigures", {| header := ["Quantity"]; body := [] |}) ].

(** Both columns; the quantity cell of the only row is blank. *)
Definition workbook_blank_quantity : workbook :=
  [ ("Minifigures",
     {| header := ["Link"; "Quantity"];
        body := [ [Some (PyStr "https://shop/luke"); None] ] |}) ].

(** The link column only. *)
Definition workbook_no_quantity_column : workbook :=
  [ ("Minifigures",
     {| header := ["Link"];
        body := [ [Some (PyStr "https://shop/luke")] ] |}) ].

(** The quantity the loader gives a row, as the code has it: [None] without
    a quantity column, NaN for a blank cell, the cell's value otherwise. *)
Definition loaded_quantity (hdr : list string) (row : list (option pyval))
  : pyval :=
  match index_of EXCEL_QUANTITY_COLUMN_NAME hdr with
  | None => PyNone
  | Some j =>
      match nth j row None with
      | None => PyFloat nan
      | Some v => v
      end
  end.

(** A cell drawn with the cursor not past the page-height threshold of
    line 125: [y > 260] does not hold. *)
Definition cell_within_page (op : pdf_op) : Prop :=
  match op with
  | OpCell _ _ y _ _ _ => (260 <? y)%float = false
  | _ => True
  end.

(* ================================================================== *)
(** * What runs and documents show *)

(** A binary64 number that is zero, positive or plus infinity. *)
Definition sf_nonneg (x : spec_float) : Prop :=
  match x with
  | S754_zero _ => True
  | S754_infinity s => s = false
  | S754_finite s _ _ => s = false
  | S754_nan => False
  end.

(** The paths of the images saved, in order. *)
Definition saved_paths (evs : list event) : list string :=
  flat_map (fun ev => match ev with EvSaveImage p _ => [p] | _ => [] end) evs.

(** The round of [r] succeeds. *)
Definition round_succeeds (w : Web) (r : MinifigureInputData) : Prop :=
  exists evs it, fetch_item w r = (evs, Ok it).

(** The texts of the cells of a document, in drawing order. *)
Definition cell_texts (doc : list pdf_op) : list string :=
  flat_map (fun op => match op with OpCell _ _ _ _ _ txt => [txt] | _ => [] end) doc.

(** The files of the images of a document, in drawing order. *)
Definition image_files (doc : list pdf_op) : list string :=
  flat_map (fun op => match op with OpImage _ file _ _ _ _ => [file] | _ => [] end) doc.

(** The two texts of each row: rank and name, then the price text, the ranks
    counting up from [k]. *)
Fixpoint numbered_rows (k : Z) (items : list MinifigureWebData)
  (price_texts : list string) : list string :=
  match items, price_texts with
  | it :: items', pv :: price_texts' =>
      (str_of_int k ++ ". " ++ name it)%string :: pv
        :: numbered_rows (k + 1) items' price_texts'
  | _, _ => []
  end.

(** The quantities line 133 accepts: those whose truth value is false, and
    those of the data model. *)
Definition renderable (q : pyval) : bool := py_not q || quantity_ok q.

(** The quantity is absent or NaN. *)
Definition is_missing (q : pyval) : bool :=
  match q with
  | PyNone => true
  | PyFloat f => is_nan f
  | _ => false
  end.

(** No document is written in [evs]. *)
Definition no_document (evs : list event) : Prop :=
  forall path doc, ~ In (EvPdfOutput path doc) evs.

(** The pages started in [doc]. *)
Definition pages_started (doc : list pdf_op) : nat :=
  List.length
    (filter (fun op => match op with OpAddPage => true | _ => false end) doc).

(** Every cell and image of [doc] is drawn on a page that has been started,
    and on the latest one, [n] pages having been started before [doc]. *)
Fixpoint on_latest_page (n : nat) (doc : list pdf_op) : bool :=
  match doc with
  | [] => true
  | OpAddPage :: rest => on_latest_page (S n) rest
  | OpCell p _ _ _ _ _ :: rest
  | OpImage p _ _ _ _ _ :: rest =>
      Nat.eqb p n && Nat.leb 1 n && on_latest_page n rest
  end.

(** No character of [s] is an apostrophe or a slash. *)
Definition is_clean (s : string) : bool :=
  forallb (fun c => negb (is_quote_or_slash c)) (list_ascii_of_string s).

(** The state of a document on which drawing is allowed: a page has been
    started, the page counter counts the pages started, and whatever has been
    drawn is on the page that was the latest then. *)
Definition pages_consistent (pdf : FPDF) : Prop :=
  (1 <= page_no pdf)%nat
  /\ pages_started (ops pdf) = page_no pdf
  /\ on_latest_page 0 (ops pdf) = true.

(* ================================================================== *)
(** * Properties *)

(** ** Name normalization *)

Open Scope string_scope.

Lemma normalize_as_filter (s : string) :
  list_ascii_of_string (normalize_minifigure_name s)
  = filter (fun c => negb (is_quote_or_slash c)) (list_ascii_of_string s).
Proof.
  induction s as [|c s IH]; simpl.
  - reflexivity.
  - destruct (is_quote_or_slash c); simpl; now rewrite IH.
Qed.

Lemma normalize_fixes_clean (s : string) :
  forallb (fun c => negb (is_quote_or_slash c)) (list_ascii_of_string s) = true ->
  normalize_minifigure_name s = s.
Proof.
  induction s as [|c s IH]; simpl; intros H.
  - reflexivity.
  - apply andb_true_iff in H as [Hc Hs].
    apply negb_true_iff in Hc. rewrite Hc. now rewrite IH.
Qed.

Lemma normalize_is_clean (s : string) :
  forallb (fun c => negb (is_quote_or_slash c))
    (list_ascii_of_string (normalize_minifigure_name s)) = true.
Proof.
  induction s as [|c s IH]; simpl.
  - reflexivity.
  - destruct (is_quote_or_slash c) eqn:E; simpl.
    + exact IH.
    + now rewrite E, IH.
Qed.

Lemma substring_prefix_split (n : nat) (s : string) :
  (n <= String.length s)%nat ->
  exists dropped,
    s = substring 0 n s ++ dropped /\ String.length (substring 0 n s) = n.
Proof.
  revert s. induction n as [|n IH]; intros s Hn.
  - exists s. destruct s; simpl; auto.
  - destruct s as [|c s]; simpl in Hn; [lia|].
    destruct (IH s) as [d [Hd Hl]]; [lia|].
    exists d. simpl. split.
    + now rewrite <- Hd.
    + now rewrite Hl.
Qed.

Lemma length_append (a b : string) :
  String.length (a ++ b) = (String.length a + String.length b)%nat.
Proof.
  induction a as [|c a IH]; simpl; [reflexivity | now rewrite IH].
Qed.

(** C10. Stripping is idempotent: stripping a stripped name changes nothing. *)
Theorem normalize_minifigure_name_idempotent (s : string) :
  normalize_minifigure_name (normalize_minifigure_name s)
  = normalize_minifigure_name s.
Proof.
  apply normalize_fixes_clean, normalize_is_clean.
Qed.

(** C4. The stripped name is the input without its apostrophes and slashes
    (so it holds none, and the example of the specification comes out as
    stated); a stripped name of at most 46 characters is the item's name; a
    longer one is cut to its first 46 characters followed by ["..."], which
    for 60 characters gives 46 + 3. *)
Theorem fetched_name_normalized (fetched_name : string) :
  let stripped := normalize_minifigure_name fetched_name in
  list_ascii_of_string stripped
  = filter (fun c => negb (Ascii.eqb c "'" || Ascii.eqb c "/"))
      (list_ascii_of_string fetched_name)
  /\ (forall c, In c (list_ascii_of_string stripped) ->
                c <> "'"%char /\ c <> "/"%char)
  /\ normalize_minifigure_name "R2-D2's Droid/Unit" = "R2-D2s DroidUnit"
  /\ ((String.length stripped <= 46)%nat ->
      fetched_minifigure_name fetched_name = stripped)
  /\ ((46 < String.length stripped)%nat ->
      exists kept dropped,
        stripped = kept ++ dropped
        /\ String.length kept = 46%nat
        /\ fetched_minifigure_name fetched_name = kept ++ "...")
  /\ (String.length stripped = 60%nat ->
      String.length (fetched_minifigure_name fetched_name) = (46 + 3)%nat).
Proof.
  cbv zeta. repeat split.
  - apply normalize_as_filter.
  - intros ->.
    pose proof (normalize_is_clean fetched_name) as Hc.
    rewrite forallb_forall in Hc. specialize (Hc _ H). discriminate Hc.
  - intros ->.
    pose proof (normalize_is_clean fetched_name) as Hc.
    rewrite forallb_forall in Hc. specialize (Hc _ H). discriminate Hc.
  - intros Hle. unfold fetched_minifigure_name, MINIFIGURE_NAME_MAX_LENGTH.
    destruct (Nat.ltb_spec 46 (String.length (normalize_minifigure_name fetched_name)));
      [lia | reflexivity].
  - intros Hlt. unfold fetched_minifigure_name, MINIFIGURE_NAME_MAX_LENGTH.
    destruct (Nat.ltb_spec 46 (String.length (normalize_minifigure_name fetched_name)));
      [|lia].
    destruct (substring_prefix_split 46 (normalize_minifigure_name fetched_name))
      as [d [Hd Hl]]; [lia|].
    exists (substring 0 46 (normalize_minifigure_name fetched_name)), d. auto.
  - intros H60. unfold fetched_minifigure_name, MINIFIGURE_NAME_MAX_LENGTH.
    destruct (Nat.ltb_spec 46 (String.length (normalize_minifigure_name fetched_name)));
      [|lia].
    destruct (substring_prefix_split 46 (normalize_minifigure_name fetched_name))
      as [d [Hd Hl]]; [lia|].
    now rewrite length_append, Hl.
Qed.

(** ** Price extraction *)

Lemma strip_prefix_some (lit s r : string) :
  strip_prefix lit s = Some r -> s = lit ++ r.
Proof.
  revert s. induction lit as [|a lit IH]; intros s H; simpl in *.
  - now inversion H.
  - destruct s as [|b s]; [discriminate|].
    destruct (Ascii.eqb_spec a b) as [->|]; [|discriminate].
    now rewrite (IH _ H).
Qed.

Lemma strip_prefix_app (lit r : string) :
  strip_prefix lit (lit ++ r) = Some r.
Proof.
  induction lit as [|a lit IH]; simpl; [reflexivity|].
  now rewrite Ascii.eqb_refl.
Qed.

Lemma span_split (p : ascii -> bool) (s run tail : string) :
  span p s = (run, tail) -> s = run ++ tail /\ all_in p run = true.
Proof.
  revert run tail. induction s as [|c s IH]; intros run tail H; simpl in H.
  - inversion H. auto.
  - destruct (p c) eqn:Hc.
    + destruct (span p s) as [r t]. inversion H; subst.
      destruct (IH r tail eq_refl) as [-> Hall].
      split; [reflexivity|]. unfold all_in in *. simpl. now rewrite Hc.
    + inversion H; subst. auto.
Qed.

Lemma span_all_app (p : ascii -> bool) (a b : string) :
  all_in p a = true ->
  span p (a ++ b) = (a ++ fst (span p b), snd (span p b)).
Proof.
  unfold all_in. induction a as [|c a IH]; simpl; intros H.
  - now destruct (span p b).
  - apply andb_true_iff in H as [Hc Ha]. rewrite Hc, (IH Ha). reflexivity.
Qed.

Lemma span_stops (p : ascii -> bool) (c : ascii) (s : string) :
  p c = false -> span p (String c s) = (EmptyString, String c s).
Proof. intros H. simpl. now rewrite H. Qed.

Lemma point_not_digit_or_comma : is_digit_or_comma "." = false.
Proof. reflexivity. Qed.

Lemma append_nonempty (a b : string) : a <> "" -> a ++ b <> "".
Proof. destruct a; [congruence | discriminate]. Qed.

Lemma append_empty_r (a : string) : a ++ "" = a.
Proof. induction a as [|c a IH]; simpl; [reflexivity | now rewrite IH]. Qed.

(** An attempt that succeeds has found an occurrence. *)
Lemma match_here_sound (s g : string) :
  match_here s = Some g -> pattern_occurs_at s 0.
Proof.
  unfold match_here. intros H.
  destruct (strip_prefix AVG_PRICE_PREFIX s) as [rest|] eqn:Hp; [|discriminate].
  apply strip_prefix_some in Hp.
  destruct (span is_digit_or_comma rest) as [whole tl] eqn:Hw.
  apply span_split in Hw as [Hrest Hwhole].
  destruct whole as [|w0 whole]; [discriminate|].
  destruct tl as [|c tl]; [discriminate|].
  destruct (Ascii.eqb_spec c ".") as [->|]; [|discriminate].
  destruct (span is_digit tl) as [frac post] eqn:Hf.
  apply span_split in Hf as [Htl Hfrac].
  destruct frac as [|f0 frac]; [discriminate|].
  exists "", (String w0 whole), (String f0 frac), post.
  repeat split; try discriminate; try assumption.
  simpl. now rewrite Hp, Hrest, Htl.
Qed.

(** Where the pattern occurs, the attempt succeeds. *)
Lemma match_here_complete (s : string) :
  pattern_occurs_at s 0 -> match_here s <> None.
Proof.
  intros (pre & whole & frac & post & Hs & Hpre & Hw0 & Hw & Hf0 & Hf).
  destruct pre; [|discriminate]. cbn [append] in Hs. subst s.
  unfold match_here. rewrite strip_prefix_app.
  rewrite (span_all_app _ _ _ Hw).
  rewrite span_stops by apply point_not_digit_or_comma. cbn [fst snd].
  rewrite append_empty_r.
  destruct whole as [|w0 whole]; [congruence|].
  rewrite Ascii.eqb_refl.
  rewrite (span_all_app _ _ _ Hf). 
  destruct frac as [|f0 frac]; [congruence|]. simpl. discriminate.
Qed.

Lemma pattern_occurs_shift (c : ascii) (s : string) (i : nat) :
  pattern_occurs_at (String c s) (S i) <-> pattern_occurs_at s i.
Proof.
  split.
  - intros (pre & whole & frac & post & Hs & Hpre & H).
    destruct pre as [|c' pre]; [discriminate|].
    cbn [append] in Hs. inversion Hs; subst.
    exists pre, whole, frac, post. simpl in Hpre. split; [reflexivity|].
    split; [lia | exact H].
  - intros (pre & whole & frac & post & Hs & Hpre & H).
    exists (String c pre), whole, frac, post. subst. simpl. auto.
Qed.

Lemma re_search_from_eq (n : nat) (text : string) :
  re_search_from n text
  = match match_here text with
    | Some g => Some (n, g)
    | None =>
        match text with
        | EmptyString => None
        | String _ rest => re_search_from (S n) rest
        end
    end.
Proof. destruct text; reflexivity. Qed.

(** Where the pattern occurs nowhere, the search finds nothing. *)
Lemma re_search_from_none (text : string) (n : nat) :
  (forall i, ~ pattern_occurs_at text i) -> re_search_from n text = None.
Proof.
  revert n. induction text as [|c s IH]; intros n H; rewrite re_search_from_eq.
  - reflexivity.
  - destruct (match_here (String c s)) as [g|] eqn:Hm.
    + exfalso. exact (H 0%nat (match_here_sound _ _ Hm)).
    + apply IH. intros i Hi. apply (H (S i)). now apply pattern_occurs_shift.
Qed.

(** The search passes over a stretch of text in which no occurrence starts. *)
Lemma re_search_from_skip (pre s : string) (n : nat) :
  (forall i, (i < String.length pre)%nat -> ~ pattern_occurs_at (pre ++ s) i) ->
  re_search_from n (pre ++ s) = re_search_from (n + String.length pre) s.
Proof.
  revert n. induction pre as [|c pre IH]; intros n H.
  - simpl. now rewrite Nat.add_0_r.
  - rewrite re_search_from_eq. cbn [append String.length] in *.
    destruct (match_here (String c (pre ++ s))) as [g|] eqn:Hm.
    + exfalso. apply (H 0%nat); [lia|]. exact (match_here_sound _ _ Hm).
    + rewrite IH.
      * f_equal. lia.
      * intros i Hi Ho. apply (H (S i)); [lia|]. now apply pattern_occurs_shift.
Qed.

Lemma no_match_within_sound (pre s : string) :
  no_match_within pre s = true ->
  forall i, (i < String.length pre)%nat -> ~ pattern_occurs_at (pre ++ s) i.
Proof.
  induction pre as [|c pre IH]; intros H i Hi; simpl in Hi; [lia|].
  cbn [no_match_within] in H.
  destruct (match_here (String c pre ++ s)) eqn:Hm; [discriminate|].
  destruct i as [|i].
  - intros Ho. now apply match_here_complete in Ho.
  - cbn [append]. rewrite pattern_occurs_shift. apply IH; [exact H | lia].
Qed.

Lemma span_digit_stops (post : string) :
  starts_with_digit post = false -> span is_digit post = ("", post).
Proof.
  destruct post as [|c post]; simpl; intros H; [reflexivity | now rewrite H].
Qed.

Lemma match_here_example (post : string) :
  starts_with_digit post = false ->
  match_here ("Avg Price: UAH 1,234.50" ++ post) = Some "1,234.50".
Proof.
  intros H. unfold match_here.
  change ("Avg Price: UAH 1,234.50" ++ post)
    with (AVG_PRICE_PREFIX ++ ("1,234" ++ String "." ("50" ++ post))).
  rewrite strip_prefix_app.
  rewrite span_all_app by reflexivity.
  rewrite span_stops by reflexivity. cbn [fst snd].
  rewrite Ascii.eqb_refl.
  rewrite (span_all_app is_digit "50" post) by reflexivity.
  rewrite (span_digit_stops _ H). reflexivity.
Qed.

Lemma match_here_group (s g : string) :
  match_here s = Some g ->
  exists whole frac,
    g = whole ++ String "." frac
    /\ all_in is_digit_or_comma whole = true
    /\ frac <> "" /\ all_in is_digit frac = true.
Proof.
  unfold match_here. intros H.
  destruct (strip_prefix AVG_PRICE_PREFIX s) as [rest|]; [|discriminate].
  destruct (span is_digit_or_comma rest) as [whole tl] eqn:Hw.
  apply span_split in Hw as [_ Hwhole].
  destruct whole as [|w0 whole]; [discriminate|].
  destruct tl as [|c tl]; [discriminate|].
  destruct (Ascii.eqb c "."); [|discriminate].
  destruct (span is_digit tl) as [frac post] eqn:Hf.
  apply span_split in Hf as [_ Hfrac].
  destruct frac as [|f0 frac]; [discriminate|].
  inversion H; subst. exists (String w0 whole), (String f0 frac).
  repeat split; try assumption. discriminate.
Qed.

Lemma re_search_from_group (text g : string) (n i : nat) :
  re_search_from n text = Some (i, g) ->
  exists s, match_here s = Some g.
Proof.
  revert n. induction text as [|c text IH]; intros n; rewrite re_search_from_eq.
  - destruct (match_here "") eqn:E; [|discriminate].
    intros H. inversion H; subst. eauto.
  - destruct (match_here (String c text)) eqn:E.
    + intros H. inversion H; subst. eauto.
    + apply IH.
Qed.

Lemma digit_not_comma (c : ascii) : is_digit c = true -> is_comma c = false.
Proof.
  unfold is_comma. destruct (Ascii.eqb_spec c ",") as [->|]; [discriminate|reflexivity].
Qed.

Lemma remove_commas_app (a b : string) :
  remove_commas (a ++ b) = remove_commas a ++ remove_commas b.
Proof.
  induction a as [|c a IH]; simpl; [reflexivity|].
  destruct (is_comma c); simpl; now rewrite IH.
Qed.

Lemma remove_commas_digits (s : string) :
  all_in is_digit s = true -> remove_commas s = s.
Proof.
  unfold all_in. induction s as [|c s IH]; simpl; intros H; [reflexivity|].
  apply andb_true_iff in H as [Hc Hs].
  now rewrite (digit_not_comma _ Hc), (IH Hs).
Qed.

Lemma remove_commas_whole (s : string) :
  all_in is_digit_or_comma s = true -> all_in is_digit (remove_commas s) = true.
Proof.
  unfold all_in. induction s as [|c s IH]; simpl; intros H; [reflexivity|].
  apply andb_true_iff in H as [Hc Hs]. unfold is_digit_or_comma in Hc.
  destruct (is_comma c) eqn:Ec; [now apply IH|].
  rewrite orb_false_r in Hc. simpl. now rewrite Hc, (IH Hs).
Qed.

Lemma span_all (p : ascii -> bool) (s : string) :
  all_in p s = true -> span p s = (s, "").
Proof.
  intros H. rewrite <- (append_empty_r s) at 1.
  rewrite (span_all_app _ _ _ H). simpl. now rewrite append_empty_r.
Qed.

(** [float] accepts what is left of a match of the pattern. *)
Lemma float_of_string_group (whole frac : string) :
  all_in is_digit_or_comma whole = true ->
  frac <> "" -> all_in is_digit frac = true ->
  exists p, float_of_string (remove_commas (whole ++ String "." frac)) = Ok p.
Proof.
  intros Hw Hf0 Hf.
  rewrite remove_commas_app. cbn [remove_commas].
  change (is_comma ".") with false. cbv iota.
  rewrite (remove_commas_digits _ Hf).
  unfold float_of_string.
  rewrite (span_all_app _ _ _ (remove_commas_whole _ Hw)).
  rewrite span_stops by reflexivity. cbn [fst snd]. rewrite append_empty_r.
  rewrite Ascii.eqb_refl, (span_all _ _ Hf).
  destruct frac; [congruence|]. destruct (remove_commas whole); eauto.
Qed.

(** A text in which the pattern is found has a price. *)
Lemma parse_price_found (text g : string) (i : nat) :
  re_search text = Some (i, g) -> exists p, parse_price text = Ok p.
Proof.
  intros H. unfold parse_price. rewrite H.
  destruct (re_search_from_group _ _ _ _ H) as [s Hs].
  destruct (match_here_group _ _ Hs) as (whole & frac & -> & Hw & Hf0 & Hf).
  now apply float_of_string_group.
Qed.

Lemma re_search_from_finds (text : string) (n i : nat) :
  pattern_occurs_at text i -> re_search_from n text <> None.
Proof.
  revert n i. induction text as [|c text IH]; intros n i Ho;
    rewrite re_search_from_eq.
  - destruct i.
    + pose proof (match_here_complete _ Ho).
      destruct (match_here ""); congruence.
    + destruct Ho as (pre & ? & ? & ? & Hs & Hl & _).
      destruct pre; discriminate.
  - destruct (match_here (String c text)) eqn:E; [discriminate|].
    destruct i.
    + now apply match_here_complete in Ho.
    + apply (IH _ i). now apply pattern_occurs_shift in Ho.
Qed.

(** The extraction raises exactly when the pattern occurs nowhere. *)
Lemma parse_price_raises_iff (text : string) :
  (exists e, parse_price text = Raise e) <-> forall i, ~ pattern_occurs_at text i.
Proof.
  split.
  - intros [e He] i Ho.
    apply (re_search_from_finds text 0 i) in Ho.
    fold (re_search text) in Ho.
    destruct (re_search text) as [[j g]|] eqn:E; [|congruence].
    destruct (parse_price_found _ _ _ E) as [p Hp]. congruence.
  - intros H. exists AttributeError. unfold parse_price, re_search.
    now rewrite re_search_from_none.
Qed.

(** Two floats that [=?] tells apart are different, NaN aside. *)
Lemma float_neq (a b : float) :
  (a =? b)%float = false -> (b =? b)%float = true -> a <> b.
Proof. intros H1 H2 E. subst a. congruence. Qed.

Lemma parse_price_of_group (text g : string) (n : nat) :
  re_search text = Some (n, g) ->
  parse_price text = float_of_string (remove_commas g).
Proof. unfold parse_price. now intros ->. Qed.

(** C3, as the code has it.  The leftmost occurrence of the pattern decides,
    and its digits are taken as far as they go.  So: when no occurrence
    starts before ["Avg Price: UAH 1,234.50"] and no digit follows it, the
    price is 1234.5; and when the pattern occurs nowhere in the text, the
    extraction raises (the [AttributeError] of [None.group]). *)
Theorem price_extraction :
  (forall pre post : string,
      (forall i, (i < String.length pre)%nat ->
                 ~ pattern_occurs_at (pre ++ "Avg Price: UAH 1,234.50" ++ post) i) ->
      starts_with_digit post = false ->
      parse_price (pre ++ "Avg Price: UAH 1,234.50" ++ post) = Ok 1234.5%float)
  /\ (forall text : string,
         (forall i, ~ pattern_occurs_at text i) ->
         parse_price text = Raise AttributeError).
Proof.
  split.
  - intros pre post Hpre Hpost.
    rewrite (parse_price_of_group _ "1,234.50" (String.length pre)).
    + vm_compute. reflexivity.
    + unfold re_search. rewrite re_search_from_skip by exact Hpre.
      rewrite re_search_from_eq, (match_here_example _ Hpost). reflexivity.
  - intros text H. unfold parse_price, re_search.
    now rewrite re_search_from_none.
Qed.

(** The two halves of [price_extraction] on texts of a price table. *)
Lemma price_extraction_witness :
  parse_price ("Min Price: UAH 900.00 " ++ "Avg Price: UAH 1,234.50"
                 ++ " Qty Avg Price: UAH 1,300.10") = Ok 1234.5%float
  /\ parse_price "Times Sold: 4" = Raise AttributeError.
Proof.
  split.
  - apply (proj1 price_extraction "Min Price: UAH 900.00 "
             " Qty Avg Price: UAH 1,300.10").
    + apply no_match_within_sound. vm_compute. reflexivity.
    + reflexivity.
  - apply (proj2 price_extraction "Times Sold: 4").
    assert (Hn : forall i, (i < String.length "Times Sold: 4")%nat ->
                           ~ pattern_occurs_at ("Times Sold: 4" ++ "") i).
    { apply no_match_within_sound. vm_compute. reflexivity. }
    intros i Ho.
    destruct (Nat.lt_ge_cases i (String.length "Times Sold: 4")) as [Hlt|Hge].
    + exact (Hn i Hlt Ho).
    + destruct Ho as (pre & whole & frac & post & Hs & Hl & _).
      apply (f_equal String.length) in Hs.
      rewrite !length_append in Hs. simpl in Hs, Hge. lia.
Defined.

(** C3 as stated fails: a text can hold ["Avg Price: UAH 1,234.50"] and give
    another price, because an earlier occurrence of the pattern wins (here the
    one of the line "Avg Price", before the line "Qty Avg Price"). *)
Lemma price_extraction_leftmost_wins :
  let text := "Avg Price: UAH 1,100.00 Qty Avg Price: UAH 1,234.50" in
  (exists pre post, text = pre ++ "Avg Price: UAH 1,234.50" ++ post)
  /\ parse_price text = Ok 1100%float
  /\ parse_price text <> Ok 1234.5%float.
Proof.
  cbv zeta. split; [|split].
  - exists "Avg Price: UAH 1,100.00 Qty ", "". reflexivity.
  - vm_compute. reflexivity.
  - intros H.
    assert (E : parse_price "Avg Price: UAH 1,100.00 Qty Avg Price: UAH 1,234.50"
                = Ok 1100%float) by (vm_compute; reflexivity).
    rewrite E in H.
    assert (H1 : 1100%float = 1234.5%float) by congruence.
    revert H1. apply float_neq; vm_compute; reflexivity.
Qed.

(** ** Order on binary64 *)

Open Scope list_scope.

Ltac cmp_cases :=
  repeat match goal with
  | |- context [Pos.compare_cont Eq ?a ?b] =>
      change (Pos.compare_cont Eq a b) with (Pos.compare a b)
  | H : context [Pos.compare_cont Eq ?a ?b] |- _ =>
      change (Pos.compare_cont Eq a b) with (Pos.compare a b) in H
  | |- context [Z.compare ?a ?b] => destruct (Z.compare_spec a b)
  | H : context [Z.compare ?a ?b] |- _ => destruct (Z.compare_spec a b)
  | |- context [Pos.compare ?a ?b] => destruct (Pos.compare_spec a b)
  | H : context [Pos.compare ?a ?b] |- _ => destruct (Pos.compare_spec a b)
  end.

Ltac sf_cases x :=
  let s := fresh "s" in
  destruct x as [s|s| |s ? ?]; try destruct s.

Lemma SFleb_trans (x y z : spec_float) :
  SFleb x y = true -> SFleb y z = true -> SFleb x z = true.
Proof.
  unfold SFleb, SFcompare. sf_cases x; sf_cases y; sf_cases z;
    try (intros; reflexivity); try (intros; discriminate);
    cmp_cases; simpl; intros; subst;
    try reflexivity; try discriminate; try lia.
Qed.

Lemma SFcompare_swap (x y : spec_float) :
  SFcompare y x = option_map CompOpp (SFcompare x y).
Proof.
  unfold SFcompare. sf_cases x; sf_cases y; try reflexivity;
    cmp_cases; simpl; subst; try reflexivity; try lia.
Qed.

Lemma SFcompare_defined (x y : spec_float) :
  x <> S754_nan -> y <> S754_nan -> SFcompare x y <> None.
Proof.
  intros Hx Hy. destruct x, y; simpl; congruence.
Qed.

Lemma SFeqb_same_not_lt (a b p : spec_float) :
  SFeqb a p = true -> SFeqb b p = true -> SFltb a b = false.
Proof.
  unfold SFeqb, SFltb, SFcompare. sf_cases a; sf_cases b; sf_cases p;
    try (intros; reflexivity); try (intros; discriminate);
    cmp_cases; simpl; intros; subst;
    try reflexivity; try discriminate; try lia.
Qed.

(** What [Prim2SF] makes of a float, by class. *)
Lemma Prim2SF_cases (f : float) :
  (is_nan f = true /\ Prim2SF f = S754_nan)
  \/ (is_nan f = false /\ is_infinity f = true
      /\ exists s, Prim2SF f = S754_infinity s)
  \/ (is_nan f = false /\ is_infinity f = false
      /\ ((exists s, Prim2SF f = S754_zero s)
          \/ exists s m e, Prim2SF f = S754_finite s m e)).
Proof.
  unfold Prim2SF.
  destruct (is_nan f) eqn:Hn; [left; auto|right].
  destruct (is_zero f) eqn:Hz.
  - destruct (is_infinity f) eqn:Hi.
    + exfalso. unfold is_zero, is_infinity in *.
      rewrite eqb_spec in Hz, Hi. rewrite abs_spec in Hi.
      unfold SFeqb, SFcompare in *. change (Prim2SF zero) with (S754_zero false) in Hz.
      change (Prim2SF infinity) with (S754_infinity false) in Hi.
      destruct (Prim2SF f); simpl in *; try discriminate.
      destruct s; discriminate.
    + right. repeat split. left. eauto.
  - destruct (is_infinity f) eqn:Hi.
    + left. repeat split. eauto.
    + right. repeat split.
      destruct (Z.frexp f) as [r ex].
      destruct (shr_fexp prec emax (Uint63.to_Z (normfr_mantissa r)) (ex - prec) loc_Exact)
        as [sh e'].
      destruct (shr_m sh); eauto.
Qed.

Lemma Prim2SF_not_nan (f : float) :
  is_nan f = false -> Prim2SF f <> S754_nan.
Proof.
  intros Hn.
  destruct (Prim2SF_cases f)
    as [[H _]|[(_ & _ & s & ->)|(_ & _ & [[s ->]|(s & m & e & ->)])]];
    congruence.
Qed.

(** [<=] is transitive. *)
Lemma leb_trans (a b c : float) :
  (a <=? b)%float = true -> (b <=? c)%float = true -> (a <=? c)%float = true.
Proof. rewrite !leb_spec. apply SFleb_trans. Qed.

(** [<] implies [<=]. *)
Lemma ltb_leb (a b : float) :
  (a <? b)%float = true -> (a <=? b)%float = true.
Proof.
  rewrite ltb_spec, leb_spec. unfold SFltb, SFleb.
  destruct (SFcompare (Prim2SF a) (Prim2SF b)) as [[]|]; congruence.
Qed.

(** NaN aside, two floats are comparable. *)
Lemma not_ltb_leb (a b : float) :
  is_nan a = false -> is_nan b = false ->
  (a <? b)%float = false -> (b <=? a)%float = true.
Proof.
  intros Ha Hb. rewrite ltb_spec, leb_spec. unfold SFltb, SFleb.
  rewrite (SFcompare_swap (Prim2SF a) (Prim2SF b)).
  pose proof (SFcompare_defined _ _ (Prim2SF_not_nan _ Ha) (Prim2SF_not_nan _ Hb)) as Hd.
  destruct (SFcompare (Prim2SF a) (Prim2SF b)) as [[]|]; simpl; congruence.
Qed.

(** Two floats equal to a third are not in strict order. *)
Lemma eqb_same_not_ltb (a b p : float) :
  (a =? p)%float = true -> (b =? p)%float = true -> (a <? b)%float = false.
Proof. rewrite !eqb_spec, ltb_spec. apply SFeqb_same_not_lt. Qed.

Lemma SFleb_antisym (x y : spec_float) :
  SFleb x y = true -> SFleb y x = true -> SFeqb x y = true.
Proof.
  unfold SFleb, SFeqb. rewrite (SFcompare_swap x y).
  destruct (SFcompare x y) as [[]|]; simpl; congruence.
Qed.

Lemma SFcompare_refl (x : spec_float) :
  x <> S754_nan -> SFcompare x x = Some Eq.
Proof.
  intros H. destruct x as [[]|[]| |[] m e]; simpl; try congruence;
    rewrite Z.compare_refl; change (Pos.compare_cont Eq m m) with (Pos.compare m m);
    now rewrite Pos.compare_refl.
Qed.

Lemma leb_antisym (a b : float) :
  (a <=? b)%float = true -> (b <=? a)%float = true -> (a =? b)%float = true.
Proof. rewrite !leb_spec, eqb_spec. apply SFleb_antisym. Qed.

Lemma eqb_refl_not_nan (a : float) : is_nan a = false -> (a =? a)%float = true.
Proof. unfold is_nan. now intros H%negb_false_iff. Qed.

Lemma leb_refl_not_nan (a : float) : is_nan a = false -> (a <=? a)%float = true.
Proof.
  intros H. rewrite leb_spec. unfold SFleb.
  now rewrite (SFcompare_refl _ (Prim2SF_not_nan _ H)).
Qed.


(** ** Conversions never make a NaN *)

Open Scope Z_scope.

Lemma iter_pos_invariant {A : Type} (P : A -> Prop) (f : A -> A) :
  (forall x, P x -> P (f x)) -> forall p x, P x -> P (iter_pos f p x).
Proof.
  intros Hf. induction p as [p IH|p IH|]; intros x Hx; simpl; auto.
Qed.

Lemma shr_1_nonneg (mrs : shr_record) :
  0 <= shr_m mrs -> 0 <= shr_m (shr_1 mrs).
Proof.
  destruct mrs as [m r s]. simpl. intros Hm.
  destruct m as [|[p|p|]|p]; simpl; lia.
Qed.

Lemma shr_nonneg (mrs : shr_record) (e n : Z) :
  0 <= shr_m mrs -> 0 <= shr_m (fst (shr mrs e n)).
Proof.
  intros Hm. unfold shr. destruct n; simpl; try assumption.
  apply iter_pos_invariant; [apply shr_1_nonneg | assumption].
Qed.

Lemma shr_fexp_nonneg (m e : Z) (l : location) :
  0 <= m -> 0 <= shr_m (fst (shr_fexp prec emax m e l)).
Proof.
  intros Hm. unfold shr_fexp. apply shr_nonneg.
  destruct l as [|[]]; simpl; assumption.
Qed.

Lemma round_nearest_even_nonneg (m : Z) (l : location) :
  0 <= m -> 0 <= round_nearest_even m l.
Proof.
  intros Hm. destruct l as [|[]]; simpl; try lia. destruct (Z.even m); lia.
Qed.

Lemma binary_round_aux_not_nan (sx : bool) (mx ex : Z) (lx : location) :
  0 <= mx -> binary_round_aux prec emax sx mx ex lx <> S754_nan.
Proof.
  intros Hm. unfold binary_round_aux.
  pose proof (shr_fexp_nonneg mx ex lx Hm) as H1.
  destruct (shr_fexp prec emax mx ex lx) as [mrs' e']. simpl in H1.
  pose proof (shr_fexp_nonneg _ e' loc_Exact
                (round_nearest_even_nonneg _ (loc_of_shr_record mrs') H1)) as H2.
  destruct (shr_fexp prec emax
              (round_nearest_even (shr_m mrs') (loc_of_shr_record mrs')) e' loc_Exact)
    as [mrs'' e''].
  simpl in H2. destruct (shr_m mrs''); try lia; try discriminate.
  destruct (e'' <=? emax - prec); discriminate.
Qed.

Lemma binary_round_not_nan (sx : bool) (mx : positive) (ex : Z) :
  binary_round prec emax sx mx ex <> S754_nan.
Proof.
  unfold binary_round.
  destruct (shl_align mx ex (fexp prec emax (Z.pos (digits2_pos mx) + ex))) as [mz ez].
  apply binary_round_aux_not_nan. lia.
Qed.

Lemma binary_normalize_not_nan (m e : Z) (sz : bool) :
  binary_normalize prec emax m e sz <> S754_nan.
Proof.
  destruct m; simpl; try discriminate; apply binary_round_not_nan.
Qed.

Lemma is_nan_Prim2SF (f : float) : Prim2SF f <> S754_nan -> is_nan f = false.
Proof.
  intros H. destruct (is_nan f) eqn:Hn; [|reflexivity].
  exfalso. apply H. unfold Prim2SF. now rewrite Hn.
Qed.

Lemma SF2Prim_not_nan (x : spec_float) :
  x <> S754_nan -> is_nan (SF2Prim x) = false.
Proof.
  intros Hx. destruct x as [[]|[]| |s m e]; try reflexivity; [congruence|].
  apply is_nan_Prim2SF. unfold SF2Prim.
  assert (Hl : Prim2SF (Z.ldexp (of_uint63 (Uint63.of_Z (Z.pos m))) e) <> S754_nan).
  { rewrite Z_ldexp_spec, of_uint63_spec. unfold SFldexp.
    pose proof (binary_normalize_not_nan (Uint63.to_Z (Uint63.of_Z (Z.pos m))) 0 false) as Hb.
    destruct (binary_normalize prec emax (Uint63.to_Z (Uint63.of_Z (Z.pos m))) 0 false);
      try congruence.
    apply binary_round_not_nan. }
  destruct s; [|exact Hl].
  rewrite opp_spec. destruct (Prim2SF (Z.ldexp (of_uint63 (Uint63.of_Z (Z.pos m))) e));
    simpl; congruence.
Qed.

Lemma float_of_decimal_not_nan (n : Z) (k : nat) :
  is_nan (float_of_decimal n k) = false.
Proof.
  unfold float_of_decimal. destruct n as [|p|p]; try reflexivity.
  unfold SFdiv_core_binary.
  set (e' := Z.min _ _). set (m' := match 0 - 0 - e' with 0 => _ | _ => _ end).
  assert (Hm' : 0 <= m').
  { subst m'. destruct (0 - 0 - e'); try lia. apply Z.shiftl_nonneg. lia. }
  assert (Hd : 0 < 10 ^ Z.of_nat k) by (apply Z.pow_pos_nonneg; lia).
  pose proof (Z.div_pos m' (10 ^ Z.of_nat k) Hm' Hd) as Hq.
  unfold Z.div in Hq.
  destruct (Z.div_eucl m' (10 ^ Z.of_nat k)) as [q r]. simpl in Hq.
  apply SF2Prim_not_nan, binary_round_aux_not_nan, Hq.
Qed.

Close Scope Z_scope.

Lemma float_of_string_not_nan (s : string) (p : float) :
  float_of_string s = Ok p -> is_nan p = false.
Proof.
  unfold float_of_string.
  destruct (span is_digit s) as [whole [|c rest]].
  - destruct whole; [discriminate|]. intros H. inversion H.
    apply float_of_decimal_not_nan.
  - destruct (Ascii.eqb c "."); [|discriminate].
    destruct (span is_digit rest) as [frac [|? ?]]; [|discriminate].
    destruct whole, frac; try discriminate; intros H; inversion H;
      apply float_of_decimal_not_nan.
Qed.

Lemma parse_price_not_nan (txt : string) (p : float) :
  parse_price txt = Ok p -> is_nan p = false.
Proof.
  unfold parse_price. destruct (re_search txt) as [[n g]|]; [|discriminate].
  apply float_of_string_not_nan.
Qed.

(** ** Input Loader *)

Lemma nth_cell_value (i : nat) (row : list (option pyval)) :
  nth i (map cell_value row) (PyFloat nan) = cell_value (nth i row None).
Proof. exact (map_nth cell_value row None i). Qed.

Lemma read_rows_without_links (cols : list string) (row : list pyval)
  (rest : list (list pyval)) (acc : list MinifigureInputData) :
  index_of EXCEL_LINK_COLUMN_NAME cols = None ->
  read_rows cols (row :: rest) acc = Raise KeyError.
Proof.
  intros H. simpl. unfold row_getitem. now rewrite H.
Qed.

Lemma read_rows_with_links (hdr : list string) (k : nat)
  (bdy : list (list (option pyval))) (acc : list MinifigureInputData) :
  index_of EXCEL_LINK_COLUMN_NAME hdr = Some k ->
  read_rows hdr (map (map cell_value) bdy) acc
  = Ok (acc ++ map (fun row => {| link := cell_value (nth k row None);
                                  in_quantity := loaded_quantity hdr row |})
                 bdy).
Proof.
  intros Hk. revert acc. induction bdy as [|row bdy IH]; intros acc; simpl.
  - now rewrite app_nil_r.
  - unfold row_getitem. rewrite Hk. simpl. rewrite IH, <- app_assoc. simpl.
    do 3 f_equal. rewrite nth_cell_value. f_equal.
    unfold row_get, loaded_quantity.
    destruct (index_of EXCEL_QUANTITY_COLUMN_NAME hdr) as [j|]; [|reflexivity].
    rewrite nth_cell_value. now destruct (nth j row None).
Qed.

(** C8, as the code has it.  The loader raises when the designated sheet is
    absent, and when the link column is absent from a sheet that has a row;
    a sheet without rows gives the empty list whatever its columns.  With the
    link column it returns one record per row, in order; the record's
    quantity is [None] when there is no quantity column and NaN when there is
    one and the row's cell is blank.  Neither is zero, and both count as a
    quantity of 1 where zero counts as 0. *)
Theorem read_excel_contract (w : Web) (file_path : string) (wb : workbook) :
  excel_files w file_path = Some wb ->
  (find_sheet EXCEL_SHEET_NAME wb = None ->
   read_excel w file_path = Raise ValueError)
  /\ (forall sh,
        find_sheet EXCEL_SHEET_NAME wb = Some sh ->
        (index_of EXCEL_LINK_COLUMN_NAME (header sh) = None ->
         body sh <> [] -> read_excel w file_path = Raise KeyError)
        /\ (body sh = [] -> read_excel w file_path = Ok [])
        /\ (forall k,
              index_of EXCEL_LINK_COLUMN_NAME (header sh) = Some k ->
              read_excel w file_path
              = Ok (map (fun row =>
                           {| link := cell_value (nth k row None);
                              in_quantity := loaded_quantity (header sh) row |})
                      (body sh)))
        /\ (forall row,
              index_of EXCEL_QUANTITY_COLUMN_NAME (header sh) = None ->
              loaded_quantity (header sh) row = PyNone)
        /\ (forall row j,
              index_of EXCEL_QUANTITY_COLUMN_NAME (header sh) = Some j ->
              nth j row None = None ->
              loaded_quantity (header sh) row = PyFloat nan))
  /\ PyNone <> PyInt 0 /\ PyFloat nan <> PyInt 0
  /\ quantity_factor PyNone = Ok 1%Z
  /\ quantity_factor (PyFloat nan) = Ok 1%Z
  /\ quantity_factor (PyInt 0) = Ok 0%Z.
Proof.
  intros Hwb. unfold read_excel, pandas_read_excel. rewrite Hwb.
  split; [intros ->; reflexivity|].
  split.
  - intros sh ->. simpl.
    repeat split.
    + intros Hl Hb. destruct (body sh) as [|row rest]; [congruence|].
      simpl map. now apply read_rows_without_links.
    + intros ->. reflexivity.
    + intros k Hk. now rewrite (read_rows_with_links _ k).
    + intros row Hq. unfold loaded_quantity. now rewrite Hq.
    + intros row j Hq Hb. unfold loaded_quantity. now rewrite Hq, Hb.
  - repeat split; discriminate.
Qed.

Lemma read_excel_contract_witness :
  excel_files (web_of_workbook workbook_blank_quantity) EXCEL_PATH
  = Some workbook_blank_quantity
  /\ read_excel (web_of_workbook workbook_blank_quantity) EXCEL_PATH
     = Ok [ {| link := PyStr "https://shop/luke"; in_quantity := PyFloat nan |} ]
  /\ read_excel (web_of_workbook workbook_no_quantity_column) EXCEL_PATH
     = Ok [ {| link := PyStr "https://shop/luke"; in_quantity := PyNone |} ]
  /\ read_excel (web_of_workbook []) EXCEL_PATH = Raise ValueError.
Proof.
  split; [reflexivity|]. split; [|split].
  - destruct (read_excel_contract (web_of_workbook workbook_blank_quantity)
                EXCEL_PATH workbook_blank_quantity eq_refl) as [_ [H _]].
    destruct (H _ eq_refl) as (_ & _ & Hk & _).
    exact (Hk 0%nat eq_refl).
  - destruct (read_excel_contract (web_of_workbook workbook_no_quantity_column)
                EXCEL_PATH workbook_no_quantity_column eq_refl) as [_ [H _]].
    destruct (H _ eq_refl) as (_ & _ & Hk & _).
    exact (Hk 0%nat eq_refl).
  - destruct (read_excel_contract (web_of_workbook [])
                EXCEL_PATH [] eq_refl) as [H _].
    exact (H eq_refl).
Defined.

(** C8 as stated fails twice.  A sheet without the link column and without
    rows is loaded without error; and a blank quantity cell gives a record
    whose quantity is NaN, not [None]. *)
Lemma read_excel_not_as_stated :
  index_of EXCEL_LINK_COLUMN_NAME ["Quantity"] = None
  /\ read_excel (web_of_workbook workbook_without_links) EXCEL_PATH = Ok []
  /\ read_excel (web_of_workbook workbook_blank_quantity) EXCEL_PATH
     = Ok [ {| link := PyStr "https://shop/luke"; in_quantity := PyFloat nan |} ]
  /\ PyFloat nan <> PyNone.
Proof.
  split; [reflexivity|]. split; [reflexivity|]. split; [reflexivity|].
  discriminate.
Qed.

(** ** Web Fetcher *)

Lemma io_bind_lift {A B : Type} (r : result A) (k : A -> io B) :
  io_bind (io_lift r) k
  = match r with
    | Ok a => k a
    | Raise e => ([], Raise e)
    end.
Proof.
  destruct r as [a|e]; simpl; [|reflexivity]. now destruct (k a).
Qed.

(** What one round of the loop does: either every step succeeds, the image
    is saved and the item is built from the page and the record, or nothing
    is written and the round raises. *)
Lemma fetch_item_cases (w : Web) (r : MinifigureInputData) :
  (exists pg t txt p url resp,
      driver_get w (link r) = Ok pg
      /\ title_text pg = Some t
      /\ nth_error (summary_tables pg) USED_FIGURE_TABLE_ID = Some txt
      /\ parse_price txt = Ok p
      /\ main_image pg = Some url
      /\ requests_get w url = Ok resp
      /\ status_code resp = 200%Z
      /\ image_open w (content resp) = true
      /\ let file := (IMG_PATH ++ "/" ++ fetched_minifigure_name t ++ ".jpg")%string in
         fetch_item w r
         = ([EvSaveImage file (content resp)],
            Ok {| name := fetched_minifigure_name t; price := p;
                  quantity := in_quantity r; image := file |}))
  \/ (exists e, fetch_item w r = ([], Raise e)).
Proof.
  unfold fetch_item.
  rewrite io_bind_lift.
  destruct (driver_get w (link r)) as [pg|e] eqn:Hpg; [|right; eauto].
  rewrite io_bind_lift.
  destruct (title_text pg) as [t|] eqn:Ht; simpl find_element; cbv iota;
    [|right; eauto].
  rewrite io_bind_lift. unfold list_getitem.
  destruct (nth_error (summary_tables pg) USED_FIGURE_TABLE_ID) as [txt|] eqn:Htxt;
    [|right; eauto].
  rewrite io_bind_lift.
  destruct (parse_price txt) as [p|e] eqn:Hp; [|right; eauto].
  rewrite io_bind_lift.
  destruct (main_image pg) as [url|] eqn:Hu; simpl find_element; cbv iota;
    [|right; eauto].
  rewrite io_bind_lift.
  destruct (requests_get w url) as [resp|e] eqn:Hr; [|right; eauto].
  destruct (Z.eqb_spec (status_code resp) 200) as [Hs|Hs];
    [|right; eexists; reflexivity].
  destruct (image_open w (content resp)) eqn:Ho;
    [|right; eexists; reflexivity].
  left. exists pg, t, txt, p, url, resp.
  repeat match goal with
         | |- _ /\ _ => split; [first [assumption | reflexivity]|]
         end.
  reflexivity.
Qed.

Lemma fetch_item_bad_status (w : Web) (r : MinifigureInputData) :
  (forall pg url resp,
      driver_get w (link r) = Ok pg -> main_image pg = Some url ->
      requests_get w url = Ok resp -> status_code resp <> 200%Z) ->
  exists e, fetch_item w r = ([], Raise e).
Proof.
  intros H.
  destruct (fetch_item_cases w r)
    as [(pg & t & txt & p & url & resp & Hpg & _ & _ & _ & Hu & Hr & Hs & _)|He].
  - exfalso. exact (H pg url resp Hpg Hu Hr Hs).
  - exact He.
Qed.

Lemma fetch_item_events (w : Web) (r : MinifigureInputData) :
  Forall is_save_image (fst (fetch_item w r)).
Proof.
  destruct (fetch_item_cases w r) as [(pg & t & txt & p & url & resp & H)|[e ->]].
  - decompose [and] H. cbv zeta in *.
    match goal with E : fetch_item _ _ = _ |- _ => rewrite E end.
    repeat constructor.
  - constructor.
Qed.

Lemma fetch_loop_events (w : Web) (l : list MinifigureInputData)
  (acc : list MinifigureWebData) :
  Forall is_save_image (fst (fetch_loop w l acc)).
Proof.
  revert acc. induction l as [|r l IH]; intros acc; simpl.
  - constructor.
  - pose proof (fetch_item_events w r) as Hr.
    destruct (fetch_item w r) as [evs [it|e]]; simpl in *; [|exact Hr].
    specialize (IH (acc ++ [it])).
    destruct (fetch_loop w l (acc ++ [it])) as [evs' ex]. simpl in *.
    apply Forall_app. auto.
Qed.

(** When every round succeeds the loop ends normally, having appended one
    item per record, in order. *)
Lemma fetch_loop_all_ok (w : Web) (l : list MinifigureInputData)
  (acc : list MinifigureWebData) :
  (forall r, In r l -> exists evs it, fetch_item w r = (evs, Ok it)) ->
  exists evs items,
    fetch_loop w l acc = (evs, {| result_list := acc ++ items; raised := None |})
    /\ Forall2 (fun r it => exists e, fetch_item w r = (e, Ok it)) l items.
Proof.
  revert acc. induction l as [|r l IH]; intros acc H; simpl.
  - exists [], []. rewrite app_nil_r. split; [reflexivity | constructor].
  - destruct (H r (or_introl eq_refl)) as (e & it & Hr). rewrite Hr.
    destruct (IH (acc ++ [it])) as (evs & items & Hl & Hf).
    { intros r' Hin. apply H. now right. }
    rewrite Hl. exists (e ++ evs), (it :: items). split.
    + now rewrite <- app_assoc.
    + constructor; eauto.
Qed.

Lemma fetch_item_quantity (w : Web) (r : MinifigureInputData)
  (evs : list event) (it : MinifigureWebData) :
  fetch_item w r = (evs, Ok it) ->
  quantity it = in_quantity r
  /\ exists pg t txt,
       driver_get w (link r) = Ok pg
       /\ title_text pg = Some t
       /\ name it = fetched_minifigure_name t
       /\ nth_error (summary_tables pg) USED_FIGURE_TABLE_ID = Some txt
       /\ parse_price txt = Ok (price it).
Proof.
  intros H.
  destruct (fetch_item_cases w r)
    as [(pg & t & txt & p & url & resp & Hpg & Ht & Htxt & Hp & _ & _ & _ & _ & E)|[e E]];
    cbv zeta in E; rewrite E in H; [|discriminate].
  inversion H; subst. simpl. split; [reflexivity|].
  exists pg, t, txt. auto.
Qed.

(** C6. When the round of every record succeeds, the Web Fetcher returns,
    and returns as many items as there are records; the item at each
    position is the one the round of the record at that position builds: it
    carries the record's quantity, and its name and price are read from the
    page of the record's link. *)
Theorem fetch_minifigures_data_preserves_order
  (w : Web) (input_list : list MinifigureInputData) :
  (forall r, In r input_list -> exists evs it, fetch_item w r = (evs, Ok it)) ->
  exists evs items,
    fetch_minifigures_data w input_list = (evs, Ok items)
    /\ List.length items = List.length input_list
    /\ Forall2 (fun r it => exists e, fetch_item w r = (e, Ok it))
         input_list items
    /\ Forall2
         (fun r it =>
            quantity it = in_quantity r
            /\ exists pg t txt,
                 driver_get w (link r) = Ok pg
                 /\ title_text pg = Some t
                 /\ name it = fetched_minifigure_name t
                 /\ nth_error (summary_tables pg) USED_FIGURE_TABLE_ID = Some txt
                 /\ parse_price txt = Ok (price it))
         input_list items.
Proof.
  intros H.
  destruct (fetch_loop_all_ok w input_list [] H) as (evs & items & Hl & Hf).
  unfold fetch_minifigures_data. rewrite Hl. simpl.
  eexists. exists items. split; [reflexivity|].
  split; [symmetry; eapply Forall2_length; exact Hf|].
  split; [exact Hf|].
  eapply Forall2_impl; [|exact Hf].
  intros r it [e He]. eapply fetch_item_quantity; exact He.
Qed.

Lemma fetch_minifigures_data_preserves_order_witness :
  (forall r, In r sample_records ->
             exists evs it, fetch_item sample_web_ok r = (evs, Ok it))
  /\ exists evs items,
      fetch_minifigures_data sample_web_ok sample_records = (evs, Ok items)
      /\ List.length items = 3%nat.
Proof.
  assert (H : forall r, In r sample_records ->
                        exists evs it, fetch_item sample_web_ok r = (evs, Ok it)).
  { intros r [<-|[<-|[<-|[]]]]; eexists; eexists; vm_compute; reflexivity. }
  split; [exact H|].
  destruct (fetch_minifigures_data_preserves_order sample_web_ok sample_records H)
    as (evs & items & E & L & _).
  exists evs, items. split; [exact E | exact L].
Defined.

(** How a loop that ended normally got its list. *)
Lemma fetch_loop_returned (w : Web) (l : list MinifigureInputData)
  (acc : list MinifigureWebData) (evs : list event) (ex : loop_exit) :
  fetch_loop w l acc = (evs, ex) -> raised ex = None ->
  exists items,
    result_list ex = acc ++ items
    /\ Forall2 (fun r it => exists e, fetch_item w r = (e, Ok it)) l items.
Proof.
  revert acc evs ex. induction l as [|r l IH]; intros acc evs ex; simpl.
  - intros H _. inversion H; subst. exists []. simpl.
    rewrite app_nil_r. split; [reflexivity | constructor].
  - destruct (fetch_item w r) as [e [it|err]] eqn:Hr.
    + destruct (fetch_loop w l (acc ++ [it])) as [evs' ex'] eqn:Hl.
      intros H Hnone. inversion H; subst.
      destruct (IH _ _ _ Hl Hnone) as (items & Hres & Hf).
      exists (it :: items). split.
      * now rewrite Hres, <- app_assoc.
      * constructor; eauto.
    + intros H Hnone. inversion H; subst. discriminate.
Qed.

(** The price of a fetched item is a number. *)
Lemma fetched_prices_not_nan (w : Web) (l : list MinifigureInputData)
  (evs : list event) (items : list MinifigureWebData) :
  fetch_minifigures_data w l = (evs, Ok items) ->
  Forall (fun it => is_nan (price it) = false) items.
Proof.
  unfold fetch_minifigures_data.
  destruct (fetch_loop w l []) as [evl ex] eqn:Hl.
  destruct (raised ex) eqn:Hr; [discriminate|].
  intros H. inversion H; subst.
  destruct (fetch_loop_returned _ _ _ _ _ Hl Hr) as (items & -> & Hf).
  simpl. clear Hl Hr H. induction Hf as [|r it l items [e He] _ IH].
  - constructor.
  - constructor; [|exact IH].
    destruct (fetch_item_quantity _ _ _ _ He) as (_ & pg & t & txt & _ & _ & _ & _ & Hp).
    exact (parse_price_not_nan _ _ Hp).
Qed.

Lemma save_images_only (evs : list event) :
  Forall is_save_image evs -> run_aborted evs.
Proof.
  intros H. rewrite Forall_forall in H. split.
  - intros path doc Hin. exact (H _ Hin).
  - intros Hin. exact (H _ Hin).
Qed.

Lemma run_aborted_makedirs (b : bool) (evs : list event) :
  run_aborted evs ->
  run_aborted ((if b then [] else [EvMakedirs IMG_PATH]) ++ evs).
Proof.
  intros [Hp Hq]. destruct b; simpl; [now split|].
  split.
  - intros path doc [Hin|Hin]; [discriminate | exact (Hp _ _ Hin)].
  - intros [Hin|Hin]; [discriminate | exact (Hq Hin)].
Qed.

(** C5. In a run of three records in which the download of the second
    record's image, whenever it is made, answers with a status other than
    200: the Web Fetcher raises, [main] ends with that exception, no document
    is written (and the browser session is not closed), and when the loop
    stops the list of items holds at most the item of the first record:
    nothing for the second record or the third. *)
Theorem image_failure_aborts_run
  (w : Web) (rt : Runtime) (r1 r2 r3 : MinifigureInputData) :
  read_excel w EXCEL_PATH = Ok [r1; r2; r3] ->
  (forall pg url resp,
      driver_get w (link r2) = Ok pg -> main_image pg = Some url ->
      requests_get w url = Ok resp -> status_code resp <> 200%Z) ->
  exists evs e evl ex,
    fetch_minifigures_data w [r1; r2; r3] = (evs, Raise e)
    /\ main w rt = (evs, Raise e)
    /\ run_aborted evs
    /\ fetch_loop w [r1; r2; r3] [] = (evl, ex)
    /\ raised ex = Some e
    /\ (result_list ex = []
        \/ exists ev1 it1,
             fetch_item w r1 = (ev1, Ok it1) /\ result_list ex = [it1]).
Proof.
  intros Hread Hbad.
  destruct (fetch_item_bad_status w r2 Hbad) as [e2 E2].
  pose proof (fetch_item_events w r1) as Hev.
  unfold main. rewrite io_bind_lift, Hread.
  unfold fetch_minifigures_data. simpl fetch_loop.
  destruct (fetch_item w r1) as [ev1 [it1|e1]] eqn:E1; simpl in Hev.
  - rewrite E2. simpl.
    exists ((if img_dir_exists w then [] else [EvMakedirs IMG_PATH]) ++ ev1 ++ []),
      e2, (ev1 ++ []), {| result_list := [it1]; raised := Some e2 |}.
    repeat split; try reflexivity.
    + apply run_aborted_makedirs, save_images_only. now rewrite app_nil_r.
    + apply run_aborted_makedirs, save_images_only. now rewrite app_nil_r.
    + right. eauto.
  - simpl.
    exists ((if img_dir_exists w then [] else [EvMakedirs IMG_PATH]) ++ ev1),
      e1, ev1, {| result_list := []; raised := Some e1 |}.
    repeat split; try reflexivity.
    + now apply run_aborted_makedirs, save_images_only.
    + now apply run_aborted_makedirs, save_images_only.
    + now left.
Qed.

Lemma image_failure_aborts_run_witness :
  read_excel sample_web EXCEL_PATH = Ok sample_records
  /\ exists evs e evl ex,
      fetch_minifigures_data sample_web sample_records = (evs, Raise e)
      /\ main sample_web sample_runtime = (evs, Raise e)
      /\ run_aborted evs
      /\ fetch_loop sample_web sample_records [] = (evl, ex)
      /\ raised ex = Some e
      /\ (result_list ex = []
          \/ exists ev1 it1,
               fetch_item sample_web
                 {| link := PyStr "https://shop/luke"; in_quantity := PyInt 2 |}
               = (ev1, Ok it1)
               /\ result_list ex = [it1]).
Proof.
  split; [reflexivity|].
  apply (image_failure_aborts_run sample_web sample_runtime
           {| link := PyStr "https://shop/luke"; in_quantity := PyInt 2 |}
           {| link := PyStr "https://shop/vader"; in_quantity := PyFloat nan |}
           {| link := PyStr "https://shop/leia"; in_quantity := PyInt 1 |}).
  - reflexivity.
  - intros pg url resp Hpg Hu Hr. simpl in Hpg.
    injection Hpg as <-. simpl in Hu. injection Hu as <-. simpl in Hr.
    injection Hr as <-. simpl. discriminate.
Defined.

(** ** Aggregator: the order of the result *)

Lemma insert_by_price_perm (x : MinifigureWebData) (l : list MinifigureWebData) :
  Permutation (insert_by_price x l) (x :: l).
Proof.
  induction l as [|y l IH]; simpl.
  - apply Permutation_refl.
  - destruct (price x <? price y)%float.
    + eapply perm_trans; [apply perm_skip, IH | apply perm_swap].
    + apply Permutation_refl.
Qed.

Lemma sorted_by_price_reverse_perm (l : list MinifigureWebData) :
  Permutation (sorted_by_price_reverse l) l.
Proof.
  induction l as [|x l IH]; simpl.
  - apply perm_nil.
  - eapply perm_trans; [apply insert_by_price_perm | now apply perm_skip].
Qed.

Lemma insert_by_price_sorted (x : MinifigureWebData) (l : list MinifigureWebData) :
  is_nan (price x) = false ->
  Forall (fun it => is_nan (price it) = false) l ->
  StronglySorted price_ge l ->
  StronglySorted price_ge (insert_by_price x l).
Proof.
  intros Hx Hl Hs. induction Hs as [|y l Hs IH Hy]; simpl.
  - constructor; constructor.
  - inversion Hl as [|? ? Hny Hnl]; subst.
    destruct (price x <? price y)%float eqn:Hlt.
    + constructor; [now apply IH|].
      apply (Permutation_Forall (x := x :: l)).
      * apply Permutation_sym, insert_by_price_perm.
      * constructor; [|exact Hy]. now apply ltb_leb.
    + assert (Hyx : price_ge x y) by now apply not_ltb_leb.
      constructor; [constructor; assumption|].
      constructor; [exact Hyx|].
      eapply Forall_impl; [|exact Hy].
      intros z Hz. unfold price_ge in *. now apply leb_trans with (price y).
Qed.

Lemma sorted_by_price_reverse_sorted (l : list MinifigureWebData) :
  Forall (fun it => is_nan (price it) = false) l ->
  StronglySorted price_ge (sorted_by_price_reverse l).
Proof.
  induction 1 as [|x l Hx Hl IH]; simpl.
  - constructor.
  - apply insert_by_price_sorted; [exact Hx| |exact IH].
    apply (Permutation_Forall (x := l)); [|exact Hl].
    apply Permutation_sym, sorted_by_price_reverse_perm.
Qed.

(** An inserted item passes no item of its own price. *)
Lemma insert_by_price_with_price (p : float) (x : MinifigureWebData)
  (l : list MinifigureWebData) :
  with_price p (insert_by_price x l) = with_price p (x :: l).
Proof.
  unfold with_price. induction l as [|y l IH]; simpl.
  - reflexivity.
  - destruct (price x <? price y)%float eqn:Hlt; [|reflexivity].
    simpl in *. rewrite IH.
    destruct (price x =? p)%float eqn:Hx; [|reflexivity].
    destruct (price y =? p)%float eqn:Hy; [|reflexivity].
    now rewrite (eqb_same_not_ltb _ _ _ Hx Hy) in Hlt.
Qed.

Lemma sorted_by_price_reverse_stable (p : float) (l : list MinifigureWebData) :
  with_price p (sorted_by_price_reverse l) = with_price p l.
Proof.
  induction l as [|x l IH]; simpl.
  - reflexivity.
  - rewrite insert_by_price_with_price. unfold with_price in *. simpl.
    now rewrite IH.
Qed.

Lemma sort_minifigure_list_order (l out : list MinifigureWebData) (total : pyval) :
  sort_minifigure_list l = Ok (total, out) -> out = sorted_by_price_reverse l.
Proof.
  unfold sort_minifigure_list.
  destruct (sum_values (sorted_by_price_reverse l) (PyInt 0)); simpl; congruence.
Qed.

Lemma price_ge_head (x : MinifigureWebData) (xs : list MinifigureWebData)
  (y : MinifigureWebData) :
  is_nan (price x) = false ->
  StronglySorted price_ge (x :: xs) -> In y (x :: xs) -> price_ge x y.
Proof.
  intros Hx Hs [<-|Hin].
  - now apply leb_refl_not_nan.
  - apply StronglySorted_inv in Hs as [_ Hall].
    rewrite Forall_forall in Hall. now apply Hall.
Qed.

Lemma with_price_tail (x : MinifigureWebData) (xs ys : list MinifigureWebData) :
  (forall p, with_price p (x :: xs) = with_price p (x :: ys)) ->
  forall p, with_price p xs = with_price p ys.
Proof.
  intros H p. specialize (H p). unfold with_price in *. simpl in H.
  destruct (price x =? p)%float; congruence.
Qed.

(** Two lists with the same items, both by decreasing price and with the
    same order among the items of each price, are the same list. *)
Lemma stable_descending_unique (l1 l2 : list MinifigureWebData) :
  Forall (fun it => is_nan (price it) = false) l1 ->
  Permutation l1 l2 ->
  StronglySorted price_ge l1 -> StronglySorted price_ge l2 ->
  (forall p, with_price p l1 = with_price p l2) ->
  l1 = l2.
Proof.
  revert l2. induction l1 as [|x xs IH]; intros l2 Hn Hp H1 H2 Hw.
  - now apply Permutation_nil in Hp.
  - destruct l2 as [|y ys]; [now apply Permutation_sym, Permutation_nil in Hp|].
    inversion Hn as [|? ? Hx Hxs]; subst.
    assert (Hy : is_nan (price y) = false).
    { rewrite Forall_forall in Hn. apply Hn.
      apply (Permutation_in y (Permutation_sym Hp)). now left. }
    assert (Hxy : price_ge x y).
    { apply (price_ge_head x xs y Hx H1).
      apply (Permutation_in y (Permutation_sym Hp)). now left. }
    assert (Hyx : price_ge y x).
    { apply (price_ge_head y ys x Hy H2).
      apply (Permutation_in x Hp). now left. }
    assert (E : (price x =? price y)%float = true)
      by (apply leb_antisym; assumption).
    assert (Exy : x = y).
    { specialize (Hw (price y)). unfold with_price in Hw. simpl in Hw.
      rewrite E, (eqb_refl_not_nan _ Hy) in Hw. congruence. }
    subst y. f_equal. apply IH.
    + exact Hxs.
    + now apply Permutation_cons_inv in Hp.
    + now apply StronglySorted_inv in H1.
    + now apply StronglySorted_inv in H2.
    + now apply with_price_tail with x.
Qed.

(** Hence the model of [sorted] stands for any stable sort: a list with
    the items of [l], by decreasing price, that keeps the order of [l] among
    the items of each price, is [sorted_by_price_reverse l]. *)
Lemma sorted_by_price_reverse_unique (l out : list MinifigureWebData) :
  Forall (fun it => is_nan (price it) = false) l ->
  Permutation out l ->
  StronglySorted price_ge out ->
  (forall p, with_price p out = with_price p l) ->
  out = sorted_by_price_reverse l.
Proof.
  intros Hn Hp Hs Hw. apply stable_descending_unique.
  - apply (Permutation_Forall (x := l)); [now apply Permutation_sym | exact Hn].
  - eapply perm_trans; [exact Hp|].
    apply Permutation_sym, sorted_by_price_reverse_perm.
  - exact Hs.
  - now apply sorted_by_price_reverse_sorted.
  - intros p. now rewrite Hw, sorted_by_price_reverse_stable.
Qed.

(** ** Aggregator: the total *)

Lemma digits2_pos_bound (m : positive) :
  (Zpos m < 2 ^ Zpos (digits2_pos m))%Z.
Proof.
  induction m as [m IH|m IH|]; simpl digits2_pos.
  - rewrite Pos2Z.inj_succ, Z.pow_succ_r by lia. lia.
  - rewrite Pos2Z.inj_succ, Z.pow_succ_r by lia. lia.
  - reflexivity.
Qed.

(** The magnitude of a finite binary64 number is below the bound past which
    an int has no float. *)
Lemma valid_finite_bound (m : positive) (e : Z) :
  bounded prec emax m e = true ->
  ((if 0 <=? e then Zpos m * 2 ^ e else Zpos m / 2 ^ (- e)) < 2 ^ 1024 - 2 ^ 970
   /\ 0 <= (if 0 <=? e then Zpos m * 2 ^ e else Zpos m / 2 ^ (- e)))%Z.
Proof.
  unfold bounded, canonical_mantissa, fexp, emin, prec, emax.
  intros H. apply andb_true_iff in H as [Hc He].
  apply Z.eqb_eq in Hc. apply Z.leb_le in He.
  pose proof (digits2_pos_bound m) as Hd.
  assert (Hd53 : (Zpos (digits2_pos m) <= 53)%Z) by lia.
  assert (Hm : (Zpos m < 2 ^ 53)%Z).
  { eapply Z.lt_le_trans; [exact Hd|]. apply Z.pow_le_mono_r; lia. }
  destruct (Z.leb_spec 0 e) as [H0|H0].
  - assert (Hp : (0 < 2 ^ e <= 2 ^ 971)%Z).
    { split; [apply Z.pow_pos_nonneg; lia | apply Z.pow_le_mono_r; lia]. }
    split; [|lia].
    apply Z.le_lt_trans with ((2 ^ 53 - 1) * 2 ^ 971)%Z.
    + apply Z.mul_le_mono_nonneg; lia.
    + reflexivity.
  - assert (Hp : (0 < 2 ^ (- e))%Z) by (apply Z.pow_pos_nonneg; lia).
    split.
    + apply Z.le_lt_trans with (Zpos m).
      * apply Z.div_le_upper_bound; [lia|]. nia.
      * eapply Z.lt_trans; [exact Hm|]. reflexivity.
    + apply Z.div_pos; lia.
Qed.

Lemma pos_pow_1_l (p : positive) : (1 ^ p)%positive = 1%positive.
Proof.
  apply Pos2Z.inj. rewrite Pos2Z.inj_pow. apply Z.pow_1_l. lia.
Qed.

Lemma Qpower_two_pos (p : positive) :
  QArith_base.Qpower_positive (QArith_base.inject_Z 2) p
  = QArith_base.inject_Z (2 ^ Z.pos p).
Proof.
  unfold QArith_base.inject_Z.
  rewrite Qpower.Qpower_decomp_positive, pos_pow_1_l. reflexivity.
Qed.

Lemma two_pow_pos (p : positive) :
  exists d : positive, (2 ^ Z.pos p)%Z = Z.pos d.
Proof.
  assert (H : (0 < 2 ^ Z.pos p)%Z) by (apply Z.pow_pos_nonneg; lia).
  destruct (2 ^ Z.pos p)%Z as [|d|d]; try lia. now exists d.
Qed.

Lemma Qtruncate_comp (a b : QArith_base.Q) :
  QArith_base.Qeq a b -> Qtruncate a = Qtruncate b.
Proof.
  intros H. unfold Qtruncate.
  rewrite (QArith_base.Qleb_comp _ _ (QArith_base.Qeq_refl _) _ _ H).
  rewrite (Qround.Qfloor_comp _ _ H), (Qround.Qceiling_comp _ _ H).
  reflexivity.
Qed.

(** What the integer part is: it lies between zero and the number, less
    than one away from it. *)
Lemma Qtruncate_bounds (q : QArith_base.Q) :
  (QArith_base.Qle (QArith_base.inject_Z 0) q ->
   QArith_base.Qle (QArith_base.inject_Z (Qtruncate q)) q
   /\ QArith_base.Qlt q (QArith_base.inject_Z (Qtruncate q + 1))
   /\ (0 <= Qtruncate q)%Z)
  /\ (QArith_base.Qlt q (QArith_base.inject_Z 0) ->
      QArith_base.Qle q (QArith_base.inject_Z (Qtruncate q))
      /\ QArith_base.Qlt (QArith_base.inject_Z (Qtruncate q - 1)) q
      /\ (Qtruncate q <= 0)%Z).
Proof.
  unfold Qtruncate. split; intros H.
  - rewrite (proj2 (QArith_base.Qle_bool_iff _ _) H).
    split; [apply Qround.Qfloor_le|]. split; [apply Qround.Qlt_floor|].
    rewrite <- (Qround.Qfloor_Z 0). now apply Qround.Qfloor_resp_le.
  - destruct (QArith_base.Qle_bool (QArith_base.inject_Z 0) q) eqn:E.
    + apply QArith_base.Qle_bool_iff in E.
      exfalso. exact (QArith_base.Qlt_not_le _ _ H E).
    + split; [apply Qround.Qle_ceiling|]. split; [apply Qround.Qceiling_lt|].
      rewrite <- (Qround.Qceiling_Z 0). apply Qround.Qceiling_resp_le.
      now apply QArith_base.Qlt_le_weak.
Qed.

Lemma Qtruncate_frac (s : bool) (m d : positive) :
  Qtruncate (QArith_base.Qmake (if s then Z.neg m else Z.pos m) d)
  = let a := (Z.pos m / Z.pos d)%Z in if s then (- a)%Z else a.
Proof.
  unfold Qtruncate, QArith_base.Qle_bool, Qround.Qceiling, Qround.Qfloor.
  destruct s; reflexivity.
Qed.

Lemma Qtruncate_finite (s : bool) (m : positive) (e : Z) :
  Qtruncate
    (QArith_base.Qmult
       (QArith_base.inject_Z (if s then Z.neg m else Z.pos m))
       (QArith_base.Qpower (QArith_base.inject_Z 2) e))
  = let a := if (0 <=? e)%Z then (Z.pos m * 2 ^ e)%Z
             else (Z.pos m / 2 ^ (- e))%Z in
    if s then (- a)%Z else a.
Proof.
  destruct e as [|p|p]; cbv zeta.
  - change (0 <=? 0)%Z with true. cbv iota.
    rewrite Z.pow_0_r, Z.mul_1_r.
    transitivity (Qtruncate (QArith_base.Qmake (if s then Z.neg m else Z.pos m) 1)).
    + apply Qtruncate_comp. unfold QArith_base.Qpower.
      apply QArith_base.Qmult_1_r.
    + rewrite Qtruncate_frac. cbv zeta. now rewrite Z.div_1_r.
  - change (0 <=? Z.pos p)%Z with true. cbv iota.
    unfold QArith_base.Qpower. rewrite Qpower_two_pos.
    destruct (two_pow_pos p) as [d Hd]. rewrite Hd.
    transitivity (Qtruncate (QArith_base.Qmake
                    (if s then Z.neg (m * d) else Z.pos (m * d)) 1)).
    + apply Qtruncate_comp. unfold QArith_base.Qeq, QArith_base.Qmult,
        QArith_base.inject_Z. simpl. destruct s; lia.
    + rewrite Qtruncate_frac. cbv zeta. rewrite Z.div_1_r.
      destruct s; reflexivity.
  - change (0 <=? Z.neg p)%Z with false. cbv iota.
    change (- Z.neg p)%Z with (Z.pos p).
    unfold QArith_base.Qpower. rewrite Qpower_two_pos.
    destruct (two_pow_pos p) as [d Hd]. rewrite Hd.
    transitivity (Qtruncate (QArith_base.Qmake (if s then Z.neg m else Z.pos m) d)).
    + apply Qtruncate_comp. unfold QArith_base.Qeq, QArith_base.Qmult,
        QArith_base.Qinv, QArith_base.inject_Z. simpl. destruct s; lia.
    + now rewrite Qtruncate_frac.
Qed.

(** Where [int] of a float returns, it returns the integer part of the
    number the float stands for. *)
Lemma int_of_float_truncate (f : float) (z : Z) :
  int_of_float f = Ok z -> z = truncate f.
Proof.
  unfold int_of_float, truncate, float_value.
  destruct (Prim2SF f) as [s|s| |s m e]; try discriminate.
  - intros H. inversion H. reflexivity.
  - intros H. inversion H. symmetry. apply Qtruncate_finite.
Qed.

(** [int] of a float that is neither NaN nor infinite is an int that has a
    float. *)
Lemma int_of_float_fits (f : float) :
  is_nan f = false -> is_infinity f = false ->
  int_of_float f = Ok (truncate f) /\ int_too_large (truncate f) = false.
Proof.
  intros Hn Hi.
  assert (H : exists z, int_of_float f = Ok z /\ int_too_large z = false).
  { unfold int_of_float.
    pose proof (Prim2SF_valid f) as Hv.
    destruct (Prim2SF_cases f)
      as [[H _]|[(_ & H & _)|(_ & _ & [[s Hs]|(s & m & e & Hs)])]];
      try congruence; rewrite Hs in *.
    - eexists. split; reflexivity.
    - simpl in Hv. destruct (valid_finite_bound m e Hv) as [Hlt Hge].
      eexists. split; [reflexivity|].
      unfold int_too_large. apply Z.leb_gt.
      destruct s; [rewrite Z.abs_opp|]; rewrite Z.abs_eq; assumption. }
  destruct H as (z & Hz & Hfit).
  rewrite <- (int_of_float_truncate f z Hz). split; assumption.
Qed.

Lemma quantity_factor_ok (q : pyval) :
  quantity_ok q = true ->
  quantity_factor q = Ok (effective_quantity q)
  /\ int_too_large (effective_quantity q) = false.
Proof.
  destruct q as [|z|f|s]; simpl; intros H; try discriminate.
  - split; reflexivity.
  - apply negb_true_iff in H. unfold quantity_factor. simpl. rewrite H. auto.
  - apply negb_true_iff in H. unfold quantity_factor. simpl.
    destruct (is_nan f) eqn:Hn; [split; reflexivity|].
    apply int_of_float_fits; assumption.
Qed.

(** On text the factor raises in [math.isnan]: [int] is not reached. *)
Lemma quantity_factor_str (s : string) :
  quantity_factor (PyStr s) = Raise TypeError.
Proof. reflexivity. Qed.

Lemma sum_values_from_float (items : list MinifigureWebData) (a : float) :
  Forall (fun it => quantity_ok (quantity it) = true) items ->
  sum_values items (PyFloat a)
  = Ok (PyFloat
          (fold_left
             (fun acc it =>
                (acc + price it * Z2F (effective_quantity (quantity it)))%float)
             items a)).
Proof.
  intros H. revert a. induction H as [|it items Hq _ IH]; intros a; simpl.
  - reflexivity.
  - destruct (quantity_factor_ok _ Hq) as [-> Hfit]. simpl.
    unfold float_mul_int, float_of_int. rewrite Hfit. simpl. apply IH.
Qed.

Lemma sum_values_total (items : list MinifigureWebData) :
  Forall (fun it => quantity_ok (quantity it) = true) items ->
  sum_values items (PyInt 0)
  = Ok match items with
       | [] => PyInt 0
       | _ :: _ => PyFloat (weighted_total items)
       end.
Proof.
  intros H. destruct H as [|it items Hq Hr]; simpl.
  - reflexivity.
  - destruct (quantity_factor_ok _ Hq) as [-> Hfit]. simpl.
    unfold float_mul_int, float_of_int. rewrite Hfit. simpl.
    now rewrite sum_values_from_float.
Qed.

Lemma sort_minifigure_list_returns (input_list : list MinifigureWebData) :
  Forall (fun it => quantity_ok (quantity it) = true) input_list ->
  sort_minifigure_list input_list
  = Ok (match input_list with
        | [] => PyInt 0
        | _ :: _ => PyFloat (weighted_total (sorted_by_price_reverse input_list))
        end,
        sorted_by_price_reverse input_list).
Proof.
  intros H. unfold sort_minifigure_list.
  assert (Hs : Forall (fun it => quantity_ok (quantity it) = true)
                 (sorted_by_price_reverse input_list)).
  { apply (Permutation_Forall (x := input_list)); [|exact H].
    apply Permutation_sym, sorted_by_price_reverse_perm. }
  rewrite (sum_values_total _ Hs). simpl.
  destruct input_list as [|x l]; [reflexivity|].
  destruct (sorted_by_price_reverse (x :: l)) eqn:E; [|reflexivity].
  exfalso. pose proof (sorted_by_price_reverse_perm (x :: l)) as P.
  rewrite E in P. exact (Permutation_nil_cons P).
Qed.

(** C1, as the code has it.  On fetched items whose price is a number and
    whose quantity is absent, NaN, a float that is not infinite or an int
    that fits a float, the Aggregator returns as total the sum of price times
    effective quantity over the items it returns, which are the items it was
    given, each once, by decreasing price, added from first to last in
    binary64 (the int [0] of an empty sum when there is no item).  The factor
    the code applies to an item is the effective quantity: 1 for an absent or
    NaN quantity, else the integer value of the quantity, which for a float
    is the integer part of the number it stands for. *)
Theorem sort_minifigure_list_total (input_list : list MinifigureWebData) :
  Forall (fun it => fetched_ok it = true) input_list ->
  sort_minifigure_list input_list
  = Ok (match input_list with
        | [] => PyInt 0
        | _ :: _ => PyFloat (weighted_total (sorted_by_price_reverse input_list))
        end,
        sorted_by_price_reverse input_list)
  /\ Permutation (sorted_by_price_reverse input_list) input_list
  /\ StronglySorted price_ge (sorted_by_price_reverse input_list)
  /\ (forall it, In it input_list ->
        quantity_factor (quantity it) = Ok (effective_quantity (quantity it))).
Proof.
  intros H.
  assert (Hq : Forall (fun it => quantity_ok (quantity it) = true) input_list).
  { eapply Forall_impl; [|exact H]. intros it Hit.
    now apply andb_true_iff in Hit as [_ Hit]. }
  assert (Hn : Forall (fun it => is_nan (price it) = false) input_list).
  { eapply Forall_impl; [|exact H]. intros it Hit.
    apply andb_true_iff in Hit as [Hit _]. now apply negb_true_iff in Hit. }
  split; [|split; [|split]].
  - now apply sort_minifigure_list_returns.
  - apply sorted_by_price_reverse_perm.
  - now apply sorted_by_price_reverse_sorted.
  - intros it Hin. rewrite Forall_forall in Hq.
    apply quantity_factor_ok, Hq, Hin.
Qed.

Lemma sort_minifigure_list_total_witness :
  Forall (fun it => fetched_ok it = true) sample_ties
  /\ effective_quantity (PyFloat 2.5) = 2%Z
  /\ sort_minifigure_list sample_ties
     = Ok (PyFloat 120,
           [ sample_figure "B" 30 (PyFloat nan);
             sample_figure "D" 30 (PyInt 1);
             sample_figure "E" 20 PyNone;
             sample_figure "A" 10 (PyInt 2);
             sample_figure "C" 10 (PyFloat 2.5) ]).
Proof.
  assert (H : Forall (fun it => fetched_ok it = true) sample_ties)
    by (repeat constructor).
  split; [exact H|]. split; [vm_compute; reflexivity|].
  exact (proj1 (sort_minifigure_list_total sample_ties H)).
Defined.

(** C1 as stated fails: a fetched item can carry a quantity for which the
    Aggregator has no total.  A quantity cell that holds the text "3" is
    read as text and handed on by the Web Fetcher; line 106 then raises
    [TypeError] in [math.isnan], where the specification counts the item
    once. *)
Lemma sort_minifigure_list_text_quantity :
  let items := [ sample_figure "Luke" 10 (PyStr "3") ] in
  Forall (fun it => is_nan (price it) = false) items
  /\ effective_quantity (PyStr "3") = 1%Z
  /\ sort_minifigure_list items = Raise TypeError
  /\ forall total out, sort_minifigure_list items <> Ok (total, out).
Proof.
  cbv zeta. split; [repeat constructor|]. split; [reflexivity|].
  split; [reflexivity|]. intros total out. discriminate.
Qed.

(** C2. On fetched items (a price that is a number, a quantity of the data
    model) the Aggregator returns a list that holds the items of the input,
    each item's price being at least the price of every item after it, and in
    which, for each price, the items of that price are in their input order. *)
Theorem sort_minifigure_list_descending_stable
  (input_list : list MinifigureWebData) :
  Forall (fun it => fetched_ok it = true) input_list ->
  exists (total : pyval) (out : list MinifigureWebData),
    sort_minifigure_list input_list = Ok (total, out)
    /\ Permutation out input_list
    /\ StronglySorted price_ge out
    /\ forall p, with_price p out = with_price p input_list.
Proof.
  intros H.
  assert (Hq : Forall (fun it => quantity_ok (quantity it) = true) input_list).
  { eapply Forall_impl; [|exact H]. intros it Hit.
    now apply andb_true_iff in Hit as [_ Hit]. }
  assert (Hn : Forall (fun it => is_nan (price it) = false) input_list).
  { eapply Forall_impl; [|exact H]. intros it Hit.
    apply andb_true_iff in Hit as [Hit _]. now apply negb_true_iff in Hit. }
  eexists. eexists. split; [exact (sort_minifigure_list_returns input_list Hq)|].
  split; [apply sorted_by_price_reverse_perm|].
  split; [now apply sorted_by_price_reverse_sorted|].
  intros p. apply sorted_by_price_reverse_stable.
Qed.

Lemma sort_minifigure_list_descending_stable_witness :
  Forall (fun it => fetched_ok it = true) sample_ties
  /\ exists (total : pyval) (out : list MinifigureWebData),
      sort_minifigure_list sample_ties = Ok (total, out)
      /\ Permutation out sample_ties
      /\ StronglySorted price_ge out
      /\ forall p, with_price p out = with_price p sample_ties.
Proof.
  assert (H : Forall (fun it => fetched_ok it = true) sample_ties)
    by (repeat constructor).
  split; [exact H|].
  exact (sort_minifigure_list_descending_stable sample_ties H).
Defined.

(** On [sample_ties] the order is B, D (30), E (20), A, C (10), and the
    total is 30*1 + 30*1 + 20*1 + 10*2 + 10*2. *)
Example sort_sample_ties :
  sort_minifigure_list sample_ties
  = Ok (PyFloat 120,
        [ sample_figure "B" 30 (PyFloat nan);
          sample_figure "D" 30 (PyInt 1);
          sample_figure "E" 20 PyNone;
          sample_figure "A" 10 (PyInt 2);
          sample_figure "C" 10 (PyFloat 2.5) ]).
Proof. vm_compute. reflexivity. Qed.

(** ** Report Renderer *)

Lemma price_value_ok (rt : Runtime) (d : MinifigureWebData) :
  quantity_ok (quantity d) = true ->
  exists pv, price_value rt d = Ok pv.
Proof.
  unfold price_value. destruct (quantity d) as [|z|f|s]; simpl; intros H;
    try discriminate.
  - eauto.
  - apply negb_true_iff in H. rewrite H.
    destruct (z =? 0)%Z; simpl; eauto.
  - apply negb_true_iff in H.
    destruct (f =? 0)%float; simpl; [eauto|].
    destruct (is_nan f) eqn:Hn; simpl; [eauto|].
    destruct (int_of_float_fits f Hn H) as [-> _]. simpl. eauto.
Qed.

Lemma page_check_cursor (rt : Runtime) (pdf : FPDF) :
  (260 <? t_margin rt)%float = false ->
  (260 <? cur_y (page_check rt pdf))%float = false.
Proof.
  intros Ht. unfold page_check, get_y.
  destruct (260 <? cur_y pdf)%float eqn:Hy; [exact Ht | exact Hy].
Qed.

Lemma page_check_ops (rt : Runtime) (pdf : FPDF) :
  Forall cell_within_page (ops pdf) ->
  Forall cell_within_page (ops (page_check rt pdf)).
Proof.
  intros H. unfold page_check. destruct (260 <? get_y pdf)%float; [|exact H].
  simpl. apply Forall_app. split; [exact H | repeat constructor].
Qed.

(** A cell drawn from a cursor within the page is within the page, also
    when it goes to a new page; without line feed the cursor stays so. *)
Lemma cell_within (rt : Runtime) (pdf : FPDF) (w h : float) (txt : string)
  (lf : bool) :
  (260 <? t_margin rt)%float = false ->
  (260 <? cur_y pdf)%float = false ->
  Forall cell_within_page (ops pdf) ->
  Forall cell_within_page (ops (cell rt pdf w h txt lf))
  /\ (lf = false -> (260 <? cur_y (cell rt pdf w h txt lf))%float = false).
Proof.
  intros Ht Hy Hops. unfold cell.
  destruct (page_break_trigger rt <? cur_y pdf + h)%float; destruct lf; simpl;
    (split; [|first [discriminate | auto]]);
    repeat (apply Forall_app; split); try assumption; repeat constructor;
    assumption.
Qed.

Lemma render_row_within (rt : Runtime) (pdf pdf' : FPDF) (i : Z)
  (d : MinifigureWebData) :
  (260 <? t_margin rt)%float = false ->
  (260 <? cur_y pdf)%float = false ->
  Forall cell_within_page (ops pdf) ->
  render_row rt pdf i d = Ok pdf' ->
  Forall cell_within_page (ops pdf').
Proof.
  intros Ht Hy Hops. unfold render_row.
  destruct (price_value rt d) as [pv|e]; simpl; [|discriminate].
  intros H. inversion H; subst; clear H. simpl.
  apply Forall_app. split; [|repeat constructor].
  destruct (cell_within rt pdf 120 10
              (str_of_int i ++ ". " ++ name d)%string false Ht Hy Hops)
    as [H1 H2].
  apply (cell_within rt _ 20 10 pv false Ht (H2 eq_refl) H1).
Qed.

Lemma render_items_within (rt : Runtime) (items : list MinifigureWebData)
  (i : Z) (pdf pdf' : FPDF) :
  (260 <? t_margin rt)%float = false ->
  Forall cell_within_page (ops pdf) ->
  render_items rt items i pdf = Ok pdf' ->
  Forall cell_within_page (ops pdf').
Proof.
  intros Ht. revert i pdf. induction items as [|d items IH]; intros i pdf Hops; simpl.
  - intros H. now inversion H; subst.
  - unfold render_item.
    destruct (render_row rt (page_check rt pdf) i d) as [pdf1|e] eqn:Hrow;
      simpl; [|discriminate].
    apply IH.
    eapply render_row_within; [exact Ht| | |exact Hrow].
    + now apply page_check_cursor.
    + now apply page_check_ops.
Qed.

Lemma render_items_ok (rt : Runtime) (items : list MinifigureWebData)
  (i : Z) (pdf : FPDF) :
  Forall (fun it => quantity_ok (quantity it) = true) items ->
  exists pdf', render_items rt items i pdf = Ok pdf'.
Proof.
  intros H. revert i pdf. induction H as [|d items Hd _ IH]; intros i pdf; simpl.
  - eauto.
  - unfold render_item, render_row.
    destruct (price_value_ok rt d Hd) as [pv ->]. simpl. apply IH.
Qed.

Lemma pdf_header_within (rt : Runtime) (total : pyval) :
  (260 <? t_margin rt)%float = false ->
  Forall cell_within_page (ops (pdf_header rt total)).
Proof.
  intros Ht. unfold pdf_header, ln. cbn [ops].
  apply (cell_within rt (add_page rt FPDF_new)); [exact Ht|exact Ht|].
  repeat constructor.
Qed.

(** C9. Each round of the rendering loop first compares the cursor with 260
    and starts a page exactly when the cursor exceeds it, then draws the row
    from the resulting cursor.  Given that the cursor of a fresh page (FPDF's
    top margin) does not exceed 260, the cursor from which a row is begun
    never does, and in the document written every cell was drawn with the
    cursor not exceeding 260. *)
Theorem pagination_invariant (rt : Runtime) (total_value : pyval)
  (input_list : list MinifigureWebData) :
  (260 <? t_margin rt)%float = false ->
  Forall (fun it => quantity_ok (quantity it) = true) input_list ->
  (forall d rest i pdf,
      render_items rt (d :: rest) i pdf
      = bind (render_row rt (page_check rt pdf) i d)
          (render_items rt rest (i + 1)%Z))
  /\ (forall pdf,
        (260 <? get_y pdf)%float = true ->
        page_check rt pdf = add_page rt pdf
        /\ page_no (page_check rt pdf) = S (page_no pdf))
  /\ (forall pdf,
        (260 <? get_y pdf)%float = false -> page_check rt pdf = pdf)
  /\ (forall pdf, (260 <? get_y (page_check rt pdf))%float = false)
  /\ exists doc,
       create_pdf_document rt total_value input_list
       = ([EvPdfOutput PDF_NAME doc], Ok tt)
       /\ Forall cell_within_page doc.
Proof.
  intros Ht Hq. split; [reflexivity|].
  split; [intros pdf H; unfold page_check; rewrite H; auto|].
  split; [intros pdf H; unfold page_check; now rewrite H|].
  split; [intros pdf; now apply page_check_cursor|].
  destruct (render_items_ok rt input_list 1 (pdf_header rt total_value) Hq)
    as [pdf' Hr].
  exists (ops pdf'). split.
  - unfold create_pdf_document. rewrite Hr. reflexivity.
  - eapply render_items_within; [exact Ht| |exact Hr].
    now apply pdf_header_within.
Qed.

Lemma pagination_invariant_witness :
  (260 <? t_margin sample_runtime)%float = false
  /\ Forall (fun it => quantity_ok (quantity it) = true) sample_dozen
  /\ exists doc,
       create_pdf_document sample_runtime (PyFloat 120) sample_dozen
       = ([EvPdfOutput PDF_NAME doc], Ok tt)
       /\ Forall cell_within_page doc.
Proof.
  assert (H : Forall (fun it => quantity_ok (quantity it) = true) sample_dozen)
    by (repeat constructor).
  split; [reflexivity|]. split; [exact H|].
  exact (proj2 (proj2 (proj2 (proj2
    (pagination_invariant sample_runtime (PyFloat 120) sample_dozen eq_refl H))))).
Defined.

(** Of twelve rows the eleventh is drawn at 250 on the first page; the cursor
    then stands at 272, and the twelfth opens the second page. *)
Example sample_dozen_breaks_once :
  exists doc,
    create_pdf_document sample_runtime (PyFloat 120) sample_dozen
    = ([EvPdfOutput PDF_NAME doc], Ok tt)
    /\ skipn 32 doc
       = [ OpCell 1 10 250 120 10 "11. A";
           OpCell 1 130 250 20 10 "UAH #";
           OpImage 1 "img/A.jpg" 176 250 20 20;
           OpAddPage;
           OpCell 2 10 10 120 10 "12. A";
           OpCell 2 130 10 20 10 "UAH #";
           OpImage 2 "img/A.jpg" 176 10 20 20 ].
Proof. eexists. split; vm_compute; reflexivity. Qed.

(** The text of the price cell, by quantity: bare for an absent, NaN or zero
    quantity, with the multiplier otherwise. *)
Lemma price_value_by_quantity (rt : Runtime) (d : MinifigureWebData) :
  quantity_ok (quantity d) = true ->
  price_value rt d
  = Ok (if py_not (quantity d) then "UAH " ++ float_repr rt (price d)
        else match quantity d with
             | PyFloat f =>
                 if is_nan f then "UAH " ++ float_repr rt (price d)
                 else "UAH " ++ float_repr rt (price d) ++ " x"
                        ++ str_of_int (truncate f)
             | q => "UAH " ++ float_repr rt (price d) ++ " x"
                      ++ str_of_int (effective_quantity q)
             end)%string.
Proof.
  unfold price_value. destruct (quantity d) as [|z|f|s]; simpl; intros H;
    try discriminate.
  - reflexivity.
  - apply negb_true_iff in H. rewrite H.
    destruct (z =? 0)%Z; reflexivity.
  - apply negb_true_iff in H.
    destruct (f =? 0)%float; simpl; [reflexivity|].
    destruct (is_nan f) eqn:Hn; simpl; [reflexivity|].
    destruct (int_of_float_fits f Hn H) as [-> _]. reflexivity.
Qed.

(** On text the price cell is bare for the empty string and raises in
    [math.isnan] otherwise: [int] is not reached. *)
Lemma price_value_str (rt : Runtime) (d : MinifigureWebData) (s : string) :
  quantity d = PyStr s ->
  price_value rt d
  = match s with
    | EmptyString => Ok ("UAH " ++ float_repr rt (price d))%string
    | String _ _ => Raise TypeError
    end.
Proof. unfold price_value. intros ->. now destruct s. Qed.

(** C7 (defect of line 133).  For a quantity of zero, which is present and
    numeric, the price cell carries no multiplier: [not quantity] holds for
    [0] as it does for [None].  Line 106 tests [is None] and counts the same
    item zero times in the total.  A quantity of two is rendered "x2". *)
Theorem price_value_hides_zero_quantity
  (rt : Runtime) (n img : string) (p : float) :
  price_value rt {| name := n; price := p; quantity := PyInt 0; image := img |}
  = Ok ("UAH " ++ float_repr rt p)%string
  /\ quantity_factor (PyInt 0) = Ok 0%Z
  /\ price_value rt {| name := n; price := p; quantity := PyInt 2; image := img |}
     = Ok ("UAH " ++ float_repr rt p ++ " x2")%string.
Proof. repeat split. Qed.

(** ** Whole runs *)

(** The run of [sample_web]: the first image is saved, then the run ends
    with the [ValueError] of line 94. *)
Example sample_run_aborts :
  main sample_web sample_runtime
  = ([EvMakedirs "img"; EvSaveImage "img/Lukes X-Wing.jpg" [Byte.x89; Byte.x50]],
     Raise ValueError).
Proof. vm_compute. reflexivity. Qed.

(** The run of [sample_web_ok]: three images saved, the session closed, the
    document written with the rows by decreasing price. *)
Example sample_run_completes :
  main sample_web_ok sample_runtime
  = ([ EvSaveImage "img/Lukes X-Wing.jpg" [Byte.x89; Byte.x50];
       EvSaveImage "img/DarthVader.jpg" [Byte.x89; Byte.x50];
       EvSaveImage "img/Leia.jpg" [Byte.x89; Byte.x50];
       EvDriverQuit;
       EvPdfOutput "my_minifigures.pdf"
         [ OpAddPage;
           OpCell 1 10 10 200 10
             "My LEGO StarWars minifigures total value: UAH #";
           OpCell 1 10 30 120 10 "1. DarthVader";
           OpCell 1 130 30 20 10 "UAH #";
           OpImage 1 "img/DarthVader.jpg" 176 30 20 20;
           OpCell 1 10 52 120 10 "2. Leia";
           OpCell 1 130 52 20 10 "UAH # x1";
           OpImage 1 "img/Leia.jpg" 176 52 20 20;
           OpCell 1 10 74 120 10 "3. Lukes X-Wing";
           OpCell 1 130 74 20 10 "UAH # x2";
           OpImage 1 "img/Lukes X-Wing.jpg" 176 74 20 20 ] ],
     Ok tt).
Proof. vm_compute. reflexivity. Qed.

(* ================================================================== *)
(** * Further properties of the code *)

(** ** Input Loader: how [read_excel] ends *)

(** The four ways the loader ends. *)
Lemma read_excel_cases (w : Web) (file_path : string) :
  (excel_files w file_path = None
   /\ read_excel w file_path = Raise FileNotFoundError)
  \/ (exists wb,
        excel_files w file_path = Some wb
        /\ find_sheet EXCEL_SHEET_NAME wb = None
        /\ read_excel w file_path = Raise ValueError)
  \/ (exists wb sh,
        excel_files w file_path = Some wb
        /\ find_sheet EXCEL_SHEET_NAME wb = Some sh
        /\ body sh <> []
        /\ index_of EXCEL_LINK_COLUMN_NAME (header sh) = None
        /\ read_excel w file_path = Raise KeyError)
  \/ (exists wb sh l,
        excel_files w file_path = Some wb
        /\ find_sheet EXCEL_SHEET_NAME wb = Some sh
        /\ (body sh = [] \/ index_of EXCEL_LINK_COLUMN_NAME (header sh) <> None)
        /\ read_excel w file_path = Ok l
        /\ List.length l = List.length (body sh)).
Proof.
  unfold read_excel, pandas_read_excel.
  destruct (excel_files w file_path) as [wb|] eqn:Hwb; [|left; auto].
  right.
  destruct (find_sheet EXCEL_SHEET_NAME wb) as [sh|] eqn:Hsh;
    [|left; exists wb; auto].
  right. cbn [bind columns rows].
  destruct (index_of EXCEL_LINK_COLUMN_NAME (header sh)) as [k|] eqn:Hk.
  - right. rewrite (read_rows_with_links _ k _ _ Hk). simpl.
    exists wb, sh. eexists.
    split; [reflexivity|]. split; [exact Hsh|].
    split; [right; rewrite Hk; discriminate|]. split; [reflexivity|].
    now rewrite length_map.
  - destruct (body sh) as [|row rest] eqn:Hb.
    + right. exists wb, sh, [].
      split; [reflexivity|]. split; [exact Hsh|].
      split; [now left|]. rewrite Hb. split; reflexivity.
    + left. exists wb, sh.
      split; [reflexivity|]. split; [exact Hsh|].
      split; [rewrite Hb; discriminate|]. split; [exact Hk|].
      simpl. unfold row_getitem. now rewrite Hk.
Qed.

(** X1. Of a workbook that could be read, the Input Loader returns exactly
    when the workbook holds the designated sheet and the sheet has the link
    column or no row.  Otherwise it raises [ValueError], exactly when the
    sheet is absent, or [KeyError], exactly when the sheet has a row and no
    link column, and nothing else.  What it returns has one record per row
    of the sheet. *)
Theorem read_excel_returns_iff (w : Web) (file_path : string) (wb : workbook) :
  excel_files w file_path = Some wb ->
  ((exists l, read_excel w file_path = Ok l)
   <-> exists sh,
         find_sheet EXCEL_SHEET_NAME wb = Some sh
         /\ (body sh = [] \/ index_of EXCEL_LINK_COLUMN_NAME (header sh) <> None))
  /\ (read_excel w file_path = Raise ValueError
      <-> find_sheet EXCEL_SHEET_NAME wb = None)
  /\ (read_excel w file_path = Raise KeyError
      <-> exists sh,
            find_sheet EXCEL_SHEET_NAME wb = Some sh
            /\ body sh <> []
            /\ index_of EXCEL_LINK_COLUMN_NAME (header sh) = None)
  /\ (forall e, read_excel w file_path = Raise e ->
                e = ValueError \/ e = KeyError)
  /\ (forall l sh,
        read_excel w file_path = Ok l ->
        find_sheet EXCEL_SHEET_NAME wb = Some sh ->
        List.length l = List.length (body sh)).
Proof.
  intros Hwb.
  destruct (read_excel_cases w file_path)
    as [[Hf E]|[(wb' & Hf & Hs & E)|[(wb' & sh & Hf & Hs & Hb & Hk & E)
                                    |(wb' & sh & l & Hf & Hs & Hc & E & Hl)]]];
    [congruence| | |];
    (assert (wb' = wb) by congruence); subst wb'; rewrite E.
  - split; [split; [intros [l H]; discriminate
                   | intros (sh & H & _); congruence]|].
    split; [tauto|].
    split; [split; [discriminate | intros (sh & H & _); congruence]|].
    split; [intros e H; inversion H; auto|].
    intros; discriminate.
  - split; [split; [intros [l H]; discriminate|]|].
    { intros (sh' & H2 & H3).
      assert (sh' = sh) by congruence. subst. destruct H3; congruence. }
    split; [split; [discriminate | congruence]|].
    split; [split; [intros _; exists sh; auto | reflexivity]|].
    split; [intros e H; inversion H; auto|].
    intros; discriminate.
  - split; [split; [intros _; exists sh; auto | eauto]|].
    split; [split; [discriminate | congruence]|].
    split; [split; [discriminate|]|].
    { intros (sh' & H2 & H3 & H4).
      assert (sh' = sh) by congruence. subst. destruct Hc; congruence. }
    split; [discriminate|].
    intros l' sh' H H2.
    assert (sh' = sh) by congruence. assert (l' = l) by congruence.
    subst. exact Hl.
Qed.

Lemma read_excel_returns_iff_witness :
  excel_files (web_of_workbook workbook_without_links) EXCEL_PATH
  = Some workbook_without_links
  /\ exists l, read_excel (web_of_workbook workbook_without_links) EXCEL_PATH = Ok l.
Proof.
  split; [reflexivity|].
  apply (proj1 (read_excel_returns_iff (web_of_workbook workbook_without_links)
                  EXCEL_PATH workbook_without_links eq_refl)).
  eexists. split; [reflexivity|]. left. reflexivity.
Defined.

(** ** The name of a fetched item *)

Lemma list_ascii_of_string_app (a b : string) :
  list_ascii_of_string (a ++ b)%string
  = list_ascii_of_string a ++ list_ascii_of_string b.
Proof.
  induction a as [|c a IH]; simpl; [reflexivity | now rewrite IH].
Qed.

Lemma is_clean_app (a b : string) :
  is_clean (a ++ b)%string = is_clean a && is_clean b.
Proof.
  unfold is_clean. now rewrite list_ascii_of_string_app, forallb_app.
Qed.

Lemma append_cancel_r (a b c : string) :
  (a ++ c)%string = (b ++ c)%string -> a = b.
Proof.
  revert b. induction a as [|x a IH]; intros [|y b] H; simpl in H.
  - reflexivity.
  - apply (f_equal String.length) in H. simpl in H. rewrite length_append in H. lia.
  - apply (f_equal String.length) in H. simpl in H. rewrite length_append in H. lia.
  - inversion H; subst. f_equal. now apply IH.
Qed.

Lemma substring_prefix_app (a b : string) :
  substring 0 (String.length a) (a ++ b)%string = a.
Proof.
  induction a as [|c a IH]; simpl.
  - now destruct b.
  - now rewrite IH.
Qed.

Lemma normalize_app (a b : string) :
  normalize_minifigure_name (a ++ b)%string
  = (normalize_minifigure_name a ++ normalize_minifigure_name b)%string.
Proof.
  induction a as [|c a IH]; simpl; [reflexivity|].
  destruct (is_quote_or_slash c); simpl; now rewrite IH.
Qed.

Lemma normalize_length (s : string) :
  (String.length (normalize_minifigure_name s) <= String.length s)%nat.
Proof.
  induction s as [|c s IH]; simpl; [lia|].
  destruct (is_quote_or_slash c); simpl; lia.
Qed.

Lemma normalize_same_length (s : string) :
  String.length (normalize_minifigure_name s) = String.length s ->
  normalize_minifigure_name s = s.
Proof.
  induction s as [|c s IH]; simpl; [reflexivity|].
  pose proof (normalize_length s) as Hle.
  destruct (is_quote_or_slash c); simpl; intros H; [lia|].
  f_equal. apply IH. lia.
Qed.

(** What lines 75-77 give: the stripped name, or its first 46 characters and
    three dots. *)
Lemma fetched_minifigure_name_cases (s : string) :
  ((String.length (normalize_minifigure_name s) <= MINIFIGURE_NAME_MAX_LENGTH)%nat
   /\ fetched_minifigure_name s = normalize_minifigure_name s)
  \/ ((MINIFIGURE_NAME_MAX_LENGTH < String.length (normalize_minifigure_name s))%nat
      /\ exists kept dropped,
           normalize_minifigure_name s = (kept ++ dropped)%string
           /\ kept = substring 0 MINIFIGURE_NAME_MAX_LENGTH (normalize_minifigure_name s)
           /\ String.length kept = MINIFIGURE_NAME_MAX_LENGTH
           /\ fetched_minifigure_name s = (kept ++ "...")%string).
Proof.
  unfold fetched_minifigure_name. cbv zeta.
  destruct (Nat.ltb_spec MINIFIGURE_NAME_MAX_LENGTH
              (String.length (normalize_minifigure_name s))) as [H|H].
  - right. split; [exact H|].
    destruct (substring_prefix_split MINIFIGURE_NAME_MAX_LENGTH
                (normalize_minifigure_name s)) as [d [Hd Hl]]; [lia|].
    eexists. exists d. repeat split; [exact Hd | exact Hl].
  - left. split; [exact H | reflexivity].
Qed.

Lemma fetched_minifigure_name_clean (s : string) :
  is_clean (fetched_minifigure_name s) = true.
Proof.
  destruct (fetched_minifigure_name_cases s)
    as [[_ ->]|[_ (kept & dropped & Hs & _ & _ & ->)]].
  - apply normalize_is_clean.
  - pose proof (normalize_is_clean s) as Hc. fold (is_clean (normalize_minifigure_name s)) in Hc.
    rewrite Hs, is_clean_app in Hc. apply andb_true_iff in Hc as [Hk _].
    rewrite is_clean_app, Hk. reflexivity.
Qed.

(** X2. The name of a fetched item is at most 49 characters long and holds
    no apostrophe and no slash, so that the image path built from it names a
    file directly under the image directory; and naming is idempotent: a name
    that went through lines 75-77 comes out of them unchanged, the cut of a
    cut name being the same cut. *)
Theorem fetched_minifigure_name_bounded (fetched_name : string) :
  (String.length (fetched_minifigure_name fetched_name)
   <= MINIFIGURE_NAME_MAX_LENGTH + 3)%nat
  /\ is_clean (fetched_minifigure_name fetched_name) = true
  /\ fetched_minifigure_name (fetched_minifigure_name fetched_name)
     = fetched_minifigure_name fetched_name.
Proof.
  split; [|split].
  - destruct (fetched_minifigure_name_cases fetched_name)
      as [[Hl ->]|[_ (kept & dropped & _ & _ & Hk & ->)]].
    + lia.
    + rewrite length_append, Hk. simpl. lia.
  - apply fetched_minifigure_name_clean.
  - pose proof (fetched_minifigure_name_clean fetched_name) as Hc.
    destruct (fetched_minifigure_name_cases fetched_name)
      as [[Hl E]|[_ (kept & dropped & _ & _ & Hk & E)]]; rewrite E in *.
    + unfold fetched_minifigure_name. cbv zeta.
      rewrite (normalize_fixes_clean _ (normalize_is_clean fetched_name)).
      destruct (Nat.ltb_spec MINIFIGURE_NAME_MAX_LENGTH
                  (String.length (normalize_minifigure_name fetched_name)));
        [lia | reflexivity].
    + unfold fetched_minifigure_name. cbv zeta.
      rewrite (normalize_fixes_clean _ Hc).
      destruct (Nat.ltb_spec MINIFIGURE_NAME_MAX_LENGTH
                  (String.length (kept ++ "...")%string)) as [Hlt|Hge].
      * rewrite <- Hk at 1. now rewrite substring_prefix_app.
      * reflexivity.
Qed.

(** X3. Two pages are given the same item name, hence the same image file,
    exactly when their stripped titles are equal or are both longer than 46
    characters and agree on the first 46: titles that differ only in
    apostrophes and slashes, or only past the cut, are not told apart, and
    both images are saved at one path. *)
Theorem fetched_minifigure_name_collides (t1 t2 : string) :
  ((IMG_PATH ++ "/" ++ fetched_minifigure_name t1 ++ ".jpg")%string
   = (IMG_PATH ++ "/" ++ fetched_minifigure_name t2 ++ ".jpg")%string
   <-> fetched_minifigure_name t1 = fetched_minifigure_name t2)
  /\ (fetched_minifigure_name t1 = fetched_minifigure_name t2
      <-> normalize_minifigure_name t1 = normalize_minifigure_name t2
          \/ ((MINIFIGURE_NAME_MAX_LENGTH
               < String.length (normalize_minifigure_name t1))%nat
              /\ (MINIFIGURE_NAME_MAX_LENGTH
                  < String.length (normalize_minifigure_name t2))%nat
              /\ substring 0 MINIFIGURE_NAME_MAX_LENGTH (normalize_minifigure_name t1)
                 = substring 0 MINIFIGURE_NAME_MAX_LENGTH
                     (normalize_minifigure_name t2))).
Proof.
  split.
  - split; [|now intros ->].
    intros H. unfold IMG_PATH in H. simpl in H. inversion H as [H'].
    exact (append_cancel_r _ _ _ H').
  - destruct (fetched_minifigure_name_cases t1)
      as [[L1 E1]|[L1 (k1 & d1 & S1 & K1 & N1 & E1)]];
    destruct (fetched_minifigure_name_cases t2)
      as [[L2 E2]|[L2 (k2 & d2 & S2 & K2 & N2 & E2)]];
    rewrite E1, E2.
    + split; [auto|]. intros [H|(H & _)]; [exact H | lia].
    + split.
      * intros H. rewrite H, length_append, N2 in L1. cbn [String.length] in L1. lia.
      * intros [H|(H & _)]; [rewrite H in L1; lia | lia].
    + split.
      * intros H. rewrite <- H, length_append, N1 in L2. cbn [String.length] in L2. lia.
      * intros [H|(_ & H & _)]; [rewrite H in L1; lia | lia].
    + split.
      * intros H. right. repeat split; [exact L1 | exact L2|].
        rewrite <- K1, <- K2. exact (append_cancel_r _ _ _ H).
      * intros [H|(_ & _ & H)].
        -- rewrite K1, K2, H. reflexivity.
        -- rewrite K1, K2, H. reflexivity.
Qed.

(** X4. Stripping goes through concatenation, never lengthens a name, and
    keeps its length only where it changes nothing. *)
Theorem normalize_minifigure_name_morphism (a b : string) :
  normalize_minifigure_name (a ++ b)%string
  = (normalize_minifigure_name a ++ normalize_minifigure_name b)%string
  /\ (String.length (normalize_minifigure_name a) <= String.length a)%nat
  /\ (String.length (normalize_minifigure_name a) = String.length a
      <-> normalize_minifigure_name a = a).
Proof.
  split; [apply normalize_app|]. split; [apply normalize_length|].
  split; [apply normalize_same_length | now intros ->].
Qed.

(** ** Price extraction: when it returns, and what *)

Lemma binary_round_aux_nonneg (mx ex : Z) (lx : location) :
  (0 <= mx)%Z -> sf_nonneg (binary_round_aux prec emax false mx ex lx).
Proof.
  intros Hm. unfold binary_round_aux.
  pose proof (shr_fexp_nonneg mx ex lx Hm) as H1.
  destruct (shr_fexp prec emax mx ex lx) as [mrs' e']. simpl in H1.
  pose proof (shr_fexp_nonneg _ e' loc_Exact
                (round_nearest_even_nonneg _ (loc_of_shr_record mrs') H1)) as H2.
  destruct (shr_fexp prec emax
              (round_nearest_even (shr_m mrs') (loc_of_shr_record mrs')) e' loc_Exact)
    as [mrs'' e''].
  simpl in H2. destruct (shr_m mrs''); simpl; try lia; auto.
  match goal with |- context [if ?b then _ else _] => destruct b end;
    reflexivity.
Qed.

Lemma binary_round_nonneg (mx : positive) (ex : Z) :
  sf_nonneg (binary_round prec emax false mx ex).
Proof.
  unfold binary_round.
  destruct (shl_align mx ex (fexp prec emax (Z.pos (digits2_pos mx) + ex))) as [mz ez].
  apply binary_round_aux_nonneg. lia.
Qed.

Lemma SFleb_zero_nonneg (x : spec_float) :
  sf_nonneg x -> SFleb (S754_zero false) x = true.
Proof.
  destruct x as [s|s| |s m e]; simpl; intros H; try subst s; try reflexivity.
  contradiction.
Qed.

Lemma SF2Prim_nonneg (x : spec_float) :
  sf_nonneg x -> (0 <=? SF2Prim x)%float = true.
Proof.
  intros Hx. destruct x as [[]|s| |s m e]; simpl in Hx; try subst s;
    try reflexivity; try contradiction.
  rewrite leb_spec. change (Prim2SF 0) with (S754_zero false).
  apply SFleb_zero_nonneg. unfold SF2Prim.
  rewrite Z_ldexp_spec, of_uint63_spec. unfold SFldexp.
  pose proof (Uint63.to_Z_bounded (Uint63.of_Z (Z.pos m))) as Hb.
  destruct (Uint63.to_Z (Uint63.of_Z (Z.pos m))) as [|q|q]; simpl; try lia; auto.
  pose proof (binary_round_nonneg q 0) as Hr.
  destruct (binary_round prec emax false q 0) as [s|s| |s m' e']; simpl in *; auto.
  subst s. apply binary_round_nonneg.
Qed.

Lemma float_of_decimal_nonneg (n : Z) (k : nat) :
  (0 <=? float_of_decimal n k)%float = true.
Proof.
  unfold float_of_decimal. destruct n as [|p|p]; try reflexivity.
  unfold SFdiv_core_binary.
  set (e' := Z.min _ _). set (m' := match (0 - 0 - e')%Z with 0%Z => _ | _ => _ end).
  assert (Hm' : (0 <= m')%Z).
  { subst m'. destruct (0 - 0 - e')%Z; try lia. apply Z.shiftl_nonneg. lia. }
  assert (Hd : (0 < 10 ^ Z.of_nat k)%Z) by (apply Z.pow_pos_nonneg; lia).
  pose proof (Z.div_pos m' (10 ^ Z.of_nat k) Hm' Hd) as Hq.
  unfold Z.div in Hq.
  destruct (Z.div_eucl m' (10 ^ Z.of_nat k)) as [q r]. simpl in Hq.
  apply SF2Prim_nonneg, binary_round_aux_nonneg, Hq.
Qed.

Lemma float_of_string_nonneg (s : string) (p : float) :
  float_of_string s = Ok p -> (0 <=? p)%float = true.
Proof.
  unfold float_of_string.
  destruct (span is_digit s) as [whole [|c rest]].
  - destruct whole; [discriminate|]. intros H. inversion H.
    apply float_of_decimal_nonneg.
  - destruct (Ascii.eqb c "."); [|discriminate].
    destruct (span is_digit rest) as [frac [|? ?]]; [|discriminate].
    destruct whole, frac; try discriminate; intros H; inversion H;
      apply float_of_decimal_nonneg.
Qed.

(** X5. A price that the extraction returns is a number, and it is not
    negative: zero, a positive number or plus infinity. *)
Theorem parsed_price_is_a_nonnegative_number (table_text : string) (p : float) :
  parse_price table_text = Ok p ->
  is_nan p = false /\ (0 <=? p)%float = true.
Proof.
  intros H. split; [exact (parse_price_not_nan _ _ H)|].
  unfold parse_price in H. destruct (re_search table_text) as [[n g]|]; [|discriminate].
  exact (float_of_string_nonneg _ _ H).
Qed.

Lemma parsed_price_is_a_nonnegative_number_witness :
  parse_price "Avg Price: UAH 0.00" = Ok 0%float
  /\ is_nan 0 = false /\ (0 <=? 0)%float = true.
Proof.
  split; [vm_compute; reflexivity|].
  apply (parsed_price_is_a_nonnegative_number "Avg Price: UAH 0.00" 0).
  vm_compute. reflexivity.
Defined.

(** What the search finds is an occurrence, and the leftmost one. *)
Lemma re_search_from_leftmost (text g : string) (n i : nat) :
  re_search_from n text = Some (i, g) ->
  exists j, i = (n + j)%nat
            /\ pattern_occurs_at text j
            /\ forall j', (j' < j)%nat -> ~ pattern_occurs_at text j'.
Proof.
  revert n. induction text as [|c text IH]; intros n; rewrite re_search_from_eq.
  - destruct (match_here "") eqn:Em; [|discriminate].
    intros H. inversion H; subst. exists 0%nat.
    split; [lia|]. split; [exact (match_here_sound _ _ Em) | intros; lia].
  - destruct (match_here (String c text)) eqn:Em.
    + intros H. inversion H; subst. exists 0%nat.
      split; [lia|]. split; [exact (match_here_sound _ _ Em) | intros; lia].
    + intros H. destruct (IH _ H) as (j & -> & Ho & Hl).
      exists (S j). split; [lia|]. split; [now apply pattern_occurs_shift|].
      intros [|j'] Hj' Ho'.
      * apply match_here_complete in Ho'. congruence.
      * apply pattern_occurs_shift in Ho'. apply (Hl j'); [lia | exact Ho'].
Qed.

(** X6. The extraction returns a price exactly when the pattern occurs in
    the text, and raises [AttributeError], never another exception, exactly
    when it occurs nowhere: [float] accepts whatever the pattern matched. *)
Theorem parse_price_fails_only_without_pattern (table_text : string) :
  ((exists p, parse_price table_text = Ok p)
   <-> exists i, pattern_occurs_at table_text i)
  /\ (parse_price table_text = Raise AttributeError
      <-> forall i, ~ pattern_occurs_at table_text i)
  /\ (forall e, parse_price table_text = Raise e -> e = AttributeError).
Proof.
  assert (Hfound : forall i, pattern_occurs_at table_text i ->
                             exists p, parse_price table_text = Ok p).
  { intros i Ho. apply (re_search_from_finds table_text 0 i) in Ho.
    fold (re_search table_text) in Ho.
    destruct (re_search table_text) as [[j g]|] eqn:E; [|congruence].
    exact (parse_price_found _ _ _ E). }
  assert (Hnone : (forall i, ~ pattern_occurs_at table_text i) ->
                  parse_price table_text = Raise AttributeError).
  { intros H. unfold parse_price, re_search. now rewrite re_search_from_none. }
  split; [|split].
  - split; [|intros [i Hi]; exact (Hfound i Hi)].
    intros [p Hp]. unfold parse_price in Hp.
    destruct (re_search table_text) as [[j g]|] eqn:E; [|discriminate].
    destruct (re_search_from_leftmost _ _ _ _ E) as (i & _ & Ho & _). eauto.
  - split; [|exact Hnone].
    intros H i Ho. destruct (Hfound i Ho) as [p Hp]. congruence.
  - intros e He.
    destruct (re_search table_text) as [[j g]|] eqn:E.
    + destruct (parse_price_found _ _ _ E) as [p Hp]. congruence.
    + unfold parse_price in He. rewrite E in He. congruence.
Qed.

Lemma match_here_group_value (whole frac post : string) :
  whole <> "" -> all_in is_digit_or_comma whole = true ->
  frac <> "" -> all_in is_digit frac = true ->
  starts_with_digit post = false ->
  match_here (AVG_PRICE_PREFIX ++ whole ++ "." ++ frac ++ post)%string
  = Some (whole ++ String "." frac)%string.
Proof.
  intros Hw0 Hw Hf0 Hf Hpost. unfold match_here.
  change ("." ++ frac ++ post)%string with (String "." (frac ++ post)).
  rewrite strip_prefix_app, (span_all_app _ _ _ Hw).
  rewrite span_stops by reflexivity. cbn [fst snd]. rewrite append_empty_r.
  destruct whole as [|w0 whole]; [congruence|].
  rewrite Ascii.eqb_refl, (span_all_app _ _ _ Hf), (span_digit_stops _ Hpost).
  cbn [fst snd]. rewrite append_empty_r.
  destruct frac; [congruence | reflexivity].
Qed.

Lemma float_of_string_value (whole frac : string) :
  all_in is_digit_or_comma whole = true ->
  frac <> "" -> all_in is_digit frac = true ->
  float_of_string (remove_commas (whole ++ String "." frac))
  = Ok (float_of_decimal (digits_value 0 (remove_commas whole ++ frac))
          (String.length frac)).
Proof.
  intros Hw Hf0 Hf.
  rewrite remove_commas_app. cbn [remove_commas].
  change (is_comma ".") with false. cbv iota.
  rewrite (remove_commas_digits _ Hf).
  unfold float_of_string.
  rewrite (span_all_app _ _ _ (remove_commas_whole _ Hw)).
  rewrite span_stops by reflexivity. cbn [fst snd]. rewrite append_empty_r.
  rewrite Ascii.eqb_refl, (span_all _ _ Hf).
  destruct frac; [congruence|]. now destruct (remove_commas whole).
Qed.

(** X7. Where the leftmost occurrence of the pattern is
    ["Avg Price: UAH " ++ whole ++ "." ++ frac] and no digit follows it, the
    price is the binary64 number of the decimal whose integer digits are
    those of [whole], thousands separators dropped wherever they stand, and
    whose decimals are [frac]. *)
Theorem parse_price_reads_the_decimal (pre whole frac post : string) :
  (forall i, (i < String.length pre)%nat ->
             ~ pattern_occurs_at
                 (pre ++ AVG_PRICE_PREFIX ++ whole ++ "." ++ frac ++ post)%string i) ->
  whole <> "" -> all_in is_digit_or_comma whole = true ->
  frac <> "" -> all_in is_digit frac = true ->
  starts_with_digit post = false ->
  parse_price (pre ++ AVG_PRICE_PREFIX ++ whole ++ "." ++ frac ++ post)%string
  = Ok (float_of_decimal (digits_value 0 (remove_commas whole ++ frac)%string)
          (String.length frac)).
Proof.
  intros Hpre Hw0 Hw Hf0 Hf Hpost.
  rewrite (parse_price_of_group _ (whole ++ String "." frac)%string (String.length pre)).
  - now apply float_of_string_value.
  - unfold re_search. rewrite re_search_from_skip by exact Hpre.
    rewrite re_search_from_eq, match_here_group_value by assumption.
    reflexivity.
Qed.

Lemma parse_price_reads_the_decimal_witness :
  parse_price "Min Price: UAH 900.00 Avg Price: UAH 1,2,34,567.125 Qty"
  = Ok 1234567.125%float.
Proof.
  apply (parse_price_reads_the_decimal "Min Price: UAH 900.00 " "1,2,34,567" "125" " Qty").
  - apply no_match_within_sound. vm_compute. reflexivity.
  - discriminate.
  - reflexivity.
  - discriminate.
  - reflexivity.
  - reflexivity.
Defined.

(** ** Web Fetcher: images saved, first failure *)

Lemma saved_paths_app (a b : list event) :
  saved_paths (a ++ b) = saved_paths a ++ saved_paths b.
Proof. apply flat_map_app. Qed.

(** A round that succeeds saves one image, at the item's path, which is the
    item's name under [IMG_PATH]. *)
Lemma fetch_item_saves (w : Web) (r : MinifigureInputData)
  (evs : list event) (it : MinifigureWebData) :
  fetch_item w r = (evs, Ok it) ->
  saved_paths evs = [image it]
  /\ image it = (IMG_PATH ++ "/" ++ name it ++ ".jpg")%string.
Proof.
  intros H.
  destruct (fetch_item_cases w r)
    as [(pg & t & txt & p & url & resp & _ & _ & _ & _ & _ & _ & _ & _ & E)|[e E]];
    cbv zeta in E; rewrite E in H; [|discriminate].
  inversion H; subst. split; reflexivity.
Qed.

Lemma fetch_item_raises_silently (w : Web) (r : MinifigureInputData)
  (evs : list event) (e : exn) :
  fetch_item w r = (evs, Raise e) -> evs = [].
Proof.
  intros H.
  destruct (fetch_item_cases w r)
    as [(pg & t & txt & p & url & resp & _ & _ & _ & _ & _ & _ & _ & _ & E)|[e' E]];
    cbv zeta in E; rewrite E in H; [discriminate|].
  now inversion H.
Qed.

Lemma fetch_loop_saves (w : Web) (l : list MinifigureInputData)
  (acc : list MinifigureWebData) (evs : list event) (ex : loop_exit) :
  fetch_loop w l acc = (evs, ex) ->
  exists items,
    result_list ex = acc ++ items
    /\ saved_paths evs = map image items
    /\ Forall (fun it => image it = (IMG_PATH ++ "/" ++ name it ++ ".jpg")%string) items.
Proof.
  revert acc evs ex. induction l as [|r l IH]; intros acc evs ex; simpl.
  - intros H. inversion H; subst. exists []. simpl.
    rewrite app_nil_r. repeat split. constructor.
  - destruct (fetch_item w r) as [e [it|err]] eqn:Hr.
    + destruct (fetch_loop w l (acc ++ [it])) as [evs' ex'] eqn:Hl.
      intros H. inversion H; subst.
      destruct (IH _ _ _ Hl) as (items & Hres & Hs & Hi).
      destruct (fetch_item_saves _ _ _ _ Hr) as [Hp Himg].
      exists (it :: items). split; [now rewrite Hres, <- app_assoc|].
      split; [rewrite saved_paths_app, Hp, Hs; reflexivity|].
      constructor; assumption.
    + intros H. inversion H; subst.
      rewrite (fetch_item_raises_silently _ _ _ _ Hr).
      exists []. rewrite app_nil_r. repeat split. constructor.
Qed.

Lemma saved_paths_makedirs (b : bool) :
  saved_paths (if b then [] else [EvMakedirs IMG_PATH]) = [].
Proof. now destruct b. Qed.

(** X8. When the Web Fetcher returns, it has saved one image per item, in
    the order of the items and at the path each item carries, which is the
    item's name with ".jpg" under "img"; the browser session is closed after
    the last image, and that is the last thing it does. *)
Theorem fetch_minifigures_data_saves_one_image_per_item
  (w : Web) (input_list : list MinifigureInputData)
  (evs : list event) (items : list MinifigureWebData) :
  fetch_minifigures_data w input_list = (evs, Ok items) ->
  saved_paths evs = map image items
  /\ Forall (fun it => image it = (IMG_PATH ++ "/" ++ name it ++ ".jpg")%string) items
  /\ exists before, evs = before ++ [EvDriverQuit] /\ ~ In EvDriverQuit before.
Proof.
  unfold fetch_minifigures_data.
  destruct (fetch_loop w input_list []) as [evl ex] eqn:Hl.
  destruct (raised ex) eqn:Hr; [discriminate|].
  intros H. inversion H; subst.
  destruct (fetch_loop_saves _ _ _ _ _ Hl) as (items & Hres & Hs & Hi).
  simpl in Hres. rewrite Hres.
  split; [|split].
  - rewrite !saved_paths_app, saved_paths_makedirs, Hs. simpl.
    now rewrite app_nil_r.
  - exact Hi.
  - exists ((if img_dir_exists w then [] else [EvMakedirs IMG_PATH]) ++ evl).
    split; [now rewrite <- app_assoc|].
    pose proof (fetch_loop_events w input_list []) as Hev. rewrite Hl in Hev.
    exact (proj2 (run_aborted_makedirs _ _ (save_images_only _ Hev))).
Qed.

Lemma fetch_minifigures_data_saves_one_image_per_item_witness :
  saved_paths
    [ EvSaveImage "img/Lukes X-Wing.jpg" [Byte.x89; Byte.x50];
      EvSaveImage "img/DarthVader.jpg" [Byte.x89; Byte.x50];
      EvSaveImage "img/Leia.jpg" [Byte.x89; Byte.x50];
      EvDriverQuit ]
  = [ "img/Lukes X-Wing.jpg"; "img/DarthVader.jpg"; "img/Leia.jpg" ].
Proof.
  refine (proj1 (fetch_minifigures_data_saves_one_image_per_item
                   sample_web_ok sample_records _
                   [ {| name := "Lukes X-Wing"; price := 10; quantity := PyInt 2;
                        image := "img/Lukes X-Wing.jpg" |};
                     {| name := "DarthVader"; price := 1030; quantity := PyFloat nan;
                        image := "img/DarthVader.jpg" |};
                     {| name := "Leia"; price := 20.5; quantity := PyInt 1;
                        image := "img/Leia.jpg" |} ] _)).
  vm_compute. reflexivity.
Defined.

(** The loop stops at the first round that raises. *)
Lemma fetch_loop_first_failure (w : Web)
  (before : list MinifigureInputData) (r : MinifigureInputData)
  (after : list MinifigureInputData) (items acc : list MinifigureWebData)
  (e : exn) :
  Forall2 (fun r it => exists ev, fetch_item w r = (ev, Ok it)) before items ->
  fetch_item w r = ([], Raise e) ->
  exists evl,
    fetch_loop w (before ++ r :: after) acc
    = (evl, {| result_list := acc ++ items; raised := Some e |})
    /\ saved_paths evl = map image items
    /\ Forall is_save_image evl.
Proof.
  intros Hb Hr. revert acc. induction Hb as [|r0 it before items [ev0 H0] _ IH];
    intros acc; simpl.
  - rewrite Hr. exists []. rewrite app_nil_r. repeat split. constructor.
  - rewrite H0. destruct (IH (acc ++ [it])) as (evl & -> & Hs & Hf).
    exists (ev0 ++ evl). rewrite <- app_assoc. split; [reflexivity|].
    destruct (fetch_item_saves _ _ _ _ H0) as [Hp _].
    split; [rewrite saved_paths_app, Hp, Hs; reflexivity|].
    apply Forall_app. split; [|exact Hf].
    pose proof (fetch_item_events w r0) as He. now rewrite H0 in He.
Qed.

(** X9. The first round that raises ends the Web Fetcher with its exception:
    the images of the records before it have been saved and no other, the
    records after it are not visited, the list built so far holds the items
    of the records before it, and the browser session is not closed. *)
Theorem fetch_minifigures_data_stops_at_first_failure (w : Web)
  (before : list MinifigureInputData) (r : MinifigureInputData)
  (after : list MinifigureInputData) (items : list MinifigureWebData)
  (ev : list event) (e : exn) :
  Forall2 (fun r it => exists ev, fetch_item w r = (ev, Ok it)) before items ->
  fetch_item w r = (ev, Raise e) ->
  exists evs evl,
    fetch_minifigures_data w (before ++ r :: after) = (evs, Raise e)
    /\ saved_paths evs = map image items
    /\ ~ In EvDriverQuit evs
    /\ fetch_loop w (before ++ r :: after) []
       = (evl, {| result_list := items; raised := Some e |}).
Proof.
  intros Hb Hr.
  rewrite (fetch_item_raises_silently _ _ _ _ Hr) in Hr.
  destruct (fetch_loop_first_failure w before r after items [] e Hb Hr)
    as (evl & Hl & Hs & Hf).
  simpl in Hl. unfold fetch_minifigures_data. rewrite Hl. simpl.
  eexists. exists evl. split; [reflexivity|].
  split; [now rewrite saved_paths_app, saved_paths_makedirs, Hs|].
  split; [|reflexivity].
  exact (proj2 (run_aborted_makedirs _ _ (save_images_only _ Hf))).
Qed.

Lemma fetch_minifigures_data_stops_at_first_failure_witness :
  exists evs evl,
    fetch_minifigures_data sample_web sample_records = (evs, Raise ValueError)
    /\ saved_paths evs = ["img/Lukes X-Wing.jpg"]
    /\ ~ In EvDriverQuit evs
    /\ fetch_loop sample_web sample_records []
       = (evl, {| result_list :=
                    [ {| name := "Lukes X-Wing"; price := 10; quantity := PyInt 2;
                         image := "img/Lukes X-Wing.jpg" |} ];
                  raised := Some ValueError |}).
Proof.
  apply (fetch_minifigures_data_stops_at_first_failure sample_web
           [ {| link := PyStr "https://shop/luke"; in_quantity := PyInt 2 |} ]
           {| link := PyStr "https://shop/vader"; in_quantity := PyFloat nan |}
           [ {| link := PyStr "https://shop/leia"; in_quantity := PyInt 1 |} ]
           [ {| name := "Lukes X-Wing"; price := 10; quantity := PyInt 2;
                image := "img/Lukes X-Wing.jpg" |} ]
           []).
  - constructor; [|constructor]. eexists. vm_compute. reflexivity.
  - vm_compute. reflexivity.
Defined.

Lemma fetch_minifigures_data_closes (w : Web)
  (l : list MinifigureInputData) :
  In EvDriverQuit (fst (fetch_minifigures_data w l))
  <-> exists items, snd (fetch_minifigures_data w l) = Ok items.
Proof.
  unfold fetch_minifigures_data.
  pose proof (fetch_loop_events w l []) as Hev.
  destruct (fetch_loop w l []) as [evl ex].
  destruct (raised ex); simpl; split.
  - intros Hin. exfalso.
    exact (proj2 (run_aborted_makedirs _ _ (save_images_only _ Hev)) Hin).
  - intros [items H]. discriminate.
  - eauto.
  - intros _. rewrite !in_app_iff. right. right. now left.
Qed.

Lemma fetch_minifigures_data_returned (w : Web)
  (l : list MinifigureInputData) (evs : list event)
  (items : list MinifigureWebData) :
  fetch_minifigures_data w l = (evs, Ok items) ->
  Forall2 (fun r it => exists e, fetch_item w r = (e, Ok it)) l items.
Proof.
  unfold fetch_minifigures_data. intros H.
  destruct (fetch_loop w l []) as [evl ex] eqn:Hl.
  destruct (raised ex) eqn:Hr; [discriminate|].
  destruct (fetch_loop_returned _ _ _ _ _ Hl Hr) as (its & Hi & Hf).
  assert (E : items = its) by (simpl in Hi; inversion H; congruence).
  subst. exact Hf.
Qed.

Lemma fetch_minifigures_data_all_ok (w : Web) (l : list MinifigureInputData) :
  (forall r, In r l -> round_succeeds w r) ->
  exists evs items, fetch_minifigures_data w l = (evs, Ok items).
Proof.
  intros H.
  destruct (fetch_loop_all_ok w l [] H) as (evs & items & Hl & _).
  unfold fetch_minifigures_data. rewrite Hl. simpl. eauto.
Qed.

Lemma Forall2_rounds_succeed (w : Web) (l : list MinifigureInputData)
  (items : list MinifigureWebData) :
  Forall2 (fun r it => exists e, fetch_item w r = (e, Ok it)) l items ->
  forall r, In r l -> round_succeeds w r.
Proof.
  intros Hf r Hin.
  induction Hf as [|r0 it l0 its [e He] _ IH]; [contradiction|].
  destruct Hin as [<-|Hin]; [exists e, it; exact He | now apply IH].
Qed.

(** X10. The Web Fetcher returns exactly when the round of every record
    succeeds, and it closes the browser session exactly when it returns. *)
Theorem fetch_minifigures_data_returns_iff
  (w : Web) (input_list : list MinifigureInputData) :
  ((exists evs items, fetch_minifigures_data w input_list = (evs, Ok items))
   <-> forall r, In r input_list -> round_succeeds w r)
  /\ (In EvDriverQuit (fst (fetch_minifigures_data w input_list))
      <-> exists items, snd (fetch_minifigures_data w input_list) = Ok items).
Proof.
  split; [split|apply fetch_minifigures_data_closes].
  - intros (evs & items & H).
    exact (Forall2_rounds_succeed _ _ _ (fetch_minifigures_data_returned _ _ _ _ H)).
  - apply fetch_minifigures_data_all_ok.
Qed.

(** X11. The events of the Web Fetcher have one shape, whether it returns or
    raises and whatever the records: first the image directory is created,
    exactly when it is missing as the run starts; then images are saved and
    nothing else happens; last the browser session is closed, or not.  So the
    directory is never created twice, nor after an image has been saved. *)
Theorem fetch_minifigures_data_makes_directory_first (w : Web)
  (input_list : list MinifigureInputData) :
  exists images closing,
    fst (fetch_minifigures_data w input_list)
    = (if img_dir_exists w then [] else [EvMakedirs IMG_PATH])
        ++ images ++ closing
    /\ Forall is_save_image images
    /\ (closing = [] \/ closing = [EvDriverQuit]).
Proof.
  unfold fetch_minifigures_data.
  pose proof (fetch_loop_events w input_list []) as Hev.
  destruct (fetch_loop w input_list []) as [evl ex]. simpl in Hev.
  exists evl.
  destruct (raised ex); simpl.
  - exists []. rewrite app_nil_r. auto.
  - exists [EvDriverQuit]. auto.
Qed.

(** ** Aggregator: when it returns, idempotence, the order is forced *)

Lemma nan_not_infinity (f : float) : is_nan f = true -> is_infinity f = false.
Proof.
  intros Hn. unfold is_infinity. rewrite eqb_spec, abs_spec.
  assert (Hs : Prim2SF f = S754_nan) by (unfold Prim2SF; now rewrite Hn).
  now rewrite Hs.
Qed.

Lemma int_of_float_returns (f : float) (k : Z) :
  int_of_float f = Ok k -> is_infinity f = false.
Proof.
  unfold int_of_float. intros H.
  destruct (Prim2SF_cases f)
    as [[Hn _]|[(_ & _ & s & Hs)|(_ & Hi & _)]].
  - now apply nan_not_infinity.
  - rewrite Hs in H. discriminate.
  - exact Hi.
Qed.

Lemma int_of_float_raises (f : float) (e : exn) :
  is_nan f = false -> int_of_float f = Raise e -> e = OverflowError.
Proof.
  unfold int_of_float. intros Hn H.
  pose proof (Prim2SF_not_nan _ Hn) as Hnn.
  destruct (Prim2SF f); try congruence.
Qed.

(** The factor is defined on the quantities of the data model only. *)
Lemma quantity_factor_returns (q : pyval) (k : Z) :
  quantity_factor q = Ok k -> quantity_ok q = true.
Proof.
  destruct q as [|z|f|s]; unfold quantity_factor; simpl; try discriminate.
  - reflexivity.
  - destruct (int_too_large z); [discriminate | reflexivity].
  - destruct (is_nan f) eqn:Hn; intros H; apply negb_true_iff.
    + now apply nan_not_infinity.
    + exact (int_of_float_returns _ _ H).
Qed.

Lemma quantity_factor_raises (q : pyval) (e : exn) :
  quantity_factor q = Raise e -> e = TypeError \/ e = OverflowError.
Proof.
  destruct q as [|z|f|s]; unfold quantity_factor; simpl; try discriminate.
  - destruct (int_too_large z); [|discriminate]. intros H. inversion H. auto.
  - destruct (is_nan f) eqn:Hn; [discriminate|].
    intros H. right. exact (int_of_float_raises _ _ Hn H).
  - intros H. inversion H. auto.
Qed.

Lemma sum_values_returns (items : list MinifigureWebData) (acc v : pyval) :
  sum_values items acc = Ok v ->
  Forall (fun it => quantity_ok (quantity it) = true) items.
Proof.
  revert acc. induction items as [|it items IH]; intros acc H; [constructor|].
  simpl in H.
  destruct (quantity_factor (quantity it)) as [k|e] eqn:Hk; [|discriminate].
  simpl in H.
  destruct (float_mul_int (price it) k) as [t|e]; [|discriminate]. simpl in H.
  destruct (py_add_float acc t) as [acc'|e]; [|discriminate]. simpl in H.
  constructor; [exact (quantity_factor_returns _ _ Hk) | exact (IH _ H)].
Qed.

Lemma sum_values_raises (items : list MinifigureWebData) (acc : pyval) (e : exn) :
  sum_values items acc = Raise e -> e = TypeError \/ e = OverflowError.
Proof.
  revert acc. induction items as [|it items IH]; intros acc H; [discriminate|].
  simpl in H.
  destruct (quantity_factor (quantity it)) as [k|e1] eqn:Hk; simpl in H.
  2:{ inversion H; subst. exact (quantity_factor_raises _ _ Hk). }
  unfold float_mul_int, float_of_int in H.
  destruct (int_too_large k); simpl in H; [inversion H; auto|].
  destruct acc as [|z|a|s]; simpl in H; try (inversion H; auto; fail).
  - unfold float_of_int in H. destruct (int_too_large z); simpl in H;
      [inversion H; auto | exact (IH _ H)].
  - exact (IH _ H).
Qed.

Lemma sort_minifigure_list_returned (l : list MinifigureWebData)
  (r : pyval * list MinifigureWebData) :
  sort_minifigure_list l = Ok r ->
  Forall (fun it => quantity_ok (quantity it) = true) l.
Proof.
  intros Hr. unfold sort_minifigure_list in Hr.
  destruct (sum_values (sorted_by_price_reverse l) (PyInt 0))
    as [v|e] eqn:Hs; [|discriminate].
  apply (Permutation_Forall (x := sorted_by_price_reverse l)).
  - apply sorted_by_price_reverse_perm.
  - exact (sum_values_returns _ _ _ Hs).
Qed.

(** X12. The Aggregator returns exactly when every quantity is absent, NaN, a
    float that is not infinite or an int that fits a float; otherwise it
    raises, and then a [TypeError] or an [OverflowError]. *)
Theorem sort_minifigure_list_returns_iff (input_list : list MinifigureWebData) :
  ((exists r, sort_minifigure_list input_list = Ok r)
   <-> Forall (fun it => quantity_ok (quantity it) = true) input_list)
  /\ (forall e, sort_minifigure_list input_list = Raise e ->
                e = TypeError \/ e = OverflowError).
Proof.
  split; [split|].
  - intros [r Hr]. exact (sort_minifigure_list_returned _ _ Hr).
  - intros H. eexists. exact (sort_minifigure_list_returns _ H).
  - intros e He. unfold sort_minifigure_list in He.
    destruct (sum_values (sorted_by_price_reverse input_list) (PyInt 0))
      as [v|e'] eqn:Hs; [discriminate|].
    inversion He; subst. exact (sum_values_raises _ _ _ Hs).
Qed.

Lemma sorted_by_price_reverse_fixed (l : list MinifigureWebData) :
  Forall (fun it => is_nan (price it) = false) l ->
  sorted_by_price_reverse (sorted_by_price_reverse l) = sorted_by_price_reverse l.
Proof.
  intros Hn.
  assert (Hs : Forall (fun it => is_nan (price it) = false) (sorted_by_price_reverse l)).
  { apply (Permutation_Forall (x := l)); [|exact Hn].
    apply Permutation_sym, sorted_by_price_reverse_perm. }
  symmetry. apply sorted_by_price_reverse_unique.
  - exact Hs.
  - apply Permutation_refl.
  - now apply sorted_by_price_reverse_sorted.
  - reflexivity.
Qed.

(** X13. Sorting again changes nothing: on the list the Aggregator returned
    it returns the same list and the same total. *)
Theorem sort_minifigure_list_idempotent
  (input_list out : list MinifigureWebData) (total : pyval) :
  Forall (fun it => is_nan (price it) = false) input_list ->
  sort_minifigure_list input_list = Ok (total, out) ->
  sort_minifigure_list out = Ok (total, out).
Proof.
  intros Hn Hs.
  assert (Hq : Forall (fun it => quantity_ok (quantity it) = true) input_list).
  { exact (sort_minifigure_list_returned _ _ Hs). }
  rewrite (sort_minifigure_list_returns _ Hq) in Hs. inversion Hs; subst.
  assert (Hq' : Forall (fun it => quantity_ok (quantity it) = true)
                  (sorted_by_price_reverse input_list)).
  { apply (Permutation_Forall (x := input_list)); [|exact Hq].
    apply Permutation_sym, sorted_by_price_reverse_perm. }
  rewrite (sort_minifigure_list_returns _ Hq').
  rewrite (sorted_by_price_reverse_fixed _ Hn).
  destruct input_list as [|x l]; [reflexivity|].
  destruct (sorted_by_price_reverse (x :: l)) eqn:E; [|reflexivity].
  exfalso. pose proof (sorted_by_price_reverse_perm (x :: l)) as P.
  rewrite E in P. exact (Permutation_nil_cons P).
Qed.

Lemma sort_minifigure_list_idempotent_witness :
  Forall (fun it => is_nan (price it) = false) sample_ties
  /\ sort_minifigure_list
       [ sample_figure "B" 30 (PyFloat nan);
         sample_figure "D" 30 (PyInt 1);
         sample_figure "E" 20 PyNone;
         sample_figure "A" 10 (PyInt 2);
         sample_figure "C" 10 (PyFloat 2.5) ]
     = Ok (PyFloat 120,
           [ sample_figure "B" 30 (PyFloat nan);
             sample_figure "D" 30 (PyInt 1);
             sample_figure "E" 20 PyNone;
             sample_figure "A" 10 (PyInt 2);
             sample_figure "C" 10 (PyFloat 2.5) ]).
Proof.
  assert (H : Forall (fun it => is_nan (price it) = false) sample_ties)
    by (repeat constructor).
  split; [exact H|].
  apply (sort_minifigure_list_idempotent sample_ties _ _ H).
  vm_compute. reflexivity.
Defined.

(** X14. The order of the result is forced: a list that holds the items of
    the input, by decreasing price, with the items of each price in their
    input order, is the list the Aggregator returns. *)
Theorem sort_minifigure_list_order_is_forced
  (input_list out sorted_list : list MinifigureWebData) (total : pyval) :
  Forall (fun it => is_nan (price it) = false) input_list ->
  sort_minifigure_list input_list = Ok (total, sorted_list) ->
  Permutation out input_list ->
  StronglySorted price_ge out ->
  (forall p, with_price p out = with_price p input_list) ->
  out = sorted_list.
Proof.
  intros Hn Hs Hp Hd Hw.
  rewrite (sort_minifigure_list_order _ _ _ Hs).
  now apply sorted_by_price_reverse_unique.
Qed.

Lemma sort_minifigure_list_order_is_forced_witness :
  [ sample_figure "Vader" 30 PyNone;
    sample_figure "Leia" 20 (PyFloat 1);
    sample_figure "Luke" 10 (PyInt 2) ]
  = sorted_by_price_reverse sample_figures.
Proof.
  apply (sort_minifigure_list_order_is_forced sample_figures
           [ sample_figure "Vader" 30 PyNone;
             sample_figure "Leia" 20 (PyFloat 1);
             sample_figure "Luke" 10 (PyInt 2) ]
           (sorted_by_price_reverse sample_figures) (PyFloat 70)).
  - repeat constructor.
  - vm_compute. reflexivity.
  - unfold sample_figures.
    eapply perm_trans; [|apply perm_swap].
    apply perm_skip. apply perm_swap.
  - repeat constructor.
  - intros p. unfold with_price, sample_figures. simpl.
    destruct (10 =? p)%float eqn:E1; destruct (30 =? p)%float eqn:E2;
      destruct (20 =? p)%float eqn:E3; try reflexivity; exfalso.
    all: try (pose proof (eqb_same_not_ltb _ _ _ E1 E2) as C; vm_compute in C; discriminate).
    all: try (pose proof (eqb_same_not_ltb _ _ _ E1 E3) as C; vm_compute in C; discriminate).
    all: try (pose proof (eqb_same_not_ltb _ _ _ E3 E2) as C; vm_compute in C; discriminate).
Defined.

(** ** Report Renderer: what the document holds *)

Lemma cell_texts_app (a b : list pdf_op) :
  cell_texts (a ++ b) = cell_texts a ++ cell_texts b.
Proof. apply flat_map_app. Qed.

Lemma image_files_app (a b : list pdf_op) :
  image_files (a ++ b) = image_files a ++ image_files b.
Proof. apply flat_map_app. Qed.

Lemma cell_draws_one_text (rt : Runtime) (pdf : FPDF) (w h : float)
  (txt : string) (lf : bool) :
  cell_texts (ops (cell rt pdf w h txt lf)) = cell_texts (ops pdf) ++ [txt]
  /\ image_files (ops (cell rt pdf w h txt lf)) = image_files (ops pdf).
Proof.
  unfold cell.
  destruct (page_break_trigger rt <? cur_y pdf + h)%float; destruct lf; simpl;
    rewrite ?cell_texts_app, ?image_files_app; simpl;
    rewrite ?app_nil_r; split; reflexivity.
Qed.

Lemma page_check_draws_nothing (rt : Runtime) (pdf : FPDF) :
  cell_texts (ops (page_check rt pdf)) = cell_texts (ops pdf)
  /\ image_files (ops (page_check rt pdf)) = image_files (ops pdf).
Proof.
  unfold page_check. destruct (260 <? get_y pdf)%float; simpl;
    rewrite ?cell_texts_app, ?image_files_app; simpl;
    rewrite ?app_nil_r; split; reflexivity.
Qed.

Lemma render_row_draws (rt : Runtime) (pdf pdf' : FPDF) (i : Z)
  (d : MinifigureWebData) :
  render_row rt pdf i d = Ok pdf' ->
  exists pv,
    price_value rt d = Ok pv
    /\ cell_texts (ops pdf')
       = cell_texts (ops pdf) ++ [(str_of_int i ++ ". " ++ name d)%string; pv]
    /\ image_files (ops pdf') = image_files (ops pdf) ++ [image d].
Proof.
  unfold render_row. cbv zeta.
  destruct (cell_draws_one_text rt pdf 120 10
              (str_of_int i ++ ". " ++ name d)%string false) as [Ht1 Hi1].
  set (c1 := cell rt pdf 120 10 (str_of_int i ++ ". " ++ name d)%string false) in *.
  destruct (price_value rt d) as [pv|e]; cbn [bind]; [|discriminate].
  destruct (cell_draws_one_text rt c1 20 10 pv false) as [Ht2 Hi2].
  set (c2 := cell rt c1 20 10 pv false) in *.
  intros H. assert (E : pdf' = ln rt (pdf_image c2 (image d)
                                        (get_x pdf + 166)%float (get_y pdf) 20 20) 22)
    by congruence.
  subst pdf'. exists pv. split; [reflexivity|].
  unfold ln, pdf_image. cbn [ops].
  rewrite cell_texts_app, image_files_app, Ht2, Hi2, Ht1, Hi1.
  cbn [cell_texts image_files flat_map app].
  rewrite app_nil_r, <- app_assoc. split; reflexivity.
Qed.

Lemma render_items_draw (rt : Runtime) (items : list MinifigureWebData)
  (i : Z) (pdf pdf' : FPDF) :
  render_items rt items i pdf = Ok pdf' ->
  exists pvs,
    Forall2 (fun d pv => price_value rt d = Ok pv) items pvs
    /\ cell_texts (ops pdf') = cell_texts (ops pdf) ++ numbered_rows i items pvs
    /\ image_files (ops pdf') = image_files (ops pdf) ++ map image items.
Proof.
  revert i pdf. induction items as [|d items IH]; intros i pdf; simpl.
  - intros H. inversion H; subst. exists []. rewrite !app_nil_r.
    repeat split. constructor.
  - unfold render_item.
    destruct (render_row rt (page_check rt pdf) i d) as [pdf1|e] eqn:Hrow;
      simpl; [|discriminate].
    intros H. destruct (IH _ _ H) as (pvs & Hf & Ht & Hi).
    destruct (render_row_draws _ _ _ _ _ Hrow) as (pv & Hpv & Ht1 & Hi1).
    destruct (page_check_draws_nothing rt pdf) as [Hc1 Hc2].
    rewrite Hc1 in Ht1. rewrite Hc2 in Hi1.
    exists (pv :: pvs). split; [constructor; assumption|].
    rewrite Ht, Ht1, Hi, Hi1, <- !app_assoc. split; reflexivity.
Qed.

Lemma pdf_header_draws (rt : Runtime) (total : pyval) :
  cell_texts (ops (pdf_header rt total))
  = [("My LEGO StarWars minifigures total value: UAH " ++ py_format rt total)%string]
  /\ image_files (ops (pdf_header rt total)) = [].
Proof.
  unfold pdf_header, ln. cbn [ops].
  destruct (cell_draws_one_text rt (add_page rt FPDF_new) 200 10
              ("My LEGO StarWars minifigures total value: UAH " ++ py_format rt total)%string
              true) as [-> ->].
  split; reflexivity.
Qed.

(** X15. The document that is written holds, in drawing order, the header
    line with the total, then for each item of the list, in the order of the
    list, a cell with its rank, counted from 1, and its name, and a cell
    with its price text; and one image per item, in the same order, from the
    file the item carries. *)
Theorem create_pdf_document_rows (rt : Runtime) (total_value : pyval)
  (input_list : list MinifigureWebData) (evs : list event) :
  create_pdf_document rt total_value input_list = (evs, Ok tt) ->
  exists doc price_texts,
    evs = [EvPdfOutput PDF_NAME doc]
    /\ Forall2 (fun d pv => price_value rt d = Ok pv) input_list price_texts
    /\ cell_texts doc
       = ("My LEGO StarWars minifigures total value: UAH "
            ++ py_format rt total_value)%string
           :: numbered_rows 1 input_list price_texts
    /\ image_files doc = map image input_list.
Proof.
  unfold create_pdf_document.
  destruct (render_items rt input_list 1 (pdf_header rt total_value))
    as [pdf'|e] eqn:Hr; simpl; [|discriminate].
  intros H. inversion H; subst.
  destruct (render_items_draw _ _ _ _ _ Hr) as (pvs & Hf & Ht & Hi).
  destruct (pdf_header_draws rt total_value) as [Hh1 Hh2].
  rewrite Hh1 in Ht. rewrite Hh2 in Hi.
  exists (ops pdf'), pvs. repeat split; assumption.
Qed.

Lemma create_pdf_document_rows_witness :
  exists doc price_texts,
    fst (create_pdf_document sample_runtime (PyFloat 70) sample_figures)
    = [EvPdfOutput PDF_NAME doc]
    /\ Forall2 (fun d pv => price_value sample_runtime d = Ok pv)
         sample_figures price_texts
    /\ cell_texts doc
       = "My LEGO StarWars minifigures total value: UAH #"
           :: numbered_rows 1 sample_figures price_texts
    /\ image_files doc = map image sample_figures.
Proof.
  apply (create_pdf_document_rows sample_runtime (PyFloat 70) sample_figures).
  vm_compute. reflexivity.
Defined.

Lemma price_value_returns_iff (rt : Runtime) (d : MinifigureWebData) :
  (exists pv, price_value rt d = Ok pv) <-> renderable (quantity d) = true.
Proof.
  unfold price_value, renderable.
  destruct (quantity d) as [|z|f|s]; simpl.
  - split; eauto.
  - destruct (z =? 0)%Z; simpl; [split; eauto|].
    destruct (int_too_large z); simpl; split; eauto;
      first [intros [pv H]; discriminate | discriminate].
  - destruct (f =? 0)%float; simpl; [split; eauto|].
    destruct (is_nan f) eqn:Hn; simpl.
    + split; [intros _; apply negb_true_iff; now apply nan_not_infinity | eauto].
    + split.
      * intros [pv H]. apply negb_true_iff.
        destruct (int_of_float f) as [k|e] eqn:Hk; [|discriminate].
        exact (int_of_float_returns _ _ Hk).
      * intros H. apply negb_true_iff in H.
        destruct (int_of_float_fits f Hn H) as [-> _]. simpl. eauto.
  - destruct s; simpl; split; eauto;
      first [intros [pv H]; discriminate | discriminate].
Qed.

Lemma price_value_raises (rt : Runtime) (d : MinifigureWebData) (e : exn) :
  price_value rt d = Raise e -> e = TypeError \/ e = OverflowError.
Proof.
  unfold price_value.
  destruct (quantity d) as [|z|f|s]; simpl; try discriminate.
  - destruct (z =? 0)%Z; simpl; [discriminate|].
    destruct (int_too_large z); simpl; [|discriminate].
    intros H. inversion H. auto.
  - destruct (f =? 0)%float; simpl; [discriminate|].
    destruct (is_nan f) eqn:Hn; simpl; [discriminate|].
    destruct (int_of_float f) as [k|e'] eqn:Hk; simpl; [discriminate|].
    intros H. inversion H; subst. right. exact (int_of_float_raises _ _ Hn Hk).
  - destruct s; simpl; [discriminate|]. intros H. inversion H. auto.
Qed.

Lemma render_items_returns_iff (rt : Runtime) (items : list MinifigureWebData)
  (i : Z) (pdf : FPDF) :
  (exists pdf', render_items rt items i pdf = Ok pdf')
  <-> Forall (fun d => renderable (quantity d) = true) items.
Proof.
  revert i pdf. induction items as [|d items IH]; intros i pdf; simpl.
  - split; [constructor | eauto].
  - unfold render_item, render_row. cbv zeta.
    set (c1 := cell rt (page_check rt pdf) 120 10 _ false).
    split.
    + intros [pdf' H].
      destruct (price_value rt d) as [pv|e] eqn:Hpv; cbn [bind] in H; [|discriminate].
      constructor.
      * apply (proj1 (price_value_returns_iff rt d)). eauto.
      * eapply (proj1 (IH _ _)). exists pdf'. exact H.
    + intros H. inversion H as [|? ? Hd Hr]; subst.
      destruct (proj2 (price_value_returns_iff rt d) Hd) as [pv ->]. cbn [bind].
      apply (proj2 (IH _ _)). exact Hr.
Qed.

(** X16. The price text of line 133 exists exactly for the quantities the
    line accepts: falsy ([None], zero, the empty text), NaN, or a number that
    has an integer value; for any other it raises [TypeError] or
    [OverflowError].  The Report Renderer writes all or nothing, one document
    at [PDF_NAME] or no event at all, and it writes only when line 133
    accepts the quantity of every item: a single quantity it rejects leaves
    no document. *)
Theorem create_pdf_document_all_or_nothing (rt : Runtime)
  (total_value : pyval) (input_list : list MinifigureWebData) :
  (forall d, (exists pv, price_value rt d = Ok pv)
             <-> renderable (quantity d) = true)
  /\ (forall d e, price_value rt d = Raise e ->
                  e = TypeError \/ e = OverflowError)
  /\ ((exists doc, create_pdf_document rt total_value input_list
                   = ([EvPdfOutput PDF_NAME doc], Ok tt))
      \/ (exists e, create_pdf_document rt total_value input_list
                    = ([], Raise e)))
  /\ ((exists evs, create_pdf_document rt total_value input_list = (evs, Ok tt))
      -> Forall (fun d => renderable (quantity d) = true) input_list)
  /\ (Exists (fun d => renderable (quantity d) = false) input_list ->
      exists e, create_pdf_document rt total_value input_list = ([], Raise e)).
Proof.
  split; [intros d; apply price_value_returns_iff|].
  split; [intros d e; apply price_value_raises|].
  unfold create_pdf_document.
  pose proof (render_items_returns_iff rt input_list 1 (pdf_header rt total_value)) as Hiff.
  destruct (render_items rt input_list 1 (pdf_header rt total_value))
    as [pdf'|e] eqn:Hr; simpl.
  - assert (Hf : Forall (fun d => renderable (quantity d) = true) input_list)
      by (apply Hiff; eauto).
    split; [left; eauto|]. split; [intros _; exact Hf|].
    intros Hex. exfalso. rewrite Forall_forall in Hf.
    apply Exists_exists in Hex as (d & Hin & Hd).
    rewrite (Hf d Hin) in Hd. discriminate.
  - split; [right; eauto|]. split; [intros [evs H]; discriminate | eauto].
Qed.

(** X17. Where the Aggregator's factor for an item is [k], the price cell of
    that item shows the multiplier "x" [k], except that it shows none when
    the quantity is absent, NaN or zero. *)
Theorem price_value_shows_the_factor (rt : Runtime) (d : MinifigureWebData)
  (k : Z) :
  quantity_factor (quantity d) = Ok k ->
  price_value rt d
  = Ok (if is_missing (quantity d) || py_not (quantity d)
        then ("UAH " ++ float_repr rt (price d))%string
        else ("UAH " ++ float_repr rt (price d) ++ " x" ++ str_of_int k)%string).
Proof.
  unfold quantity_factor, price_value.
  destruct (quantity d) as [|z|f|s]; simpl; try discriminate.
  - reflexivity.
  - destruct (int_too_large z); simpl; [discriminate|].
    intros H. inversion H; subst. destruct (k =? 0)%Z; reflexivity.
  - destruct (is_nan f) eqn:Hn; simpl.
    + intros _. destruct (f =? 0)%float; reflexivity.
    + intros H. rewrite H. destruct (f =? 0)%float; reflexivity.
Qed.

Lemma price_value_shows_the_factor_witness :
  quantity_factor (PyFloat 2.5) = Ok 2%Z
  /\ price_value sample_runtime (sample_figure "C" 10 (PyFloat 2.5))
     = Ok "UAH # x2".
Proof.
  split; [vm_compute; reflexivity|].
  apply (price_value_shows_the_factor sample_runtime
           (sample_figure "C" 10 (PyFloat 2.5)) 2).
  vm_compute. reflexivity.
Defined.

(** ** Report Renderer: the pages of the document *)

Lemma pages_started_app (a b : list pdf_op) :
  pages_started (a ++ b) = (pages_started a + pages_started b)%nat.
Proof.
  unfold pages_started. now rewrite filter_app, length_app.
Qed.

Lemma on_latest_page_app (n : nat) (a b : list pdf_op) :
  on_latest_page n (a ++ b)
  = on_latest_page n a && on_latest_page (n + pages_started a) b.
Proof.
  revert n. induction a as [|op a IH]; intros n; simpl.
  - now rewrite Nat.add_0_r.
  - destruct op; rewrite IH; unfold pages_started; simpl.
    + f_equal. f_equal. lia.
    + now rewrite !andb_assoc.
    + now rewrite !andb_assoc.
Qed.

Lemma add_page_consistent (rt : Runtime) (pdf : FPDF) :
  pages_started (ops pdf) = page_no pdf ->
  on_latest_page 0 (ops pdf) = true ->
  pages_consistent (add_page rt pdf).
Proof.
  intros Hc Hl. unfold pages_consistent, add_page. simpl.
  rewrite pages_started_app, on_latest_page_app, Hc, Hl.
  unfold pages_started. simpl. repeat split; lia.
Qed.

Lemma cell_consistent (rt : Runtime) (pdf : FPDF) (w h : float) (txt : string)
  (l : bool) :
  pages_consistent pdf -> pages_consistent (cell rt pdf w h txt l).
Proof.
  intros (H1 & Hc & Hl). unfold cell.
  destruct (page_break_trigger rt <? cur_y pdf + h)%float; cbv zeta.
  - destruct (add_page_consistent rt pdf Hc Hl) as (A1 & Ac & Al).
    destruct l; unfold pages_consistent; cbn [page_no ops];
      rewrite pages_started_app, on_latest_page_app, Ac, Al; unfold pages_started;
      simpl; rewrite Nat.eqb_refl; repeat split; try lia;
      destruct (page_no pdf); reflexivity.
  - destruct l; unfold pages_consistent; cbn [page_no ops];
      rewrite pages_started_app, on_latest_page_app, Hc, Hl; unfold pages_started;
      simpl; rewrite Nat.eqb_refl; repeat split; try lia;
      destruct (page_no pdf); [lia | reflexivity | lia | reflexivity].
Qed.

Lemma pdf_image_consistent (pdf : FPDF) (file : string) (x y w h : float) :
  pages_consistent pdf -> pages_consistent (pdf_image pdf file x y w h).
Proof.
  intros (H1 & Hc & Hl). unfold pages_consistent, pdf_image. cbn [page_no ops].
  rewrite pages_started_app, on_latest_page_app, Hc, Hl. unfold pages_started.
  simpl. rewrite Nat.eqb_refl. repeat split; try lia.
  destruct (page_no pdf); [lia | reflexivity].
Qed.

Lemma page_check_consistent (rt : Runtime) (pdf : FPDF) :
  pages_consistent pdf -> pages_consistent (page_check rt pdf).
Proof.
  intros H. unfold page_check. destruct (260 <? get_y pdf)%float; [|exact H].
  destruct H as (_ & Hc & Hl). now apply add_page_consistent.
Qed.

Lemma render_items_consistent (rt : Runtime) (items : list MinifigureWebData)
  (i : Z) (pdf pdf' : FPDF) :
  pages_consistent pdf -> render_items rt items i pdf = Ok pdf' ->
  pages_consistent pdf'.
Proof.
  revert i pdf. induction items as [|d items IH]; intros i pdf Hp; simpl.
  - intros H. inversion H; subst. exact Hp.
  - unfold render_item, render_row. cbv zeta.
    pose proof (cell_consistent rt _ 120 10 (str_of_int i ++ ". " ++ name d)%string
                  false (page_check_consistent rt pdf Hp)) as H1.
    set (c1 := cell rt (page_check rt pdf) 120 10 _ false) in *.
    destruct (price_value rt d) as [pv|e]; cbn [bind]; [|discriminate].
    apply IH.
    pose proof (pdf_image_consistent _ (image d)
                  (get_x (page_check rt pdf) + 166)%float
                  (get_y (page_check rt pdf)) 20 20
                  (cell_consistent rt c1 20 10 pv false H1)) as H2.
    exact H2.
Qed.

Lemma on_latest_page_starts (doc : list pdf_op) :
  on_latest_page 0 doc = true -> (1 <= pages_started doc)%nat ->
  exists rest, doc = OpAddPage :: rest.
Proof.
  destruct doc as [|[| |] rest]; simpl.
  - unfold pages_started. simpl. lia.
  - eauto.
  - rewrite andb_false_r. discriminate.
  - rewrite andb_false_r. discriminate.
Qed.

(** X18. The document that is written begins by starting a page, and every
    cell and image in it is drawn on a page that has been started, the
    latest one at that point: the script draws nothing before line 114 and
    nothing on a page it has left. *)
Theorem create_pdf_document_pages (rt : Runtime) (total_value : pyval)
  (input_list : list MinifigureWebData) (evs : list event) :
  create_pdf_document rt total_value input_list = (evs, Ok tt) ->
  exists rest,
    evs = [EvPdfOutput PDF_NAME (OpAddPage :: rest)]
    /\ on_latest_page 0 (OpAddPage :: rest) = true.
Proof.
  unfold create_pdf_document.
  destruct (render_items rt input_list 1 (pdf_header rt total_value))
    as [pdf'|e] eqn:Hr; simpl; [|discriminate].
  intros H. inversion H; subst.
  assert (Hh : pages_consistent (pdf_header rt total_value)).
  { unfold pdf_header, ln. cbv zeta.
    pose proof (cell_consistent rt (add_page rt FPDF_new) 200 10
                  ("My LEGO StarWars minifigures total value: UAH "
                     ++ py_format rt total_value)%string true
                  (add_page_consistent rt FPDF_new eq_refl eq_refl)) as Hc.
    exact Hc. }
  destruct (render_items_consistent _ _ _ _ _ Hh Hr) as (H1 & Hc & Hl).
  destruct (on_latest_page_starts _ Hl) as [rest Hd]; [lia|].
  exists rest. rewrite Hd in Hl |- *. split; [reflexivity | exact Hl].
Qed.

Lemma create_pdf_document_pages_witness :
  exists rest,
    fst (create_pdf_document sample_runtime (PyFloat 120) sample_dozen)
    = [EvPdfOutput PDF_NAME (OpAddPage :: rest)]
    /\ on_latest_page 0 (OpAddPage :: rest) = true.
Proof.
  apply (create_pdf_document_pages sample_runtime (PyFloat 120) sample_dozen).
  vm_compute. reflexivity.
Defined.

(** ** Whole runs: the stages composed *)

Lemma fetch_minifigures_data_no_document (w : Web)
  (l : list MinifigureInputData) :
  no_document (fst (fetch_minifigures_data w l)).
Proof.
  unfold fetch_minifigures_data.
  pose proof (fetch_loop_events w l []) as Hev.
  destruct (fetch_loop w l []) as [evl ex]. simpl in Hev.
  destruct (raised ex); simpl.
  - exact (proj1 (run_aborted_makedirs _ _ (save_images_only _ Hev))).
  - intros path doc Hin. rewrite app_assoc in Hin.
    apply in_app_or in Hin as [Hin|[Hin|[]]]; [|discriminate].
    exact (proj1 (run_aborted_makedirs _ _ (save_images_only _ Hev)) _ _ Hin).
Qed.

Lemma create_pdf_document_cases (rt : Runtime) (total : pyval)
  (items : list MinifigureWebData) :
  (exists doc, create_pdf_document rt total items
               = ([EvPdfOutput PDF_NAME doc], Ok tt))
  \/ (exists e, create_pdf_document rt total items = ([], Raise e)).
Proof.
  unfold create_pdf_document.
  destruct (render_items rt items 1 (pdf_header rt total)) as [pdf'|e]; simpl; eauto.
Qed.

(** X19. A run writes at most one document, and writes it last: when [main]
    returns, its events end with the document at [PDF_NAME], no document is
    written before it and the browser session has been closed; when [main]
    raises, in whatever stage, no document is written. *)
Theorem main_writes_the_document_last_or_never (w : Web) (rt : Runtime) :
  match main w rt with
  | (evs, Ok _) =>
      exists before doc,
        evs = before ++ [EvPdfOutput PDF_NAME doc]
        /\ no_document before /\ In EvDriverQuit before
  | (evs, Raise _) => no_document evs
  end.
Proof.
  unfold main. rewrite io_bind_lift.
  destruct (read_excel w EXCEL_PATH) as [input_list|e]; [|intros ? ? []].
  pose proof (fetch_minifigures_data_no_document w input_list) as Hnd.
  pose proof (proj2 (fetch_minifigures_data_closes w input_list)) as Hq.
  destruct (fetch_minifigures_data w input_list) as [evs1 [items|e]];
    cbn [io_bind fst snd] in *; [|exact Hnd].
  rewrite io_bind_lift.
  destruct (sort_minifigure_list items) as [[total sorted_list]|e].
  - destruct (create_pdf_document_cases rt total sorted_list) as [[doc ->]|[e ->]].
    + exists evs1, doc. split; [reflexivity|]. split; [exact Hnd|]. apply Hq. eauto.
    + now rewrite app_nil_r.
  - now rewrite app_nil_r.
Qed.

Lemma quantity_ok_renderable (q : pyval) :
  quantity_ok q = true -> renderable q = true.
Proof. unfold renderable. intros ->. apply orb_true_r. Qed.

(** What the Aggregator returns, the Report Renderer accepts. *)
Lemma sorted_list_renderable (l out : list MinifigureWebData) (total : pyval) :
  sort_minifigure_list l = Ok (total, out) ->
  Forall (fun d => renderable (quantity d) = true) out.
Proof.
  intros Hs.
  pose proof (sort_minifigure_list_returned _ _ Hs) as Hq.
  rewrite (sort_minifigure_list_order _ _ _ Hs).
  apply (Permutation_Forall (x := l)).
  - apply Permutation_sym, sorted_by_price_reverse_perm.
  - eapply Forall_impl; [|exact Hq]. intros d. apply quantity_ok_renderable.
Qed.

Lemma create_pdf_document_returns (rt : Runtime) (total : pyval)
  (items : list MinifigureWebData) :
  Forall (fun d => renderable (quantity d) = true) items ->
  exists doc, create_pdf_document rt total items
              = ([EvPdfOutput PDF_NAME doc], Ok tt).
Proof.
  intros H. unfold create_pdf_document.
  destruct (proj2 (render_items_returns_iff rt items 1 (pdf_header rt total)) H)
    as [pdf' ->].
  simpl. eauto.
Qed.

(** X20. On what the Aggregator returned, line 133 cannot raise: a quantity
    that it would reject has already stopped line 106.  So, once the total
    is computed, every item of the sorted list has its price text, and no
    quantity can stop the Report Renderer. *)
Theorem price_value_after_sort (rt : Runtime)
  (web_data_list sorted_list : list MinifigureWebData) (total_value : pyval) :
  sort_minifigure_list web_data_list = Ok (total_value, sorted_list) ->
  Forall (fun d => renderable (quantity d) = true) sorted_list
  /\ Forall (fun d => exists pv, price_value rt d = Ok pv) sorted_list.
Proof.
  intros Hs. pose proof (sorted_list_renderable _ _ _ Hs) as H.
  split; [exact H|].
  eapply Forall_impl; [|exact H].
  intros d. apply price_value_returns_iff.
Qed.

Lemma price_value_after_sort_witness :
  Forall (fun d => renderable (quantity d) = true)
    (sorted_by_price_reverse sample_ties)
  /\ Forall (fun d => exists pv, price_value sample_runtime d = Ok pv)
       (sorted_by_price_reverse sample_ties).
Proof.
  apply (price_value_after_sort sample_runtime sample_ties _ (PyFloat 120)).
  vm_compute. reflexivity.
Defined.

Lemma fetched_quantities (w : Web) (l : list MinifigureInputData)
  (items : list MinifigureWebData) :
  Forall2 (fun r it => exists e, fetch_item w r = (e, Ok it)) l items ->
  Forall (fun r => quantity_ok (in_quantity r) = true) l
  <-> Forall (fun it => quantity_ok (quantity it) = true) items.
Proof.
  induction 1 as [|r it l items [e He] _ IH].
  - split; constructor.
  - destruct (fetch_item_quantity _ _ _ _ He) as [Hq _].
    split; intros Hf; inversion Hf; subst; constructor;
      try (apply IH; assumption); congruence.
Qed.

(** X21. A run returns exactly when the Input Loader returns, the round of
    every record it returned succeeds, and every quantity it read is absent,
    NaN, a float that is not infinite or an int that fits a float: beyond
    the Loader's and the Fetcher's failures, only a quantity can stop a
    run. *)
Theorem main_returns_iff (w : Web) (rt : Runtime) :
  (exists evs, main w rt = (evs, Ok tt))
  <-> exists input_list,
        read_excel w EXCEL_PATH = Ok input_list
        /\ (forall r, In r input_list -> round_succeeds w r)
        /\ Forall (fun r => quantity_ok (in_quantity r) = true) input_list.
Proof.
  unfold main. rewrite io_bind_lift.
  destruct (read_excel w EXCEL_PATH) as [input_list|e].
  2:{ split; [intros [evs H]; discriminate | intros (l & H & _); discriminate]. }
  split.
  - intros [evs H]. exists input_list. split; [reflexivity|].
    destruct (fetch_minifigures_data w input_list) as [evs1 [items|e]] eqn:Hf;
      cbn [io_bind] in H; [|discriminate].
    pose proof (fetch_minifigures_data_returned _ _ _ _ Hf) as H2.
    split; [exact (Forall2_rounds_succeed _ _ _ H2)|].
    apply (fetched_quantities _ _ _ H2).
    rewrite io_bind_lift in H.
    destruct (sort_minifigure_list items) as [r|e] eqn:Hs.
    + exact (sort_minifigure_list_returned _ _ Hs).
    + rewrite app_nil_r in H. discriminate.
  - intros (l & Hl & Hr & Hq). inversion Hl; subst l.
    destruct (fetch_minifigures_data_all_ok w input_list Hr) as (evs1 & items & Hf).
    pose proof (fetch_minifigures_data_returned _ _ _ _ Hf) as H2.
    rewrite Hf. cbn [io_bind]. rewrite io_bind_lift.
    pose proof (sort_minifigure_list_returns items
                  (proj1 (fetched_quantities _ _ _ H2) Hq)) as Hs.
    set (total := match items with [] => PyInt 0 | _ :: _ => _ end) in Hs.
    destruct (create_pdf_document_returns rt total _
                (sorted_list_renderable _ _ _ Hs)) as [doc Hd].
    rewrite Hs. cbn beta iota. rewrite Hd. eauto.
Qed.
